(** * The Dart VM bootstrap of the engine: [sky/engine/core/script/dart_init.cc]

    A shallow embedding of the embedder callbacks of [dart_init.cc]: the
    symbol resolvers, the execution-mode test, the VM flag composition of
    [InitDartVM], the isolate-creation callbacks, the hook setters, the
    service-stream callbacks and the file-modification callback.

    Calls that leave the file (the operating system, the dynamic linker, the
    Dart VM, the asset bundle) are answered by an environment [Env]; every such
    call is recorded as an [Event].  The process-wide globals of the file are
    the fields of [Process].  A failed [FTL_CHECK] ends a run with [Fatal]. *)

From stdpp Require Import base option list strings gmap.
From Stdlib Require Import ZArith Lia Ascii.
From Stdlib.Strings Require Import Byte.

Local Open Scope string_scope.
Local Open Scope list_scope.
Local Open Scope Z_scope.

(** ** Pointers, C strings, build configuration *)

(** A pointer is its address; [nullptr] is address 0. *)
Definition ptr := Z.
Definition nullptr : ptr := 0.

Definition is_null (p : ptr) : bool := p =? nullptr.

(** [strcmp] on C strings, represented by their contents: the sign of the
    lexicographic comparison of the two byte sequences. *)
Definition strcmp (a b : string) : Z :=
  match String.compare a b with
  | Eq => 0
  | Lt => -1
  | Gt => 1
  end.

(** [base::StartsWith(str, prefix, base::CompareCase::SENSITIVE)] and
    [base::StartsWithASCII(str, prefix, true)] of the [base] library: the
    case-sensitive prefix test. *)
Definition StartsWith (str search_for : string) : bool :=
  String.prefix search_for str.

(** [p + n] on a [const char*]: the string without its first [n] bytes. *)
Fixpoint advance (n : nat) (s : string) : string :=
  match n, s with
  | O, _ => s
  | S n', String _ s' => advance n' s'
  | S _, EmptyString => EmptyString
  end.

(** [base::ReplaceFirstSubstringAfterOffset(&str, offset, find, replace)]. *)
Definition ReplaceFirstSubstringAfterOffset
    (str : string) (offset : nat) (find_this replace_with : string) : string :=
  match String.index offset find_this str with
  | Some i =>
      String.substring 0 i str +:+ replace_with +:+
      advance (i + String.length find_this) str
  | None => str
  end.

(** Which branch of [#if DART_ALLOW_DYNAMIC_RESOLUTION] / [#if OS(IOS)] /
    [#elif OS(ANDROID)] the file is compiled with. *)
Inductive Resolution : Type :=
  | StaticResolution      (* !DART_ALLOW_DYNAMIC_RESOLUTION *)
  | DynamicIOS            (* DART_ALLOW_DYNAMIC_RESOLUTION && OS(IOS) *)
  | DynamicAndroid.       (* DART_ALLOW_DYNAMIC_RESOLUTION && OS(ANDROID) *)

(** The preprocessor symbols the file branches on. *)
Record Build : Type := mkBuild {
  resolution : Resolution;
  FLUTTER_PRODUCT_MODE : bool;
  DART_STRICT : bool;                (* ENABLE(DART_STRICT) *)
  WTF_OS_IOS_OR_MACOSX : bool;       (* WTF_OS_IOS || WTF_OS_MACOSX *)
  OS_ANDROID : bool
}.

(** The fields of [SkySettings] the file reads. *)
Record SkySettings : Type := mkSkySettings {
  enable_observatory : bool;
  observatory_port : Z;
  enable_dart_checked_mode : bool;
  start_paused : bool;
  trace_startup : bool;
  aot_snapshot_path : string;
  temp_directory_path : string
}.

(** [base::CommandLine] is its switch map, a [gmap string string]. *)
Definition HasSwitch (command_line : gmap string string) (switch : string) : bool :=
  bool_decide (is_Some (command_line !! switch)).

Definition GetSwitchValueNative
    (command_line : gmap string string) (switch : string) : string :=
  default "" (command_line !! switch).

(** ** Constants of the file *)

Definition kSnapshotAssetKey : string := "snapshot_blob.bin".

Definition kDartProfilingArgs (build : Build) : list string :=
  "--profile_period=1000" ::
  (if WTF_OS_IOS_OR_MACOSX build then ["--no-profiler"] else []).

Definition kDartMirrorsArgs : list string := ["--enable_mirrors=false"].

Definition kDartPrecompilationArgs : list string := ["--precompilation"].

Definition kDartBackgroundCompilationArgs : list string :=
  ["--background_compilation"].

Definition kDartCheckedModeArgs : list string :=
  [ "--enable_asserts";
    "--enable_type_checks";
    "--error_on_bad_type";
    "--error_on_bad_override" ].

Definition kDartStartPausedArgs : list string := ["--pause_isolates_on_start"].

Definition kDartTraceStartupArgs : list string :=
  [ "--timeline_streams=Compiler,Dart,Embedder,GC";
    "--timeline_recorder=endless" ].

Definition kFileUriPrefix : string := "file://".

Definition kDartFlags : string := "dart-flags".


Definition kDartVmIsolateSnapshotBufferName : string :=
  "kDartVmIsolateSnapshotBuffer".
Definition kDartIsolateSnapshotBufferName : string :=
  "kDartIsolateSnapshotBuffer".
Definition kInstructionsSnapshotName : string := "kInstructionsSnapshot".
Definition kDataSnapshotName : string := "kDataSnapshot".

Definition kDartApplicationLibraryPath : string := "app.dylib".

(** Constants of [<sys/mman.h>]. *)
Definition PROT_READ : Z := 1.
Definition PROT_EXEC : Z := 4.
Definition MAP_FAILED : ptr := -1.

(** ** Process state *)

(** A function pointer handed over by the embedder, named by a number. *)
Definition Hook := nat.

(** [struct SymbolAsset]; the fields are read as [SymbolAsset.mapping a]. *)
Module SymbolAsset.
Record t : Type := mk {
  symbol_name : string;
  file_name : string;
  is_executable : bool;
  mapping : ptr
}.
End SymbolAsset.

(** The initial contents of [g_symbol_assets] ([mapping] zero-initialised). *)
Definition g_symbol_assets_initial : list SymbolAsset.t :=
  [ SymbolAsset.mk kDartVmIsolateSnapshotBufferName "snapshot_aot_vmisolate" false nullptr;
    SymbolAsset.mk kDartIsolateSnapshotBufferName "snapshot_aot_isolate" false nullptr;
    SymbolAsset.mk kInstructionsSnapshotName "snapshot_aot_instr" true nullptr;
    SymbolAsset.mk kDataSnapshotName "snapshot_aot_rodata" false nullptr ].

(** The mutable globals: those of the file, the capture switches of
    [dart::bin] that the stream callbacks set, and the calling thread's
    pending [dlerror] message. *)
Record Process : Type := mkProcess {
  g_service_isolate_initialized : bool;
  g_service_isolate_hook : option Hook;
  g_register_native_service_protocol_extensions_hook : option Hook;
  g_symbol_assets : list SymbolAsset.t;
  capture_stdout : bool;
  capture_stderr : bool;
  dl_error : option string
}.

Definition process_start : Process :=
  mkProcess false None None g_symbol_assets_initial false false None.

Definition with_initialized (b : bool) (s : Process) : Process :=
  mkProcess b (g_service_isolate_hook s)
    (g_register_native_service_protocol_extensions_hook s)
    (g_symbol_assets s) (capture_stdout s) (capture_stderr s) (dl_error s).

Definition with_service_isolate_hook (h : option Hook) (s : Process) : Process :=
  mkProcess (g_service_isolate_initialized s) h
    (g_register_native_service_protocol_extensions_hook s)
    (g_symbol_assets s) (capture_stdout s) (capture_stderr s) (dl_error s).

Definition with_extensions_hook (h : option Hook) (s : Process) : Process :=
  mkProcess (g_service_isolate_initialized s) (g_service_isolate_hook s) h
    (g_symbol_assets s) (capture_stdout s) (capture_stderr s) (dl_error s).

Definition with_symbol_assets (t : list SymbolAsset.t) (s : Process) : Process :=
  mkProcess (g_service_isolate_initialized s) (g_service_isolate_hook s)
    (g_register_native_service_protocol_extensions_hook s)
    t (capture_stdout s) (capture_stderr s) (dl_error s).



Definition with_dl_error (err : option string) (s : Process) : Process :=
  mkProcess (g_service_isolate_initialized s) (g_service_isolate_hook s)
    (g_register_native_service_protocol_extensions_hook s)
    (g_symbol_assets s) (capture_stdout s) (capture_stderr s) err.

(** ** The environment and the calls made into it *)

(** What [dlopen] and [dlsym] answer: the returned pointer and, on failure,
    the message the next [dlerror] reports. *)
Record DlAnswer : Type := mkDlAnswer {
  dl_value : ptr;
  dl_message : option string
}.

(** [base::File::Info], with [base::Time] as microseconds on one timeline. *)
Record File_Info : Type := mkFile_Info {
  last_modified : Z
}.

(** The answers of everything outside the file while one callback runs.
    Between two runs the outside may change (a file appears, a mapping that
    failed succeeds), so each run is given its own environment. *)
Record Env : Type := mkEnv {
  (* base/files *)
  FilePath_Append : string -> string -> string;
  GetFileSize : string -> option Z;
  GetFileInfo : string -> option File_Info;
  (* libc *)
  sys_open : string -> Z;
  sys_mmap : Z -> Z -> Z -> ptr;
  sys_dlopen : option string -> DlAnswer;
  sys_dlsym : ptr -> string -> DlAnswer;
  (* addresses of the linked snapshot symbols *)
  linked_symbol : string -> ptr;
  (* asset bundle *)
  GetAsBuffer : string -> string -> option (list byte);
  (* Dart VM and bindings *)
  new_DartState : ptr;
  CreateForChildIsolate : ptr -> ptr;
  Dart_CreateIsolate : option string -> option string -> ptr -> ptr -> ptr;
  Dart_IsServiceIsolate : ptr -> bool;
  Dart_SetLibraryTagHandler_is_error : bool;
  DartServiceIsolate_Startup : string -> Z -> bool -> bool -> bool;
  Dart_LoadScriptFromSnapshot_is_error : list byte -> bool;
  Dart_IsolateMakeRunnable : ptr -> bool
}.

(** One call that leaves the file. *)
Inductive Event : Type :=
  (* file I/O of the asset-mapping resolver *)
  | Ev_GetFileSize (path : string)
  | Ev_open (path : string)
  | Ev_mmap (length prot fd : Z)
  | Ev_close (fd : Z)
  (* dynamic linker *)
  | Ev_dlopen (library : option string)
  | Ev_dlsym (handle : ptr) (symbol : string)
  (* asset bundle *)
  | Ev_ZipAssetBundle (bundle_path : string)
  | Ev_GetAsBuffer (asset : string)
  (* Dart VM and bindings *)
  | Ev_new_DartState
  | Ev_CreateForChildIsolate (parent : ptr)
  | Ev_Dart_CreateIsolate (script_uri main : option string) (snapshot state : ptr)
  | Ev_SetIsolate (state isolate : ptr)
  | Ev_Dart_IsServiceIsolate (isolate : ptr)
  | Ev_Dart_SetLibraryTagHandler
  | Ev_DartApiScope_enter
  | Ev_DartApiScope_leave
  | Ev_DartIO_InitForIsolate
  | Ev_DartUI_InitForIsolate
  | Ev_DartMojoInternal_InitForIsolate
  | Ev_DartRuntimeHooks_Install (script_uri : option string)
  | Ev_DartServiceIsolate_Startup (ip : string) (port : Z)
      (running_precompiled disable_origin_check : bool)
  | Ev_service_isolate_hook (hook : Hook) (running_precompiled : bool)
  | Ev_extensions_hook (hook : Hook) (running_precompiled : bool)
  | Ev_add_provider (name library : string)
  | Ev_DartJni_InitForIsolate
  | Ev_Dart_LoadScriptFromSnapshot (buffer : list byte)
  | Ev_DidCreateSecondaryIsolate (isolate : ptr)
  | Ev_Dart_ExitIsolate
  | Ev_Dart_IsolateMakeRunnable (isolate : ptr).

(** ** Runs *)

Inductive Result (A : Type) : Type :=
  | Ret (a : A)
  | Fatal.
Arguments Ret {A} a.
Arguments Fatal {A}.

(** The outcome of running a piece of the file: what it returned (or that a
    check aborted the process), the globals it left, the calls it made. *)
Record Run (A : Type) : Type := mkRun {
  result : Result A;
  final : Process;
  events : list Event
}.
Arguments mkRun {A} result final events.
Arguments result {A} r.
Arguments final {A} r.
Arguments events {A} r.

Definition M (A : Type) : Type := Process -> Run A.

Definition ret {A : Type} (a : A) : M A :=
  fun s => mkRun (Ret a) s [].

Definition bind {A B : Type} (m : M A) (f : A -> M B) : M B :=
  fun s =>
    let r := m s in
    match result r with
    | Ret a =>
        let r' := f a (final r) in
        mkRun (result r') (final r') (events r ++ events r')
    | Fatal => mkRun Fatal (final r) (events r)
    end.

Declare Scope run_scope.
Delimit Scope run_scope with run.
Bind Scope run_scope with M.
Notation "x ← y ; z" := (bind y (fun x => z))
  (at level 20, y at level 100, z at level 200, only parsing) : run_scope.
Notation "x ;; z" := (bind x (fun _ => z))
  (at level 100, z at level 200, only parsing, right associativity) : run_scope.
Local Open Scope run_scope.

(** A call into the environment: recorded, then answered. *)
Definition call {A : Type} (ev : Event) (answer : A) : M A :=
  fun s => mkRun (Ret answer) s [ev].

Definition get {A : Type} (field : Process -> A) : M A :=
  fun s => mkRun (Ret (field s)) s [].

Definition modify (f : Process -> Process) : M unit :=
  fun s => mkRun (Ret tt) (f s) [].

Definition fatal {A : Type} : M A :=
  fun s => mkRun Fatal s [].

(** [FTL_CHECK(condition)] and [CHECK(condition)]. *)
Definition FTL_CHECK (condition : bool) : M unit :=
  if condition then ret tt else fatal.

Definition CHECK (condition : bool) : M unit := FTL_CHECK condition.

(** ** The symbol resolvers ([#if DART_ALLOW_DYNAMIC_RESOLUTION]) *)

(** The [OS(IOS)] branch: resolution through the dynamic linker. *)
Module IOS.
Section Resolver.
Variable e : Env.

(** [dlerror()]: reports the pending message of the thread and clears it. *)
Definition dlerror : M (option string) :=
  fun s => mkRun (Ret (dl_error s)) (with_dl_error None s) [].

(** A linker call leaves its message, if it has one, for [dlerror]. *)
Definition linker_call (ev : Event) (a : DlAnswer) : M ptr :=
  modify (fun s =>
            match dl_message a with
            | Some msg => with_dl_error (Some msg) s
            | None => s
            end) ;;
  call ev (dl_value a).

Definition dlopen (library : option string) : M ptr :=
  linker_call (Ev_dlopen library) (sys_dlopen e library).

Definition dlsym (handle : ptr) (symbol : string) : M ptr :=
  linker_call (Ev_dlsym handle symbol) (sys_dlsym e handle symbol).

(** [symbol_name] and [library] are nullable [const char*]. *)
Definition DartLookupSymbolInLibrary
    (symbol_name library : option string) : M ptr :=
  match symbol_name with
  | None => ret nullptr
  | Some name =>
      dlerror ;;
      library_handle ← dlopen library;
      opened ← dlerror;
      if bool_decide (is_Some opened) then ret nullptr
      else
        sym ← dlsym library_handle name;
        found ← dlerror;
        ret (if bool_decide (is_Some found) then nullptr else sym)
  end.

Definition _DartSymbolLookup (symbol_name : option string) : M ptr :=
  match symbol_name with
  | None => ret nullptr
  | Some _ =>
      symbol ← DartLookupSymbolInLibrary symbol_name
                 (Some kDartApplicationLibraryPath);
      if negb (is_null symbol) then ret symbol
      else DartLookupSymbolInLibrary symbol_name None
  end.
End Resolver.
End IOS.

(** The [OS(ANDROID)] branch: resolution by mapping asset files. *)
Module ANDROID.
Section Resolver.
Variable settings : SkySettings.
Variable e : Env.

Definition empty (s : string) : bool :=
  match s with
  | EmptyString => true
  | String _ _ => false
  end.

(** The [for] loop of [_DartSymbolLookup] with the entries before the
    current one in [seen] and the current and later ones in [rest]; the
    assignment through the reference [symbol_asset] rewrites the table. *)
Fixpoint _DartSymbolLookup_from
    (symbol_name : string) (seen rest : list SymbolAsset.t) : M ptr :=
  match rest with
  | [] => ret nullptr
  | symbol_asset :: later =>
      if negb (strcmp symbol_name (SymbolAsset.symbol_name symbol_asset) =? 0)
      then _DartSymbolLookup_from symbol_name (seen ++ [symbol_asset]) later
      else if negb (is_null (SymbolAsset.mapping symbol_asset))
      then ret (SymbolAsset.mapping symbol_asset)
      else
        FTL_CHECK (negb (empty (aot_snapshot_path settings))) ;;
        let asset_path :=
          FilePath_Append e (aot_snapshot_path settings)
            (SymbolAsset.file_name symbol_asset) in
        asset_size ← call (Ev_GetFileSize asset_path) (GetFileSize e asset_path);
        match asset_size with
        | None => ret nullptr
        | Some asset_size =>
            fd ← call (Ev_open asset_path) (sys_open e asset_path);
            if fd =? -1 then ret nullptr
            else
              let mmap_flags := PROT_READ in
              let mmap_flags :=
                if SymbolAsset.is_executable symbol_asset
                then Z.lor mmap_flags PROT_EXEC else mmap_flags in
              symbol ← call (Ev_mmap asset_size mmap_flags fd)
                         (sys_mmap e asset_size mmap_flags fd);
              let mapped := if symbol =? MAP_FAILED then nullptr else symbol in
              modify (with_symbol_assets
                        (seen ++
                         SymbolAsset.mk (SymbolAsset.symbol_name symbol_asset)
                           (SymbolAsset.file_name symbol_asset)
                           (SymbolAsset.is_executable symbol_asset) mapped :: later)) ;;
              call (Ev_close fd) tt ;;
              ret mapped
        end
  end.

(** [symbol_name] is handed to [strcmp] as it comes: never null. *)
Definition _DartSymbolLookup (symbol_name : string) : M ptr :=
  fun s => _DartSymbolLookup_from symbol_name [] (g_symbol_assets s) s.
End Resolver.
End ANDROID.

(** ** Flag strings of the command line *)

(** [std::isspace] in the C locale. *)
Definition isspace (c : ascii) : bool :=
  let n := N_of_ascii c in
  ((n =? 32) || ((9 <=? n) && (n <=? 13)))%N.

(** Reading a [std::stringstream] to its end through
    [std::istream_iterator<std::string>]: each extraction skips white space
    and then takes the characters up to the next white space.  [word] holds
    the characters of the word being read. *)
Fixpoint istream_words (input word : string) : list string :=
  match input with
  | EmptyString =>
      match word with
      | EmptyString => []
      | String _ _ => [word]
      end
  | String c input' =>
      if isspace c
      then
        match word with
        | EmptyString => istream_words input' EmptyString
        | String _ _ => word :: istream_words input' EmptyString
        end
      else istream_words input' (word +:+ String c EmptyString)
  end.

(** [WTF::Vector::append(const U* data, size_t dataSize)] and [arraysize]. *)
Definition Vector_append {A : Type} (v data : list A) (dataSize : nat) : list A :=
  v ++ take dataSize data.

Definition arraysize {A : Type} (array : list A) : nat := length array.

(** ** [base::Time] *)

Definition kMillisecondsPerSecond : Z := 1000.
Definition kMicrosecondsPerMillisecond : Z := 1000.
Definition kMicrosecondsPerSecond : Z := 1000000.

(** Arithmetic on [int64_t]. *)
Definition wrap64 (z : Z) : Z := (z + 2 ^ 63) mod 2 ^ 64 - 2 ^ 63.

Definition int64 (z : Z) : Prop := - 2 ^ 63 <= z < 2 ^ 63.

(** Modelled from the spec: [base::Time::FromTimeT] and
    [base::TimeDelta::FromMilliseconds] of [base/time], which is not among the
    sources.  The spec compares a file's modification time with a
    millisecond timestamp on one time line; a [base::Time] is taken as the
    microseconds from the epoch of [time_t], unbounded. *)
Definition Time_FromTimeT (tt : Z) : Z := tt * kMicrosecondsPerSecond.

Definition TimeDelta_FromMilliseconds (ms : Z) : Z :=
  ms * kMicrosecondsPerMillisecond.

(** ** The callbacks *)

Section Embedder.
Variable build : Build.
Variable settings : SkySettings.
Variable command_line : gmap string string.
(** [DART_VM_SERVICE_ISOLATE_NAME] of [dart_api.h]. *)
Variable DART_VM_SERVICE_ISOLATE_NAME : string.
Variable e : Env.

Definition DartFileModifiedCallback (source_url : string) (since_ms : Z) : bool :=
  let url := source_url in
  if negb (StartsWith url "file:") then true
  else
    let url := ReplaceFirstSubstringAfterOffset url 0 "file:" "" in
    match GetFileInfo e url with
    | None => true
    | Some file_info =>
        let since_seconds := wrap64 (Z.quot since_ms kMillisecondsPerSecond) in
        let since_milliseconds :=
          wrap64 (since_ms - wrap64 (since_seconds * kMillisecondsPerSecond)) in
        let since_time :=
          Time_FromTimeT since_seconds +
          TimeDelta_FromMilliseconds since_milliseconds in
        last_modified file_info >? since_time
    end.

Definition IsServiceIsolateURL (url_name : option string) : bool :=
  match url_name with
  | None => false
  | Some url => String.eqb url DART_VM_SERVICE_ISOLATE_NAME
  end.

(** Modelled from the spec: the macro [DART_SYMBOL] of [dart_init.h], a header
    that is not among the sources.  With dynamic resolution the symbol is
    looked up by name through [_DartSymbolLookup] (the spec's
    [lookup(symbol_name) -> pointer | null]); without it the symbol is linked
    in and the macro is its address. *)
Definition DART_SYMBOL (name : string) : M ptr :=
  match resolution build with
  | StaticResolution => ret (linked_symbol e name)
  | DynamicIOS => IOS._DartSymbolLookup e (Some name)
  | DynamicAndroid => ANDROID._DartSymbolLookup settings e name
  end.

Definition PrecompiledInstructionsSymbolIfPresent : M ptr :=
  match resolution build with
  | StaticResolution => ret nullptr
  | _ => DART_SYMBOL kInstructionsSnapshotName
  end.

Definition IsRunningPrecompiledCode : M bool :=
  match resolution build with
  | StaticResolution => ret false
  | _ =>
      instructions ← PrecompiledInstructionsSymbolIfPresent;
      ret (negb (is_null instructions))
  end.

Definition SetServiceIsolateHook (hook : option Hook) : M unit :=
  initialized ← get g_service_isolate_initialized;
  FTL_CHECK (negb initialized) ;;
  modify (with_service_isolate_hook hook).

Definition SetRegisterNativeServiceProtocolExtensionHook
    (hook : option Hook) : M unit :=
  initialized ← get g_service_isolate_initialized;
  CHECK (negb initialized) ;;
  modify (with_extensions_hook hook).

Definition ShouldEnableCheckedMode : M bool :=
  precompiled ← IsRunningPrecompiledCode;
  if precompiled then ret false
  else if DART_STRICT build then ret true
  else ret (enable_dart_checked_mode settings).

(** The vector [args] of [InitDartVM] as it is handed to [Dart_SetVMFlags]
    (lines 541 to 580). *)
Definition InitDartVM_args : M (list string) :=
  let args : list string := [] in
  let args := args ++ ["--ignore-unrecognized-flags"] in
  let args :=
    Vector_append args (kDartProfilingArgs build)
      (arraysize (kDartProfilingArgs build)) in
  let args :=
    Vector_append args kDartMirrorsArgs (arraysize kDartMirrorsArgs) in
  let args :=
    Vector_append args kDartBackgroundCompilationArgs
      (arraysize kDartBackgroundCompilationArgs) in
  precompiled ← IsRunningPrecompiledCode;
  let args :=
    if precompiled
    then Vector_append args kDartPrecompilationArgs
           (arraysize kDartPrecompilationArgs)
    else args in
  checked ← ShouldEnableCheckedMode;
  let args :=
    if checked
    then Vector_append args kDartCheckedModeArgs (arraysize kDartCheckedModeArgs)
    else args in
  let args :=
    if start_paused settings
    then Vector_append args kDartStartPausedArgs (arraysize kDartStartPausedArgs)
    else args in
  let args :=
    if trace_startup settings
    then Vector_append args kDartTraceStartupArgs
           (arraysize kDartTraceStartupArgs)
    else args in
  let dart_flags :=
    if HasSwitch command_line kDartFlags
    then istream_words (GetSwitchValueNative command_line kDartFlags) EmptyString
    else [] in
  let args := fold_left (fun args flag => args ++ [flag]) dart_flags args in
  ret args.



(** Calling a hook global if it is set, with the execution mode. *)
Definition call_hook (hook : option Hook) (ev : Hook -> bool -> Event) : M unit :=
  match hook with
  | None => ret tt
  | Some h =>
      precompiled ← IsRunningPrecompiledCode;
      call (ev h precompiled) tt
  end.

Definition ServiceIsolateCreateCallback
    (script_uri : option string) (error : ptr) : M ptr :=
  if FLUTTER_PRODUCT_MODE build then ret nullptr
  else
    dart_state ← call Ev_new_DartState (new_DartState e);
    snapshot ← DART_SYMBOL kDartIsolateSnapshotBufferName;
    isolate ← call (Ev_Dart_CreateIsolate script_uri (Some "main") snapshot dart_state)
                (Dart_CreateIsolate e script_uri (Some "main") snapshot dart_state);
    FTL_CHECK (negb (is_null isolate)) ;;
    call (Ev_SetIsolate dart_state isolate) tt ;;
    is_service ← call (Ev_Dart_IsServiceIsolate isolate)
                   (Dart_IsServiceIsolate e isolate);
    FTL_CHECK is_service ;;
    is_error ← call Ev_Dart_SetLibraryTagHandler
                 (Dart_SetLibraryTagHandler_is_error e);
    FTL_CHECK (negb is_error) ;;
    call Ev_DartApiScope_enter tt ;;
    call Ev_DartIO_InitForIsolate tt ;;
    call Ev_DartUI_InitForIsolate tt ;;
    call Ev_DartMojoInternal_InitForIsolate tt ;;
    call (Ev_DartRuntimeHooks_Install (Some "")) tt ;;
    (if enable_observatory settings then
       let ip := "127.0.0.1" in
       let port := observatory_port settings in
       let disable_websocket_origin_check := false in
       precompiled ← IsRunningPrecompiledCode;
       service_isolate_booted ←
         call (Ev_DartServiceIsolate_Startup ip port precompiled
                 disable_websocket_origin_check)
           (DartServiceIsolate_Startup e ip port precompiled
              disable_websocket_origin_check);
       FTL_CHECK service_isolate_booted
     else ret tt) ;;
    hook ← get g_service_isolate_hook;
    call_hook hook Ev_service_isolate_hook ;;
    call Ev_DartApiScope_leave tt ;;
    call Ev_Dart_ExitIsolate tt ;;
    modify (with_initialized true) ;;
    hook ← get g_register_native_service_protocol_extensions_hook;
    call_hook hook Ev_extensions_hook ;;
    ret isolate.

Definition IsolateCreateCallback
    (script_uri main package_root package_config : option string)
    (flags callback_data error : ptr) : M ptr :=
  if IsServiceIsolateURL script_uri
  then ServiceIsolateCreateCallback script_uri error
  else
    precompiled ← IsRunningPrecompiledCode;
    snapshot_data ←
      (if negb precompiled then
         FTL_CHECK (StartsWith (default "" script_uri) kFileUriPrefix) ;;
         let bundle_path :=
           advance (String.length kFileUriPrefix) (default "" script_uri) in
         call (Ev_ZipAssetBundle bundle_path) tt ;;
         buffer ← call (Ev_GetAsBuffer kSnapshotAssetKey)
                    (GetAsBuffer e bundle_path kSnapshotAssetKey);
         match buffer with
         | None => fatal
         | Some data => ret data
         end
       else ret []);
    let parent_dart_state := callback_data in
    dart_state ← call (Ev_CreateForChildIsolate parent_dart_state)
                   (CreateForChildIsolate e parent_dart_state);
    snapshot ← DART_SYMBOL kDartIsolateSnapshotBufferName;
    isolate ← call (Ev_Dart_CreateIsolate script_uri main snapshot dart_state)
                (Dart_CreateIsolate e script_uri main snapshot dart_state);
    FTL_CHECK (negb (is_null isolate)) ;;
    call (Ev_SetIsolate dart_state isolate) tt ;;
    is_error ← call Ev_Dart_SetLibraryTagHandler
                 (Dart_SetLibraryTagHandler_is_error e);
    FTL_CHECK (negb is_error) ;;
    call Ev_DartApiScope_enter tt ;;
    call Ev_DartIO_InitForIsolate tt ;;
    call Ev_DartUI_InitForIsolate tt ;;
    call Ev_DartMojoInternal_InitForIsolate tt ;;
    call (Ev_DartRuntimeHooks_Install script_uri) tt ;;
    call (Ev_add_provider "ui" "dart:ui") tt ;;
    (if OS_ANDROID build then
       call Ev_DartJni_InitForIsolate tt ;;
       call (Ev_add_provider "jni" "dart:jni") tt
     else ret tt) ;;
    (match snapshot_data with
     | [] => ret tt
     | _ :: _ =>
         is_error ← call (Ev_Dart_LoadScriptFromSnapshot snapshot_data)
                      (Dart_LoadScriptFromSnapshot_is_error e snapshot_data);
         FTL_CHECK (negb is_error)
     end) ;;
    call (Ev_DidCreateSecondaryIsolate isolate) tt ;;
    call Ev_DartApiScope_leave tt ;;
    call Ev_Dart_ExitIsolate tt ;;
    runnable ← call (Ev_Dart_IsolateMakeRunnable isolate)
                 (Dart_IsolateMakeRunnable e isolate);
    FTL_CHECK runnable ;;
    ret isolate.

End Embedder.

(** ** Vocabulary of the statements *)

(** The specification's resolution of a symbol against a library (the
    default namespace if [library] is null): what the linker finds there,
    null if the library is absent or the symbol is absent. *)
Definition library_symbol (e : Env) (library : option string) (name : string)
    : ptr :=
  let opened := sys_dlopen e library in
  match dl_message opened with
  | Some _ => nullptr
  | None =>
      let found := sys_dlsym e (dl_value opened) name in
      match dl_message found with
      | Some _ => nullptr
      | None => dl_value found
      end
  end.

(** The specification's dynamic-library strategy: the application library
    first, the default namespace if that gives nothing. *)
Definition dynamic_library_strategy (e : Env) (name : string) : ptr :=
  let application := library_symbol e (Some kDartApplicationLibraryPath) name in
  if is_null application then library_symbol e None name else application.

(** The entry a lookup works on is the first one that carries the name. *)
Definition named (symbol_name : string) (a : SymbolAsset.t) : Prop :=
  SymbolAsset.symbol_name a = symbol_name.

(** What mapping the asset file of an entry gives in an environment: the
    pointer (null on any failure), whether the table entry is written, and
    the file calls made. *)
Definition map_asset (settings : SkySettings) (e : Env) (a : SymbolAsset.t) : ptr * bool * list Event :=
  let asset_path :=
    FilePath_Append e (aot_snapshot_path settings) (SymbolAsset.file_name a) in
  match GetFileSize e asset_path with
  | None => (nullptr, false, [Ev_GetFileSize asset_path])
  | Some asset_size =>
      let fd := sys_open e asset_path in
      if fd =? -1
      then (nullptr, false, [Ev_GetFileSize asset_path; Ev_open asset_path])
      else
        let prot :=
          if SymbolAsset.is_executable a then Z.lor PROT_READ PROT_EXEC
          else PROT_READ in
        let symbol := sys_mmap e asset_size prot fd in
        (if symbol =? MAP_FAILED then nullptr else symbol, true,
         [Ev_GetFileSize asset_path; Ev_open asset_path;
          Ev_mmap asset_size prot fd; Ev_close fd])
  end.

Definition with_mapping (p : ptr) (a : SymbolAsset.t) : SymbolAsset.t :=
  SymbolAsset.mk (SymbolAsset.symbol_name a) (SymbolAsset.file_name a)
    (SymbolAsset.is_executable a) p.

(** Every call a piece of the file makes, from whatever state, is a [P]. *)
Definition emits {A : Type} (P : Event -> Prop) (m : M A) : Prop :=
  forall s, Forall P (events (m s)).

(** A piece of the file leaves a global as it found it; a piece that returns
    leaves the process in a state [Q]. *)
Definition keeps {A B : Type} (field : Process -> B) (m : M A) : Prop :=
  forall s, field (final (m s)) = field s.

Definition ensures {A : Type} (Q : Process -> Prop) (m : M A) : Prop :=
  forall s a, result (m s) = Ret a -> Q (final (m s)).

(** The calls of the symbol resolvers, of the asset bundle, and the loading
    of a script snapshot. *)
Definition is_resolver_event (ev : Event) : bool :=
  match ev with
  | Ev_GetFileSize _ | Ev_open _ | Ev_mmap _ _ _ | Ev_close _
  | Ev_dlopen _ | Ev_dlsym _ _ => true
  | _ => false
  end.

Definition is_asset_bundle_event (ev : Event) : bool :=
  match ev with
  | Ev_ZipAssetBundle _ | Ev_GetAsBuffer _ => true
  | _ => false
  end.

Definition is_load_script_event (ev : Event) : bool :=
  match ev with
  | Ev_Dart_LoadScriptFromSnapshot _ => true
  | _ => false
  end.

(** A script load, if [ev] is one, loads a non-empty buffer that the bundle
    at [bundle_path] gave for the snapshot asset. *)
Definition loads_extracted (e : Env) (bundle_path : string) (ev : Event) : Prop :=
  forall buffer,
    ev = Ev_Dart_LoadScriptFromSnapshot buffer ->
    buffer <> [] /\ GetAsBuffer e bundle_path kSnapshotAssetKey = Some buffer.

(** White space, words, and a string laid out as words that are each
    followed by white space. *)
Definition all_space (w : string) : Prop :=
  Forall (fun c => isspace c = true) (String.list_ascii_of_string w).

Definition is_word (t : string) : Prop :=
  t <> EmptyString /\
  Forall (fun c => isspace c = false) (String.list_ascii_of_string t).

Fixpoint laid_out (items : list (string * string)) : string :=
  match items with
  | [] => EmptyString
  | (t, w) :: items' => t +:+ w +:+ laid_out items'
  end.

Fixpoint well_separated (items : list (string * string)) : Prop :=
  match items with
  | [] => True
  | (t, w) :: items' =>
      is_word t /\ all_space w /\ (items' <> [] -> w <> EmptyString) /\
      well_separated items'
  end.

(** The specification's "split on whitespace": [value] is white space
    followed by the [words], each a non-empty run of characters that are not
    white space, each followed by white space that is not empty between two
    words. *)
Definition split_on_whitespace (value : string) (words : list string) : Prop :=
  exists lead items,
    all_space lead /\ well_separated items /\
    value = lead +:+ laid_out items /\
    words = map fst items.

(** What [InitDartVM] reads off the command line: the value of the switch
    "dart-flags", if it is there, cut into its words. *)
Definition user_flags (command_line : gmap string string) : list string :=
  match command_line !! kDartFlags with
  | Some value => istream_words value EmptyString
  | None => []
  end.

(** The checked-mode policy, given the execution mode. *)
Definition checked_mode_policy
    (build : Build) (settings : SkySettings) (precompiled : bool) : bool :=
  negb precompiled && (DART_STRICT build || enable_dart_checked_mode settings).

(** The flag vector in the order the specification lists it. *)
Definition composed_flags
    (build : Build) (settings : SkySettings)
    (command_line : gmap string string) (precompiled : bool) : list string :=
  ["--ignore-unrecognized-flags"] ++
  kDartProfilingArgs build ++
  kDartMirrorsArgs ++
  kDartBackgroundCompilationArgs ++
  (if precompiled then kDartPrecompilationArgs else []) ++
  (if checked_mode_policy build settings precompiled
   then kDartCheckedModeArgs else []) ++
  (if start_paused settings then kDartStartPausedArgs else []) ++
  (if trace_startup settings then kDartTraceStartupArgs else []) ++
  user_flags command_line.

(** ** Sample environments

    Concrete answers of the environment, used to run the callbacks. *)

(** Nothing is there: no asset file, no library, no symbol, no bundle. *)
Definition bare_env : Env :=
  mkEnv
    (fun dir name => dir +:+ "/" +:+ name)
    (fun _ => None)
    (fun _ => None)
    (fun _ => -1)
    (fun _ _ _ => MAP_FAILED)
    (fun _ => mkDlAnswer nullptr (Some "image not found"))
    (fun _ _ => mkDlAnswer nullptr (Some "symbol not found"))
    (fun _ => 4096)
    (fun _ _ => None)
    256
    (fun parent => parent + 16)
    (fun _ _ _ _ => nullptr)
    (fun _ => false)
    true
    (fun _ _ _ _ => false)
    (fun _ => true)
    (fun _ => false).

(** Everything is there: the asset files (mapped at 65536), the application
    library with every symbol at 20480, the default namespace with every
    symbol at 24576, one source file last modified 5 seconds after the
    epoch, a bundle whose snapshot asset is empty, and a VM that creates
    isolate 7. *)
Definition full_env : Env :=
  mkEnv
    (fun dir name => dir +:+ "/" +:+ name)
    (fun _ => Some 8192)
    (fun path =>
       if String.eqb path "///tmp/a.dart" then Some (mkFile_Info 5000000)
       else None)
    (fun _ => 3)
    (fun _ _ _ => 65536)
    (fun library =>
       match library with
       | Some _ => mkDlAnswer 11 None
       | None => mkDlAnswer 12 None
       end)
    (fun handle _ =>
       if handle =? 11 then mkDlAnswer 20480 None else mkDlAnswer 24576 None)
    (fun _ => 4096)
    (fun _ _ => Some [])
    256
    (fun parent => parent + 16)
    (fun _ _ _ _ => 7)
    (fun _ => true)
    false
    (fun _ _ _ _ => true)
    (fun _ => false)
    (fun _ => true).

Definition sample_settings : SkySettings :=
  mkSkySettings false 8181 false false false "/data/aot" "".

Definition snapshot_build : Build :=
  mkBuild StaticResolution false false false false.

Definition ios_build : Build :=
  mkBuild DynamicIOS false false true false.

(** ** Further vocabulary: the asset table *)

(** The entry a lookup of [symbol_name] works on, and the table after the
    mapping of that entry is written. *)
Fixpoint first_entry
    (symbol_name : string) (table : list SymbolAsset.t) : option SymbolAsset.t :=
  match table with
  | [] => None
  | a :: later =>
      if String.eqb (SymbolAsset.symbol_name a) symbol_name then Some a
      else first_entry symbol_name later
  end.

Fixpoint store_first
    (symbol_name : string) (p : ptr) (table : list SymbolAsset.t)
    : list SymbolAsset.t :=
  match table with
  | [] => []
  | a :: later =>
      if String.eqb (SymbolAsset.symbol_name a) symbol_name
      then with_mapping p a :: later
      else a :: store_first symbol_name p later
  end.

(** The process after a series of lookups, each in its own environment. *)
Fixpoint lookups_after
    (settings : SkySettings) (lookups : list (Env * string)) (s : Process)
    : Process :=
  match lookups with
  | [] => s
  | (e, symbol_name) :: more =>
      lookups_after settings more
        (final (ANDROID._DartSymbolLookup settings e symbol_name s))
  end.

(** The shapes the file calls of one asset lookup can take. *)
Inductive asset_calls (e : Env) : list Event -> Prop :=
  | calls_none : asset_calls e []
  | calls_no_size (path : string) :
      GetFileSize e path = None ->
      asset_calls e [Ev_GetFileSize path]
  | calls_no_open (path : string) :
      sys_open e path = -1 ->
      asset_calls e [Ev_GetFileSize path; Ev_open path]
  | calls_mapped (path : string) (size prot : Z) :
      GetFileSize e path = Some size ->
      sys_open e path <> -1 ->
      Z.testbit prot 0 = true ->
      Z.testbit prot 1 = false ->
      asset_calls e
        [Ev_GetFileSize path; Ev_open path;
         Ev_mmap size prot (sys_open e path); Ev_close (sys_open e path)].

(** ** Further vocabulary: flag strings *)

(** A string without its white space, and words put end to end. *)
Fixpoint remove_spaces (input : string) : string :=
  match input with
  | EmptyString => EmptyString
  | String c input' =>
      if isspace c then remove_spaces input'
      else String c (remove_spaces input')
  end.

Definition glue (words : list string) : string :=
  fold_right String.append EmptyString words.

(** ** Further vocabulary: runs that return *)

(** From a state in [I] the piece [m] leaves a state in [I], and if it
    returns [a] having made the calls [t], then [Q a t]. *)
Definition hoare {A : Type}
    (I : Process -> Prop) (m : M A) (Q : A -> list Event -> Prop) : Prop :=
  forall s, I s ->
    I (final (m s)) /\
    forall a, result (m s) = Ret a -> Q a (events (m s)).

Definition is_hook_event (ev : Event) : bool :=
  match ev with
  | Ev_service_isolate_hook _ _ | Ev_extensions_hook _ _ => true
  | _ => false
  end.

(** In state [s'] the mode test gives what it gives in state [start], if it
    returns there. *)
Definition mode_agrees
    (build : Build) (settings : SkySettings) (e : Env)
    (start s' : Process) : Prop :=
  forall precompiled,
    result (IsRunningPrecompiledCode build settings e start) = Ret precompiled ->
    result (IsRunningPrecompiledCode build settings e s') = Ret precompiled.

(** The calls made for a hook global in a run that began in [start]: none if
    the hook is null; else the calls of the mode test, made from the state
    [s1] the run is in, followed by the call of the hook with the mode that
    this test returned, which is also the mode of the state [start]. *)
Definition hook_calls
    (build : Build) (settings : SkySettings) (e : Env) (start : Process)
    (hook : option Hook) (ev : Hook -> bool -> Event) (calls : list Event)
    : Prop :=
  match hook with
  | None => calls = []
  | Some h =>
      exists s1 mode,
        result (IsRunningPrecompiledCode build settings e s1) = Ret mode /\
        calls =
          events (IsRunningPrecompiledCode build settings e s1) ++ [ev h mode] /\
        Forall (fun ev => is_resolver_event ev = true)
          (events (IsRunningPrecompiledCode build settings e s1)) /\
        mode_agrees build settings e start s1
  end.

(** A bundle that is opened, if [ev] opens one, is the one at
    [bundle_path]; and the start of the observatory service. *)
Definition opens_bundle_at (bundle_path : string) (ev : Event) : Prop :=
  forall p, ev = Ev_ZipAssetBundle p -> p = bundle_path.

Definition is_startup_event (ev : Event) : bool :=
  match ev with
  | Ev_DartServiceIsolate_Startup _ _ _ _ => true
  | _ => false
  end.

(** ** The initialisation of the VM *)

(** The answers [InitDartVM] gets from the VM and from the rest of the
    engine, and the global [blink::engine_main_enter_ts]. *)
Record InitEnv : Type := mkInitEnv {
  HandleWatcher_Start : Z;
  Dart_SetVMFlags : list string -> bool;
  (* the error message, null on success *)
  Dart_Initialize : ptr -> ptr -> ptr -> option string;
  engine_main_enter_ts : Z
}.

(** One call of [InitDartVM] that leaves the file; the calls of the symbol
    resolvers are the [Event]s they are elsewhere. *)
Inductive InitEvent : Type :=
  | Init_BootstrapDartIo
  | Init_SetSystemTempDirectory (path : string)
  | Init_HandleWatcher_Start
  | Init_SetHandleWatcherProducerHandle (handle : Z)
  | Init_resolver (ev : Event)
  | Init_Dart_SetVMFlags (args : list string)
  | Init_InitDebugger
  | Init_DartUI_InitForGlobal
  | Init_DartJni_InitForGlobal
  | Init_Dart_SetEmbedderTimelineCallbacks
  | Init_Dart_SetFileModifiedCallback
  | Init_Dart_Initialize (vm_isolate_snapshot instructions_snapshot
                          data_snapshot : ptr)
  | Init_Dart_TimelineEvent (label : string) (timestamp0 timestamp1 : Z)
  | Init_Dart_SetServiceStreamCallbacks.

Record BootRun (A : Type) : Type := mkBootRun {
  boot_result : Result A;
  boot_final : Process;
  boot_calls : list InitEvent
}.
Arguments mkBootRun {A} boot_result boot_final boot_calls.
Arguments boot_result {A} b.
Arguments boot_final {A} b.
Arguments boot_calls {A} b.

Definition Boot (A : Type) : Type := Process -> BootRun A.

Definition boot_ret {A : Type} (a : A) : Boot A :=
  fun s => mkBootRun (Ret a) s [].

Definition boot_bind {A B : Type} (m : Boot A) (f : A -> Boot B) : Boot B :=
  fun s =>
    let r := m s in
    match boot_result r with
    | Ret a =>
        let r' := f a (boot_final r) in
        mkBootRun (boot_result r') (boot_final r')
          (boot_calls r ++ boot_calls r')
    | Fatal => mkBootRun Fatal (boot_final r) (boot_calls r)
    end.

Definition boot_call {A : Type} (ev : InitEvent) (answer : A) : Boot A :=
  fun s => mkBootRun (Ret answer) s [ev].

Definition boot_fatal {A : Type} : Boot A :=
  fun s => mkBootRun Fatal s [].

Definition boot_check (condition : bool) : Boot unit :=
  if condition then boot_ret tt else boot_fatal.

(** A piece of the file that calls nothing but the resolvers. *)
Definition lift {A : Type} (m : M A) : Boot A :=
  fun s =>
    let r := m s in
    mkBootRun (result r) (final r) (map Init_resolver (events r)).

Declare Scope boot_scope.
Delimit Scope boot_scope with boot.
Bind Scope boot_scope with Boot.
Notation "x ← y ; z" := (boot_bind y (fun x => z))
  (at level 20, y at level 100, z at level 200, only parsing) : boot_scope.
Notation "x ;; z" := (boot_bind x (fun _ => z))
  (at level 100, z at level 200, only parsing, right associativity) : boot_scope.

(** The order in which the three symbol arguments of the call of
    [Dart_Initialize] are evaluated; C++ leaves it to the compiler. *)
Inductive ArgumentOrder : Type :=
  | Order_123 | Order_132 | Order_213 | Order_231 | Order_312 | Order_321.

Section Init.
Variable build : Build.
Variable settings : SkySettings.
Variable command_line : gmap string string.
Variable e : Env.
Variable ie : InitEnv.

Definition PrecompiledDataSnapshotSymbolIfPresent : M ptr :=
  match resolution build with
  | StaticResolution => ret nullptr
  | _ => DART_SYMBOL build settings e kDataSnapshotName
  end.

(** The arguments [DART_SYMBOL(kDartVmIsolateSnapshotBuffer)],
    [PrecompiledInstructionsSymbolIfPresent()] and
    [PrecompiledDataSnapshotSymbolIfPresent()] of [Dart_Initialize]. *)
Definition Dart_Initialize_arguments (order : ArgumentOrder)
    : M (ptr * ptr * ptr) :=
  let first := DART_SYMBOL build settings e kDartVmIsolateSnapshotBufferName in
  let second := PrecompiledInstructionsSymbolIfPresent build settings e in
  let third := PrecompiledDataSnapshotSymbolIfPresent in
  match order with
  | Order_123 => a ← first; b ← second; c ← third; ret (a, b, c)
  | Order_132 => a ← first; c ← third; b ← second; ret (a, b, c)
  | Order_213 => b ← second; a ← first; c ← third; ret (a, b, c)
  | Order_231 => b ← second; c ← third; a ← first; ret (a, b, c)
  | Order_312 => c ← third; a ← first; b ← second; ret (a, b, c)
  | Order_321 => c ← third; b ← second; a ← first; ret (a, b, c)
  end.

(** [InitDartVM] (lines 525 to 641).  The callbacks handed to the VM are
    functions of the file, always the same, and are not part of the recorded
    calls; the trace macros are left out. *)
Definition InitDartVM (order : ArgumentOrder) : Boot unit :=
  (boot_call Init_BootstrapDartIo tt ;;
   (if negb (ANDROID.empty (temp_directory_path settings))
    then boot_call (Init_SetSystemTempDirectory (temp_directory_path settings)) tt
    else boot_ret tt) ;;
   handle ← boot_call Init_HandleWatcher_Start (HandleWatcher_Start ie);
   boot_call (Init_SetHandleWatcherProducerHandle handle) tt ;;
   args ← lift (InitDartVM_args build settings command_line e);
   accepted ← boot_call (Init_Dart_SetVMFlags args) (Dart_SetVMFlags ie args);
   boot_check accepted ;;
   (if FLUTTER_PRODUCT_MODE build then boot_ret tt
    else boot_call Init_InitDebugger tt) ;;
   boot_call Init_DartUI_InitForGlobal tt ;;
   (if OS_ANDROID build then boot_call Init_DartJni_InitForGlobal tt
    else boot_ret tt) ;;
   boot_call Init_Dart_SetEmbedderTimelineCallbacks tt ;;
   boot_call Init_Dart_SetFileModifiedCallback tt ;;
   symbols ← lift (Dart_Initialize_arguments order);
   let '(vm_isolate_snapshot, instructions_snapshot, data_snapshot) := symbols in
   init_error ←
     boot_call
       (Init_Dart_Initialize vm_isolate_snapshot instructions_snapshot
          data_snapshot)
       (Dart_Initialize ie vm_isolate_snapshot instructions_snapshot
          data_snapshot);
   (match init_error with
    | Some _ => boot_fatal
    | None => boot_ret tt
    end) ;;
   (if negb (engine_main_enter_ts ie =? 0)
    then boot_call
           (Init_Dart_TimelineEvent "FlutterEngineMainEnter"
              (engine_main_enter_ts ie) (engine_main_enter_ts ie)) tt
    else boot_ret tt) ;;
   boot_call Init_Dart_SetServiceStreamCallbacks tt)%boot.

End Init.

(** The calls of [InitDartVM] before the flags are composed, between the
    acceptance of the flags and the symbol lookups, and after a successful
    [Dart_Initialize]. *)
Definition InitDartVM_setup_calls
    (settings : SkySettings) (ie : InitEnv) : list InitEvent :=
  [Init_BootstrapDartIo] ++
  (if negb (ANDROID.empty (temp_directory_path settings))
   then [Init_SetSystemTempDirectory (temp_directory_path settings)]
   else []) ++
  [Init_HandleWatcher_Start;
   Init_SetHandleWatcherProducerHandle (HandleWatcher_Start ie)].

Definition InitDartVM_global_calls (build : Build) : list InitEvent :=
  (if FLUTTER_PRODUCT_MODE build then [] else [Init_InitDebugger]) ++
  [Init_DartUI_InitForGlobal] ++
  (if OS_ANDROID build then [Init_DartJni_InitForGlobal] else []) ++
  [Init_Dart_SetEmbedderTimelineCallbacks; Init_Dart_SetFileModifiedCallback].

Definition InitDartVM_final_calls (ie : InitEnv) : list InitEvent :=
  (if negb (engine_main_enter_ts ie =? 0)
   then [Init_Dart_TimelineEvent "FlutterEngineMainEnter"
           (engine_main_enter_ts ie) (engine_main_enter_ts ie)]
   else []) ++
  [Init_Dart_SetServiceStreamCallbacks].

Definition is_resolver_call (ev : InitEvent) : bool :=
  match ev with
  | Init_resolver _ => true
  | _ => false
  end.

Definition is_initialize_call (ev : InitEvent) : bool :=
  match ev with
  | Init_Dart_Initialize _ _ _ => true
  | _ => false
  end.

(** In state [s] the symbol [name] resolves to [p]. *)
Definition resolves_to
    (build : Build) (settings : SkySettings) (e : Env) (name : string)
    (p : ptr) (s : Process) : Prop :=
  result (DART_SYMBOL build settings e name s) = Ret p.

(** What the three symbol arguments of [Dart_Initialize] are when each is
    looked up in state [s]. *)
Definition symbols_at
    (build : Build) (settings : SkySettings) (e : Env) (s : Process)
    : Result (ptr * ptr * ptr) :=
  match result (DART_SYMBOL build settings e kDartVmIsolateSnapshotBufferName s),
        result (PrecompiledInstructionsSymbolIfPresent build settings e s),
        result (PrecompiledDataSnapshotSymbolIfPresent build settings e s) with
  | Ret a, Ret b, Ret c => Ret (a, b, c)
  | _, _, _ => Fatal
  end.

Definition outside_resolver (calls : list InitEvent) : list InitEvent :=
  List.filter (fun ev => negb (is_resolver_call ev)) calls.

(** A VM that takes flag vectors starting with the flag that makes it ignore
    unknown flags, and initialises without error; the engine was entered at
    timestamp 12345. *)
Definition ready_vm : InitEnv :=
  mkInitEnv 5
    (fun args =>
       match args with
       | first :: _ => String.eqb first "--ignore-unrecognized-flags"
       | [] => false
       end)
    (fun _ _ _ => None)
    12345.

(** As [full_env], but the application library is absent. *)
Definition fallback_env : Env :=
  mkEnv (FilePath_Append full_env) (GetFileSize full_env)
    (GetFileInfo full_env) (sys_open full_env) (sys_mmap full_env)
    (fun library =>
       match library with
       | Some _ => mkDlAnswer nullptr (Some "image not found")
       | None => mkDlAnswer 12 None
       end)
    (sys_dlsym full_env) (linked_symbol full_env)
    (GetAsBuffer full_env)
    (new_DartState full_env) (CreateForChildIsolate full_env)
    (Dart_CreateIsolate full_env) (Dart_IsServiceIsolate full_env)
    (Dart_SetLibraryTagHandler_is_error full_env)
    (DartServiceIsolate_Startup full_env)
    (Dart_LoadScriptFromSnapshot_is_error full_env)
    (Dart_IsolateMakeRunnable full_env).

(** As [full_env], with a bundle whose snapshot asset is one byte long. *)
Definition bundle_env : Env :=
  mkEnv (FilePath_Append full_env) (GetFileSize full_env)
    (GetFileInfo full_env) (sys_open full_env) (sys_mmap full_env)
    (sys_dlopen full_env) (sys_dlsym full_env) (linked_symbol full_env)
    (fun _ _ => Some [x2a])
    (new_DartState full_env) (CreateForChildIsolate full_env)
    (Dart_CreateIsolate full_env) (Dart_IsServiceIsolate full_env)
    (Dart_SetLibraryTagHandler_is_error full_env)
    (DartServiceIsolate_Startup full_env)
    (Dart_LoadScriptFromSnapshot_is_error full_env)
    (Dart_IsolateMakeRunnable full_env).

(** * Properties *)

(** ** C strings and integers *)

Lemma string_compare_refl (a : string) : String.compare a a = Eq.
Proof.
  pose proof (String.compare_antisym a a) as H.
  destruct (String.compare a a); simpl in H; congruence.
Qed.

Lemma strcmp_zero (a b : string) : (strcmp a b =? 0) = true <-> a = b.
Proof.
  unfold strcmp.
  destruct (String.compare a b) eqn:Hc; simpl.
  - apply String.compare_eq_iff in Hc. tauto.
  - split; [discriminate|]. intros ->.
    rewrite string_compare_refl in Hc. discriminate.
  - split; [discriminate|]. intros ->.
    rewrite string_compare_refl in Hc. discriminate.
Qed.

Lemma strcmp_refl (a : string) : (strcmp a a =? 0) = true.
Proof. now apply strcmp_zero. Qed.

Lemma strcmp_differs (a b : string) : a <> b -> (strcmp a b =? 0) = false.
Proof.
  intros Hne. destruct (strcmp a b =? 0) eqn:Hc; [|reflexivity].
  apply strcmp_zero in Hc. contradiction.
Qed.

Lemma wrap64_int64 (z : Z) : int64 z -> wrap64 z = z.
Proof.
  unfold int64, wrap64. intros Hz.
  rewrite Z.mod_small by lia. lia.
Qed.

(** ** The stream capture callbacks *)



(** ** The hook setters *)

(** C4.  *Hook registration.*  Once [g_service_isolate_initialized] is set,
    setting the service-isolate hook or the extension-registration hook
    aborts the process and stores nothing; while the flag is clear, either
    call returns and its hook is stored. *)
Theorem hook_registration_guard (hook : option Hook) (s : Process) :
  (g_service_isolate_initialized s = true ->
     SetServiceIsolateHook hook s = mkRun Fatal s [] /\
     SetRegisterNativeServiceProtocolExtensionHook hook s = mkRun Fatal s []) /\
  (g_service_isolate_initialized s = false ->
     SetServiceIsolateHook hook s =
       mkRun (Ret tt) (with_service_isolate_hook hook s) [] /\
     g_service_isolate_hook
       (final (SetServiceIsolateHook hook s)) = hook /\
     SetRegisterNativeServiceProtocolExtensionHook hook s =
       mkRun (Ret tt) (with_extensions_hook hook s) [] /\
     g_register_native_service_protocol_extensions_hook
       (final (SetRegisterNativeServiceProtocolExtensionHook hook s)) = hook).
Proof.
  unfold SetServiceIsolateHook, SetRegisterNativeServiceProtocolExtensionHook,
    CHECK, FTL_CHECK, bind, get, modify, fatal, ret.
  split; intros Hflag; simpl; rewrite Hflag; simpl; repeat split.
Qed.

Lemma hook_registration_guard_witness :
  SetServiceIsolateHook (Some 1%nat) (with_initialized true process_start) =
    mkRun Fatal (with_initialized true process_start) [] /\
  SetServiceIsolateHook (Some 1%nat) process_start =
    mkRun (Ret tt) (with_service_isolate_hook (Some 1%nat) process_start) [].
Proof.
  split.
  - apply (hook_registration_guard (Some 1%nat) (with_initialized true process_start)).
    reflexivity.
  - apply (hook_registration_guard (Some 1%nat) process_start).
    reflexivity.
Defined.

(** ** The file-modification callback *)

Lemma file_scheme_removed (url : string) :
  StartsWith url "file:" = true ->
  ReplaceFirstSubstringAfterOffset url 0 "file:" "" = advance 5 url.
Proof.
  unfold StartsWith, ReplaceFirstSubstringAfterOffset. intros Hp.
  destruct url as [|c url]; [discriminate|].
  cbn [String.index]. rewrite Hp. reflexivity.
Qed.

(** The instant [DartFileModifiedCallback] compares with is [since_ms]
    milliseconds after the epoch: splitting into seconds and milliseconds
    loses nothing, also for negative values. *)
Lemma since_time_exact (since_ms : Z) :
  int64 since_ms ->
  let since_seconds := wrap64 (Z.quot since_ms kMillisecondsPerSecond) in
  let since_milliseconds :=
    wrap64 (since_ms - wrap64 (since_seconds * kMillisecondsPerSecond)) in
  Time_FromTimeT since_seconds + TimeDelta_FromMilliseconds since_milliseconds
  = since_ms * kMicrosecondsPerMillisecond.
Proof.
  unfold kMillisecondsPerSecond, kMicrosecondsPerMillisecond,
    Time_FromTimeT, TimeDelta_FromMilliseconds, kMicrosecondsPerSecond.
  intros Hr. cbv zeta. unfold int64 in Hr.
  pose proof (Z.quot_rem' since_ms 1000) as Hqr.
  assert (Hrem : -1000 < Z.rem since_ms 1000 < 1000).
  { pose proof (Z.rem_bound_abs since_ms 1000 ltac:(lia)). lia. }
  assert (Hsign : (0 <= since_ms -> 0 <= Z.rem since_ms 1000) /\
                  (since_ms <= 0 -> Z.rem since_ms 1000 <= 0)).
  { split; intros Hs.
    - apply Z.rem_nonneg; lia.
    - apply Z.rem_nonpos; lia. }
  assert (Hq : int64 (Z.quot since_ms 1000)) by (unfold int64; lia).
  rewrite (wrap64_int64 _ Hq).
  assert (Hm : int64 (Z.quot since_ms 1000 * 1000)) by (unfold int64; lia).
  rewrite (wrap64_int64 _ Hm).
  assert (Hd : int64 (since_ms - Z.quot since_ms 1000 * 1000))
    by (unfold int64; lia).
  rewrite (wrap64_int64 _ Hd).
  unfold kMicrosecondsPerMillisecond. lia.
Qed.

(** C7.  *File-modification check.*  The callback answers "modified" for a
    URL that does not start with the scheme "file:", and for a "file:" URL
    whose file cannot be stat'ed; it answers "not modified" for a file whose
    last modification is at or before [since_ms] milliseconds. *)
Theorem file_modified_check (e : Env) (source_url : string) (since_ms : Z) :
  int64 since_ms ->
  (StartsWith source_url "file:" = false ->
     DartFileModifiedCallback e source_url since_ms = true) /\
  (StartsWith source_url "file:" = true ->
     GetFileInfo e (advance 5 source_url) = None ->
     DartFileModifiedCallback e source_url since_ms = true) /\
  (forall file_info : File_Info,
     StartsWith source_url "file:" = true ->
     GetFileInfo e (advance 5 source_url) = Some file_info ->
     last_modified file_info <= since_ms * kMicrosecondsPerMillisecond ->
     DartFileModifiedCallback e source_url since_ms = false).
Proof.
  intros Hr. unfold DartFileModifiedCallback. repeat split.
  - intros ->. reflexivity.
  - intros Hp Hstat. rewrite Hp. cbn [negb].
    rewrite (file_scheme_removed _ Hp), Hstat. reflexivity.
  - intros file_info Hp Hstat Hle. rewrite Hp. cbn [negb].
    rewrite (file_scheme_removed _ Hp), Hstat.
    rewrite (since_time_exact since_ms Hr).
    rewrite Z.gtb_ltb. apply Z.ltb_ge. exact Hle.
Qed.

Lemma file_modified_check_witness :
  DartFileModifiedCallback full_env "http://host/a.dart" 5000 = true /\
  DartFileModifiedCallback bare_env "file:///tmp/a.dart" 5000 = true /\
  DartFileModifiedCallback full_env "file:///tmp/a.dart" 5000 = false.
Proof.
  assert (Hr : int64 5000) by (unfold int64; lia).
  destruct (file_modified_check full_env "http://host/a.dart" 5000 Hr)
    as (Hscheme & _ & _).
  destruct (file_modified_check bare_env "file:///tmp/a.dart" 5000 Hr)
    as (_ & Hstat & _).
  destruct (file_modified_check full_env "file:///tmp/a.dart" 5000 Hr)
    as (_ & _ & Hold).
  split; [|split].
  - apply Hscheme. reflexivity.
  - apply Hstat; reflexivity.
  - apply (Hold (mkFile_Info 5000000)); [reflexivity | reflexivity |].
    vm_compute. discriminate.
Defined.

Lemma Resolution_eq_dec (a b : Resolution) : {a = b} + {a <> b}.
Proof. decide equality. Defined.

(** ** Runs: composition *)

Lemma bind_Ret {A B : Type} (m : M A) (f : A -> M B) (s : Process) (a : A) :
  result (m s) = Ret a ->
  bind m f s =
    mkRun (result (f a (final (m s)))) (final (f a (final (m s))))
      (events (m s) ++ events (f a (final (m s)))).
Proof. unfold bind. intros ->. reflexivity. Qed.

Lemma bind_Fatal {A B : Type} (m : M A) (f : A -> M B) (s : Process) :
  result (m s) = Fatal ->
  bind m f s = mkRun Fatal (final (m s)) (events (m s)).
Proof. unfold bind. intros ->. reflexivity. Qed.

Lemma run_eta {A : Type} (r : Run A) :
  r = mkRun (result r) (final r) (events r).
Proof. destruct r; reflexivity. Qed.

(** ** The dynamic-library resolver *)

(** One library lookup never aborts, and what it returns is decided by the
    linker's answers alone, not by the state it starts from. *)
Lemma DartLookupSymbolInLibrary_returns
    (e : Env) (symbol_name library : option string) (s : Process) :
  exists symbol,
    result (IOS.DartLookupSymbolInLibrary e symbol_name library s) = Ret symbol /\
    forall s',
      result (IOS.DartLookupSymbolInLibrary e symbol_name library s') = Ret symbol.
Proof.
  destruct symbol_name as [name|]; [|eexists; split; reflexivity].
  unfold IOS.DartLookupSymbolInLibrary, IOS.dlopen, IOS.dlsym,
    IOS.linker_call, IOS.dlerror, bind, ret, call, modify.
  cbn.
  destruct (sys_dlopen e library) as [handle [msg|]]; cbn.
  - eexists; split; reflexivity.
  - destruct (sys_dlsym e handle name) as [sym [msg|]]; cbn.
    + eexists; split; [reflexivity|].
      intros s'. destruct (dl_error s'); reflexivity.
    + eexists; split; [reflexivity|].
      intros s'. destruct (dl_error s'); reflexivity.
Qed.

(** One library lookup returns what the linker finds in that library, from
    whatever state. *)
Lemma DartLookupSymbolInLibrary_result
    (e : Env) (name : string) (library : option string) (s : Process) :
  result (IOS.DartLookupSymbolInLibrary e (Some name) library s) =
  Ret (library_symbol e library name).
Proof.
  unfold IOS.DartLookupSymbolInLibrary, IOS.dlopen, IOS.dlsym,
    IOS.linker_call, IOS.dlerror, bind, ret, call, modify, library_symbol.
  cbn.
  destruct (sys_dlopen e library) as [handle [msg|]]; cbn; [reflexivity|].
  destruct (sys_dlsym e handle name) as [sym [msg|]]; cbn; reflexivity.
Qed.

Lemma DartLookupSymbolInLibrary_calls
    (e : Env) (name : string) (library : option string) (s : Process) :
  events (IOS.DartLookupSymbolInLibrary e (Some name) library s) =
  Ev_dlopen library ::
  match dl_message (sys_dlopen e library) with
  | Some _ => []
  | None => [Ev_dlsym (dl_value (sys_dlopen e library)) name]
  end.
Proof.
  unfold IOS.DartLookupSymbolInLibrary, IOS.dlopen, IOS.dlsym,
    IOS.linker_call, IOS.dlerror, bind, ret, call, modify.
  cbn.
  destruct (sys_dlopen e library) as [handle [msg|]]; cbn; reflexivity.
Qed.

(** C8.  *Dynamic-library strategy.*  A lookup first asks the application
    library "app.dylib" and, if that gives a non-null pointer, is exactly that
    attempt: it returns the pointer and never touches the default namespace.
    Only when the application library gives null does it go on to the
    default namespace and return what that gives.  In terms of the linker's
    answers: each attempt returns the symbol the linker finds in its library,
    null if the library or the symbol is absent, and the lookup returns what
    the application library has if that is not null, and else what the
    default namespace has.  So a symbol found in the application library wins
    over one in the default namespace, a symbol found only in the default
    namespace is returned from there, two failures give null, and in no case
    does the lookup abort. *)
Theorem dynamic_library_lookup
    (e : Env) (symbol_name : option string) (s : Process) :
  let application :=
    IOS.DartLookupSymbolInLibrary e symbol_name
      (Some kDartApplicationLibraryPath) s in
  let fallback :=
    IOS.DartLookupSymbolInLibrary e symbol_name None (final application) in
  let lookup := IOS._DartSymbolLookup e symbol_name s in
  (exists symbol, result lookup = Ret symbol) /\
  (exists symbol,
     result application = Ret symbol /\
     if is_null symbol
     then result lookup = result fallback /\
          final lookup = final fallback /\
          events lookup = events application ++ events fallback
     else lookup = application) /\
  (result application = Ret nullptr ->
   result fallback = Ret nullptr ->
   result lookup = Ret nullptr) /\
  (forall (name : string) (handle symbol : ptr),
     symbol_name = Some name ->
     sys_dlopen e (Some kDartApplicationLibraryPath) = mkDlAnswer handle None ->
     sys_dlsym e handle name = mkDlAnswer symbol None ->
     symbol <> nullptr ->
     result lookup = Ret symbol /\
     events lookup =
       [Ev_dlopen (Some kDartApplicationLibraryPath); Ev_dlsym handle name]) /\
  (forall name,
     symbol_name = Some name ->
     result application =
       Ret (library_symbol e (Some kDartApplicationLibraryPath) name) /\
     result fallback = Ret (library_symbol e None name) /\
     result lookup = Ret (dynamic_library_strategy e name) /\
     events lookup =
       events application ++
       (if is_null (library_symbol e (Some kDartApplicationLibraryPath) name)
        then
          Ev_dlopen None ::
          match dl_message (sys_dlopen e None) with
          | Some _ => []
          | None => [Ev_dlsym (dl_value (sys_dlopen e None)) name]
          end
        else [])) /\
  (forall (name : string) (handle symbol : ptr),
     symbol_name = Some name ->
     library_symbol e (Some kDartApplicationLibraryPath) name = nullptr ->
     sys_dlopen e None = mkDlAnswer handle None ->
     sys_dlsym e handle name = mkDlAnswer symbol None ->
     result lookup = Ret symbol /\
     events lookup =
       events application ++ [Ev_dlopen None; Ev_dlsym handle name]) /\
  (symbol_name = None -> lookup = mkRun (Ret nullptr) s []).
Proof.
  cbv zeta.
  destruct (DartLookupSymbolInLibrary_returns e symbol_name
              (Some kDartApplicationLibraryPath) s) as (p & Happ & _).
  destruct (DartLookupSymbolInLibrary_returns e symbol_name None
              (final (IOS.DartLookupSymbolInLibrary e symbol_name
                        (Some kDartApplicationLibraryPath) s)))
    as (q & Hdef & _).
  assert (Hcases :
    if is_null p
    then result (IOS._DartSymbolLookup e symbol_name s) =
           result (IOS.DartLookupSymbolInLibrary e symbol_name None
                     (final (IOS.DartLookupSymbolInLibrary e symbol_name
                               (Some kDartApplicationLibraryPath) s))) /\
         final (IOS._DartSymbolLookup e symbol_name s) =
           final (IOS.DartLookupSymbolInLibrary e symbol_name None
                    (final (IOS.DartLookupSymbolInLibrary e symbol_name
                              (Some kDartApplicationLibraryPath) s))) /\
         events (IOS._DartSymbolLookup e symbol_name s) =
           events (IOS.DartLookupSymbolInLibrary e symbol_name
                     (Some kDartApplicationLibraryPath) s) ++
           events (IOS.DartLookupSymbolInLibrary e symbol_name None
                     (final (IOS.DartLookupSymbolInLibrary e symbol_name
                               (Some kDartApplicationLibraryPath) s)))
    else IOS._DartSymbolLookup e symbol_name s =
         IOS.DartLookupSymbolInLibrary e symbol_name
           (Some kDartApplicationLibraryPath) s).
  { destruct symbol_name as [name|].
    - unfold IOS._DartSymbolLookup.
      rewrite (bind_Ret _ _ _ _ Happ).
      destruct (is_null p); cbn [negb].
      + repeat split.
      + unfold ret. cbn [result final events].
        rewrite app_nil_r, <- Happ. symmetry. apply run_eta.
    - cbn in Happ. injection Happ as <-. cbn. repeat split. }
  split; [|split; [|split; [|split]]].
  - destruct (is_null p) eqn:Hp.
    + exists q. destruct Hcases as (-> & _). exact Hdef.
    + exists p. rewrite Hcases. exact Happ.
  - exists p. split; [exact Happ | exact Hcases].
  - intros Hnull Hdnull. rewrite Happ in Hnull. injection Hnull as ->.
    cbn in Hcases. destruct Hcases as (-> & _). exact Hdnull.
  - intros name handle symbol -> Hopen Hsym Hnonnull.
    unfold IOS._DartSymbolLookup, IOS.DartLookupSymbolInLibrary, IOS.dlopen,
      IOS.dlsym, IOS.linker_call, IOS.dlerror, bind, ret, call, modify.
    cbn. rewrite Hopen. cbn. rewrite Hsym. cbn.
    assert (Hn : is_null symbol = false)
      by (unfold is_null; apply Z.eqb_neq; exact Hnonnull).
    rewrite Hn. cbn. split; reflexivity.
  - assert (Hname : forall name,
      symbol_name = Some name ->
      result (IOS.DartLookupSymbolInLibrary e symbol_name
                (Some kDartApplicationLibraryPath) s) =
        Ret (library_symbol e (Some kDartApplicationLibraryPath) name) /\
      result (IOS.DartLookupSymbolInLibrary e symbol_name None
                (final (IOS.DartLookupSymbolInLibrary e symbol_name
                          (Some kDartApplicationLibraryPath) s))) =
        Ret (library_symbol e None name) /\
      result (IOS._DartSymbolLookup e symbol_name s) =
        Ret (dynamic_library_strategy e name) /\
      events (IOS._DartSymbolLookup e symbol_name s) =
        events (IOS.DartLookupSymbolInLibrary e symbol_name
                  (Some kDartApplicationLibraryPath) s) ++
        (if is_null (library_symbol e (Some kDartApplicationLibraryPath) name)
         then
           Ev_dlopen None ::
           match dl_message (sys_dlopen e None) with
           | Some _ => []
           | None => [Ev_dlsym (dl_value (sys_dlopen e None)) name]
           end
         else [])).
    { intros name ->.
      pose proof (DartLookupSymbolInLibrary_result e name
                    (Some kDartApplicationLibraryPath) s) as Hfound.
      split; [exact Hfound|].
      split; [apply DartLookupSymbolInLibrary_result|].
      unfold IOS._DartSymbolLookup, dynamic_library_strategy.
      rewrite (bind_Ret _ _ _ _ Hfound). cbn [result events].
      destruct (is_null (library_symbol e (Some kDartApplicationLibraryPath) name));
        cbn [negb].
      + split; [apply DartLookupSymbolInLibrary_result|].
        f_equal. apply DartLookupSymbolInLibrary_calls.
      + split; reflexivity. }
    split; [exact Hname|]. split.
    + intros name handle symbol Hsome Hnone Hopen Hsym.
      destruct (Hname name Hsome) as (_ & _ & Hresult & Hcalls).
      rewrite Hresult, Hcalls. unfold dynamic_library_strategy.
      rewrite Hnone. cbn [is_null nullptr Z.eqb].
      unfold library_symbol. rewrite Hopen. cbn. rewrite Hsym. cbn.
      split; reflexivity.
    + intros ->. reflexivity.
Qed.

Lemma dynamic_library_lookup_witness :
  result (IOS._DartSymbolLookup full_env (Some kInstructionsSnapshotName)
            process_start) = Ret 20480 /\
  result (IOS._DartSymbolLookup bare_env (Some kInstructionsSnapshotName)
            process_start) = Ret nullptr /\
  result (IOS._DartSymbolLookup fallback_env (Some kInstructionsSnapshotName)
            process_start) = Ret 24576.
Proof.
  destruct (dynamic_library_lookup full_env (Some kInstructionsSnapshotName)
              process_start) as (_ & _ & _ & Hboth & _).
  destruct (dynamic_library_lookup bare_env (Some kInstructionsSnapshotName)
              process_start) as (_ & _ & Hnone & _).
  destruct (dynamic_library_lookup fallback_env
              (Some kInstructionsSnapshotName) process_start)
    as (_ & _ & _ & _ & _ & Hfallback & _).
  split; [|split].
  - apply (Hboth kInstructionsSnapshotName 11 20480);
      [reflexivity | reflexivity | reflexivity | discriminate].
  - apply Hnone; reflexivity.
  - apply (Hfallback kInstructionsSnapshotName 12 24576); reflexivity.
Defined.

(** ** The asset-mapping resolver *)

Section AssetMapping.
Variable settings : SkySettings.

Lemma first_named (symbol_name : string) (table : list SymbolAsset.t) :
  Forall (fun a => ~ named symbol_name a) table \/
  exists before a later,
    table = before ++ a :: later /\
    Forall (fun a => ~ named symbol_name a) before /\
    named symbol_name a.
Proof.
  induction table as [|a table IH].
  - left. constructor.
  - destruct (String.string_dec (SymbolAsset.symbol_name a) symbol_name) as [Heq|Hne].
    + right. exists [], a, table. repeat split; [constructor | exact Heq].
    + destruct IH as [Hnone | (before & b & later & -> & Hbefore & Hb)].
      * left. constructor; assumption.
      * right. exists (a :: before), b, later.
        repeat split; [constructor; assumption | exact Hb].
Qed.

(** Entries with another name are passed over. *)
Lemma lookup_passes_over
    (e : Env) (symbol_name : string) (before seen rest : list SymbolAsset.t) :
  Forall (fun a => ~ named symbol_name a) before ->
  ANDROID._DartSymbolLookup_from settings e symbol_name seen (before ++ rest) =
  ANDROID._DartSymbolLookup_from settings e symbol_name (seen ++ before) rest.
Proof.
  revert seen. induction before as [|a before IH]; intros seen Hbefore.
  - now rewrite app_nil_r.
  - inversion Hbefore as [|? ? Ha Hrest]; subst.
    cbn [app ANDROID._DartSymbolLookup_from].
    rewrite (strcmp_differs symbol_name (SymbolAsset.symbol_name a))
      by (intros Heq; apply Ha; symmetry; exact Heq).
    cbn [negb]. rewrite (IH _ Hrest), <- app_assoc. reflexivity.
Qed.

(** A name that is not in the table: null, nothing changed, nothing called. *)
Lemma lookup_unregistered
    (e : Env) (symbol_name : string) (seen rest : list SymbolAsset.t)
    (s : Process) :
  Forall (fun a => ~ named symbol_name a) rest ->
  ANDROID._DartSymbolLookup_from settings e symbol_name seen rest s =
  mkRun (Ret nullptr) s [].
Proof.
  intros Hrest.
  rewrite <- (app_nil_r rest), (lookup_passes_over e _ _ _ _ Hrest).
  reflexivity.
Qed.

(** A mapped entry: its pointer, nothing changed, nothing called. *)
Lemma lookup_mapped
    (e : Env) (symbol_name : string) (seen later : list SymbolAsset.t)
    (a : SymbolAsset.t) (s : Process) :
  named symbol_name a ->
  SymbolAsset.mapping a <> nullptr ->
  ANDROID._DartSymbolLookup_from settings e symbol_name seen (a :: later) s =
  mkRun (Ret (SymbolAsset.mapping a)) s [].
Proof.
  intros Ha Hmapped. cbn [ANDROID._DartSymbolLookup_from].
  rewrite <- Ha, strcmp_refl. cbn [negb].
  unfold is_null. rewrite (proj2 (Z.eqb_neq _ _) Hmapped). reflexivity.
Qed.

(** An unmapped entry: fatal without a snapshot directory, else the file is
    mapped and the entry written. *)
Lemma lookup_unmapped
    (e : Env) (symbol_name : string) (seen later : list SymbolAsset.t)
    (a : SymbolAsset.t) (s : Process) :
  named symbol_name a ->
  SymbolAsset.mapping a = nullptr ->
  ANDROID._DartSymbolLookup_from settings e symbol_name seen (a :: later) s =
  if ANDROID.empty (aot_snapshot_path settings) then mkRun Fatal s []
  else
    let '(p, written, calls) := map_asset settings e a in
    mkRun (Ret p)
      (if written
       then with_symbol_assets (seen ++ with_mapping p a :: later) s else s)
      calls.
Proof.
  intros Ha Hunmapped. cbn [ANDROID._DartSymbolLookup_from].
  rewrite <- Ha, strcmp_refl. cbn [negb].
  rewrite Hunmapped. cbn [is_null nullptr Z.eqb negb].
  unfold map_asset, with_mapping.
  destruct (ANDROID.empty (aot_snapshot_path settings)); [reflexivity|].
  unfold bind, FTL_CHECK, ret, call, modify. cbn.
  destruct (GetFileSize e _) as [asset_size|]; cbn; [|reflexivity].
  destruct (sys_open e _ =? -1); reflexivity.
Qed.

Lemma lookup_at_first_named
    (e : Env) (symbol_name : string) (before later : list SymbolAsset.t)
    (a : SymbolAsset.t) (s : Process) :
  g_symbol_assets s = before ++ a :: later ->
  Forall (fun b => ~ named symbol_name b) before ->
  ANDROID._DartSymbolLookup settings e symbol_name s =
  ANDROID._DartSymbolLookup_from settings e symbol_name before (a :: later) s.
Proof.
  intros Htable Hbefore. unfold ANDROID._DartSymbolLookup.
  rewrite Htable. now rewrite (lookup_passes_over e _ _ [] _ Hbefore).
Qed.

Lemma map_asset_unwritten
    (e : Env) (a : SymbolAsset.t) (p : ptr) (calls : list Event) :
  map_asset settings e a = (p, false, calls) -> p = nullptr.
Proof.
  unfold map_asset.
  destruct (GetFileSize e _); [|congruence].
  destruct (sys_open e _ =? -1); congruence.
Qed.

Lemma map_asset_with_mapping (e : Env) (a : SymbolAsset.t) (p : ptr) :
  map_asset settings e (with_mapping p a) = map_asset settings e a.
Proof. reflexivity. Qed.

Lemma map_asset_calls (e : Env) (a : SymbolAsset.t) :
  exists more,
    snd (map_asset settings e a) =
    Ev_GetFileSize
      (FilePath_Append e (aot_snapshot_path settings) (SymbolAsset.file_name a))
    :: more.
Proof.
  unfold map_asset.
  destruct (GetFileSize e _); [|eexists; reflexivity].
  destruct (sys_open e _ =? -1); eexists; reflexivity.
Qed.

Lemma with_mapping_same (a : SymbolAsset.t) :
  with_mapping (SymbolAsset.mapping a) a = a.
Proof. destruct a; reflexivity. Qed.

Lemma empty_path (path : string) :
  path <> "" -> ANDROID.empty path = false.
Proof. destruct path; [congruence | reflexivity]. Qed.

End AssetMapping.

(** The state and the calls of a lookup that works on an unmapped entry. *)
Lemma lookup_miss_run
    (settings : SkySettings) (e : Env) (symbol_name : string) (s : Process)
    (before later : list SymbolAsset.t) (a : SymbolAsset.t) :
  g_symbol_assets s = before ++ a :: later ->
  Forall (fun b => ~ named symbol_name b) before ->
  named symbol_name a ->
  SymbolAsset.mapping a = nullptr ->
  aot_snapshot_path settings <> "" ->
  let first := ANDROID._DartSymbolLookup settings e symbol_name s in
  let '(p, written, calls) := map_asset settings e a in
  result first = Ret p /\
  events first = calls /\
  g_symbol_assets (final first) = before ++ with_mapping p a :: later.
Proof.
  intros Htable Hbefore Ha Hunmapped Hpath. cbv zeta.
  rewrite (lookup_at_first_named settings e _ _ _ _ _ Htable Hbefore).
  rewrite (lookup_unmapped settings e _ _ _ _ _ Ha Hunmapped).
  rewrite (empty_path _ Hpath).
  destruct (map_asset settings e a) as [[p written] calls] eqn:Hmap.
  cbn [result events final]. repeat split.
  destruct written; [reflexivity|].
  apply map_asset_unwritten in Hmap. subst p.
  rewrite Htable, <- Hunmapped, with_mapping_same. reflexivity.
Qed.

(** After a miss that gave a non-null pointer, the next lookup is a hit. *)
Lemma asset_lookup_miss_hit
    (settings : SkySettings) (e e' : Env) (symbol_name : string) (s : Process)
    (before later : list SymbolAsset.t) (a : SymbolAsset.t) :
  g_symbol_assets s = before ++ a :: later ->
  Forall (fun b => ~ named symbol_name b) before ->
  named symbol_name a ->
  SymbolAsset.mapping a = nullptr ->
  aot_snapshot_path settings <> "" ->
  let first := ANDROID._DartSymbolLookup settings e symbol_name s in
  let '(p, written, calls) := map_asset settings e a in
  result first = Ret p /\
  (p <> nullptr ->
   ANDROID._DartSymbolLookup settings e' symbol_name (final first) =
   mkRun (Ret p) (final first) []).
Proof.
  intros Htable Hbefore Ha Hunmapped Hpath. cbv zeta.
  pose proof (lookup_miss_run settings e symbol_name s before later a
                Htable Hbefore Ha Hunmapped Hpath) as Hfirst.
  cbv zeta in Hfirst.
  destruct (map_asset settings e a) as [[p written] calls] eqn:Hmap.
  destruct Hfirst as (Hres & Hev & Hfinal).
  split; [exact Hres|].
  intros Hp.
  rewrite (lookup_at_first_named settings e' _ _ _ _ _ Hfinal Hbefore).
  rewrite (lookup_mapped settings e' symbol_name before later
             (with_mapping p a) _ Ha Hp).
  reflexivity.
Qed.

(** C5 (amended).  *A miss in the asset cache.*  A lookup that finds the
    entry of its name unmapped aborts if no snapshot directory is configured.
    Otherwise it asks for the size of the asset file, opens it and maps it; it
    returns the pointer, null after any failure, and the entry then holds what
    was returned.  A later lookup of the name returns a stored non-null
    pointer without any file call; after a null result the entry counts as
    unmapped and the later lookup makes the file calls again. *)
Theorem asset_lookup_miss
    (settings : SkySettings) (e e' : Env) (symbol_name : string) (s : Process)
    (before later : list SymbolAsset.t) (a : SymbolAsset.t) :
  g_symbol_assets s = before ++ a :: later ->
  Forall (fun b => ~ named symbol_name b) before ->
  named symbol_name a ->
  SymbolAsset.mapping a = nullptr ->
  let first := ANDROID._DartSymbolLookup settings e symbol_name s in
  let again :=
    ANDROID._DartSymbolLookup settings e' symbol_name (final first) in
  if ANDROID.empty (aot_snapshot_path settings)
  then first = mkRun Fatal s []
  else
    let '(p, written, calls) := map_asset settings e a in
    result first = Ret p /\
    events first = calls /\
    g_symbol_assets (final first) = before ++ with_mapping p a :: later /\
    (p <> nullptr -> again = mkRun (Ret p) (final first) []) /\
    (p = nullptr ->
     result again = Ret (fst (fst (map_asset settings e' a))) /\
     events again = snd (map_asset settings e' a) /\
     exists more,
       events again =
       Ev_GetFileSize
         (FilePath_Append e' (aot_snapshot_path settings)
            (SymbolAsset.file_name a)) :: more).
Proof.
  intros Htable Hbefore Ha Hunmapped. cbv zeta.
  destruct (ANDROID.empty (aot_snapshot_path settings)) eqn:Hempty.
  { rewrite (lookup_at_first_named settings e _ _ _ _ _ Htable Hbefore),
      (lookup_unmapped settings e _ _ _ _ _ Ha Hunmapped), Hempty.
    reflexivity. }
  assert (Hpath : aot_snapshot_path settings <> "")
    by (intros Heq; rewrite Heq in Hempty; discriminate).
  pose proof (lookup_miss_run settings e symbol_name s before later a
                Htable Hbefore Ha Hunmapped Hpath) as Hfirst.
  cbv zeta in Hfirst.
  destruct (map_asset settings e a) as [[p written] calls] eqn:Hmap.
  destruct Hfirst as (Hres & Hev & Hfinal).
  split; [exact Hres|]. split; [exact Hev|]. split; [exact Hfinal|].
  split.
  - intros Hp.
    rewrite (lookup_at_first_named settings e' _ _ _ _ _ Hfinal Hbefore).
    rewrite (lookup_mapped settings e' symbol_name before later
               (with_mapping p a) _ Ha Hp).
    reflexivity.
  - intros ->.
    pose proof (lookup_miss_run settings e' symbol_name _ before later
                  (with_mapping nullptr a) Hfinal Hbefore Ha eq_refl Hpath)
      as Hagain.
    cbv zeta in Hagain. rewrite map_asset_with_mapping in Hagain.
    destruct (map_asset_calls settings e' a) as (more & Hmore).
    destruct (map_asset settings e' a) as [[q written'] calls'].
    destruct Hagain as (Hres' & Hev' & _). cbn [fst snd] in *.
    split; [exact Hres'|]. split; [exact Hev'|].
    exists more. now rewrite Hev'.
Qed.

Lemma asset_lookup_miss_witness :
  let first :=
    ANDROID._DartSymbolLookup sample_settings full_env
      kInstructionsSnapshotName process_start in
  result first = Ret 65536 /\
  events first =
    [Ev_GetFileSize "/data/aot/snapshot_aot_instr";
     Ev_open "/data/aot/snapshot_aot_instr";
     Ev_mmap 8192 5 3; Ev_close 3] /\
  ANDROID._DartSymbolLookup sample_settings bare_env
    kInstructionsSnapshotName (final first) =
  mkRun (Ret 65536) (final first) [].
Proof.
  pose proof (asset_lookup_miss sample_settings full_env bare_env
                kInstructionsSnapshotName process_start
                (firstn 2 g_symbol_assets_initial)
                (skipn 3 g_symbol_assets_initial)
                (SymbolAsset.mk kInstructionsSnapshotName
                   "snapshot_aot_instr" true nullptr)
                eq_refl) as H.
  cbv zeta in H.
  assert (Hbefore :
    Forall (fun b => ~ named kInstructionsSnapshotName b)
      (firstn 2 g_symbol_assets_initial)).
  { repeat constructor; discriminate. }
  specialize (H Hbefore eq_refl eq_refl).
  change (ANDROID.empty (aot_snapshot_path sample_settings)) with false in H.
  change (map_asset sample_settings full_env
            (SymbolAsset.mk kInstructionsSnapshotName "snapshot_aot_instr"
               true nullptr))
    with (65536, true,
          [Ev_GetFileSize "/data/aot/snapshot_aot_instr";
           Ev_open "/data/aot/snapshot_aot_instr";
           Ev_mmap 8192 5 3; Ev_close 3]) in H.
  destruct H as (Hres & Hev & _ & Hhit & _).
  cbv zeta. split; [exact Hres|]. split; [exact Hev|].
  apply Hhit. discriminate.
Defined.

(** C5, as stated, fails: with no asset file the lookup returns null, and the
    next lookup of the same name calls for the file size again. *)
Lemma asset_lookup_failure_is_retried :
  let first :=
    ANDROID._DartSymbolLookup sample_settings bare_env
      kInstructionsSnapshotName process_start in
  let again :=
    ANDROID._DartSymbolLookup sample_settings bare_env
      kInstructionsSnapshotName (final first) in
  result first = Ret nullptr /\
  events first = [Ev_GetFileSize "/data/aot/snapshot_aot_instr"] /\
  result again = Ret nullptr /\
  events again = [Ev_GetFileSize "/data/aot/snapshot_aot_instr"].
Proof. vm_compute. repeat split. Qed.

(** A lookup that returned a non-null pointer has it stored: every later
    lookup of the name, whatever the environment, returns it without a call
    and changes nothing. *)
Lemma lookup_hit_after
    (settings : SkySettings) (e e' : Env) (symbol_name : string) (s : Process)
    (p : ptr) :
  result (ANDROID._DartSymbolLookup settings e symbol_name s) = Ret p ->
  p <> nullptr ->
  ANDROID._DartSymbolLookup settings e' symbol_name
    (final (ANDROID._DartSymbolLookup settings e symbol_name s)) =
  mkRun (Ret p) (final (ANDROID._DartSymbolLookup settings e symbol_name s)) [].
Proof.
  intros Hres Hp.
  destruct (first_named symbol_name (g_symbol_assets s))
    as [Hnone | (before & a & later & Htable & Hbefore & Ha)].
  - unfold ANDROID._DartSymbolLookup in Hres.
    rewrite (lookup_unregistered settings e _ _ _ _ Hnone) in Hres.
    cbn in Hres. congruence.
  - destruct (Z.eq_dec (SymbolAsset.mapping a) nullptr) as [Hunmapped|Hmapped].
    + destruct (ANDROID.empty (aot_snapshot_path settings)) eqn:Hempty.
      * rewrite (lookup_at_first_named settings e _ _ _ _ _ Htable Hbefore),
          (lookup_unmapped settings e _ _ _ _ _ Ha Hunmapped), Hempty in Hres.
        discriminate.
      * assert (Hpath : aot_snapshot_path settings <> "")
          by (intros Heq; rewrite Heq in Hempty; discriminate).
        pose proof (asset_lookup_miss_hit settings e e' symbol_name s before
                      later a Htable Hbefore Ha Hunmapped Hpath) as Hmiss.
        cbv zeta in Hmiss.
        destruct (map_asset settings e a) as [[q written] calls].
        destruct Hmiss as (Hq & Hhit). rewrite Hq in Hres.
        injection Hres as ->. apply Hhit. exact Hp.
    + rewrite (lookup_at_first_named settings e _ _ _ _ _ Htable Hbefore),
        (lookup_mapped settings e _ _ _ _ _ Ha Hmapped) in Hres |- *.
      cbn in Hres. injection Hres as <-. cbn [final].
      rewrite (lookup_at_first_named settings e' _ _ _ _ _ Htable Hbefore),
        (lookup_mapped settings e' _ _ _ _ _ Ha Hmapped).
      reflexivity.
Qed.

(** In an environment that answers as before, a second lookup returns what
    the first did. *)
Lemma lookup_again_same_env
    (settings : SkySettings) (e : Env) (symbol_name : string) (s : Process)
    (p : ptr) :
  result (ANDROID._DartSymbolLookup settings e symbol_name s) = Ret p ->
  result (ANDROID._DartSymbolLookup settings e symbol_name
            (final (ANDROID._DartSymbolLookup settings e symbol_name s))) =
  Ret p.
Proof.
  intros Hres.
  destruct (Z.eq_dec p nullptr) as [->|Hp];
    [|now rewrite (lookup_hit_after settings e e symbol_name s p Hres Hp)].
  destruct (first_named symbol_name (g_symbol_assets s))
    as [Hnone | (before & a & later & Htable & Hbefore & Ha)].
  - unfold ANDROID._DartSymbolLookup.
    rewrite (lookup_unregistered settings e _ _ _ s Hnone). cbn [final].
    now rewrite (lookup_unregistered settings e _ _ _ s Hnone).
  - destruct (Z.eq_dec (SymbolAsset.mapping a) nullptr) as [Hunmapped|Hmapped].
    + destruct (ANDROID.empty (aot_snapshot_path settings)) eqn:Hempty.
      * rewrite (lookup_at_first_named settings e _ _ _ _ _ Htable Hbefore),
          (lookup_unmapped settings e _ _ _ _ _ Ha Hunmapped), Hempty in Hres.
        discriminate.
      * assert (Hpath : aot_snapshot_path settings <> "")
          by (intros Heq; rewrite Heq in Hempty; discriminate).
        pose proof (lookup_miss_run settings e symbol_name s before later a
                      Htable Hbefore Ha Hunmapped Hpath) as Hfirst.
        cbv zeta in Hfirst.
        destruct (map_asset settings e a) as [[q written] calls] eqn:Hmap.
        destruct Hfirst as (Hq & _ & Hfinal).
        rewrite Hq in Hres. injection Hres as ->.
        pose proof (lookup_miss_run settings e symbol_name _ before later
                      (with_mapping nullptr a) Hfinal Hbefore Ha eq_refl Hpath)
          as Hagain.
        cbv zeta in Hagain.
        rewrite map_asset_with_mapping, Hmap in Hagain.
        apply Hagain.
    + rewrite (lookup_at_first_named settings e _ _ _ _ _ Htable Hbefore),
        (lookup_mapped settings e _ _ _ _ _ Ha Hmapped) in Hres.
      cbn in Hres. congruence.
Qed.

(** C6 (amended).  *Two lookups in the asset cache.*  Once a lookup has
    returned a non-null pointer, every later lookup of that name returns the
    same pointer, without a file call and whatever the file system has
    become; and two lookups answered by the same environment return the same
    result.  A name that is not in the table gives null without any file
    call. *)
Theorem asset_lookup_twice
    (settings : SkySettings) (e e' : Env) (symbol_name : string) (s : Process) :
  let first := ANDROID._DartSymbolLookup settings e symbol_name s in
  (forall p : ptr,
     result first = Ret p -> p <> nullptr ->
     ANDROID._DartSymbolLookup settings e' symbol_name (final first) =
     mkRun (Ret p) (final first) []) /\
  (forall p : ptr,
     result first = Ret p ->
     result (ANDROID._DartSymbolLookup settings e symbol_name (final first)) =
     Ret p) /\
  (Forall (fun a => ~ named symbol_name a) (g_symbol_assets s) ->
   first = mkRun (Ret nullptr) s []).
Proof.
  cbv zeta. split; [|split].
  - intros p. apply lookup_hit_after.
  - intros p. apply lookup_again_same_env.
  - intros Hnone. apply (lookup_unregistered settings e _ _ _ s Hnone).
Qed.

Lemma asset_lookup_twice_witness :
  let first :=
    ANDROID._DartSymbolLookup sample_settings full_env
      kDataSnapshotName process_start in
  ANDROID._DartSymbolLookup sample_settings bare_env kDataSnapshotName
    (final first) = mkRun (Ret 65536) (final first) [] /\
  ANDROID._DartSymbolLookup sample_settings full_env "kNoSuchSymbol"
    process_start = mkRun (Ret nullptr) process_start [].
Proof.
  cbv zeta.
  destruct (asset_lookup_twice sample_settings full_env bare_env
              kDataSnapshotName process_start) as (Hhit & _ & _).
  destruct (asset_lookup_twice sample_settings full_env bare_env
              "kNoSuchSymbol" process_start) as (_ & _ & Hnone).
  split.
  - apply Hhit; [reflexivity | discriminate].
  - apply Hnone. repeat constructor; discriminate.
Defined.

(** C6, as stated, fails: a lookup made while the asset file is missing
    returns null and stores nothing, the next one, made when the file is
    there, returns the fresh mapping. *)
Lemma asset_lookup_null_then_mapped :
  let first :=
    ANDROID._DartSymbolLookup sample_settings bare_env
      kInstructionsSnapshotName process_start in
  let again :=
    ANDROID._DartSymbolLookup sample_settings full_env
      kInstructionsSnapshotName (final first) in
  result first = Ret nullptr /\ result again = Ret 65536.
Proof. vm_compute. split; reflexivity. Qed.

(** ** The execution mode *)

(** The dynamic-library lookup of a name returns one pointer, whatever the
    state it starts from. *)
Lemma IOS_lookup_returns (e : Env) (symbol_name : option string) :
  exists symbol, forall s,
    result (IOS._DartSymbolLookup e symbol_name s) = Ret symbol.
Proof.
  destruct symbol_name as [name|]; [|exists nullptr; reflexivity].
  destruct (DartLookupSymbolInLibrary_returns e (Some name)
              (Some kDartApplicationLibraryPath) process_start)
    as (p & _ & Happ).
  destruct (DartLookupSymbolInLibrary_returns e (Some name) None process_start)
    as (q & _ & Hdef).
  exists (if is_null p then q else p). intros s.
  unfold IOS._DartSymbolLookup.
  rewrite (bind_Ret _ _ _ _ (Happ s)). cbn [result].
  destruct (is_null p); cbn [negb]; [apply Hdef | reflexivity].
Qed.

Lemma DART_SYMBOL_again
    (build : Build) (settings : SkySettings) (e : Env) (name : string)
    (s : Process) (p : ptr) :
  result (DART_SYMBOL build settings e name s) = Ret p ->
  result (DART_SYMBOL build settings e name
            (final (DART_SYMBOL build settings e name s))) = Ret p.
Proof.
  unfold DART_SYMBOL. destruct (resolution build).
  - intros H. exact H.
  - destruct (IOS_lookup_returns e (Some name)) as (q & Hq).
    rewrite !Hq. trivial.
  - apply lookup_again_same_env.
Qed.

(** Asked twice in a row, with the environment answering alike,
    [IsRunningPrecompiledCode] gives the same mode. *)
Lemma IsRunningPrecompiledCode_again
    (build : Build) (settings : SkySettings) (e : Env) (s : Process)
    (precompiled : bool) :
  result (IsRunningPrecompiledCode build settings e s) = Ret precompiled ->
  result (IsRunningPrecompiledCode build settings e
            (final (IsRunningPrecompiledCode build settings e s))) =
  Ret precompiled.
Proof.
  unfold IsRunningPrecompiledCode, PrecompiledInstructionsSymbolIfPresent.
  destruct (resolution build) eqn:Hres; [trivial | |].
  all: intros H;
    destruct (result (DART_SYMBOL build settings e kInstructionsSnapshotName s))
      as [p|] eqn:Hp;
    [|rewrite (bind_Fatal _ _ _ Hp) in H; discriminate];
    rewrite (bind_Ret _ _ _ _ Hp) in H |- *; cbn in H |- *;
    rewrite (bind_Ret _ _ _ _ (DART_SYMBOL_again _ _ _ _ _ _ Hp));
    exact H.
Qed.

(** With a snapshot directory configured the asset lookup never aborts. *)
Lemma lookup_returns
    (settings : SkySettings) (e : Env) (symbol_name : string) (s : Process) :
  aot_snapshot_path settings <> "" ->
  exists p, result (ANDROID._DartSymbolLookup settings e symbol_name s) = Ret p.
Proof.
  intros Hpath.
  destruct (first_named symbol_name (g_symbol_assets s))
    as [Hnone | (before & a & later & Htable & Hbefore & Ha)].
  - exists nullptr. unfold ANDROID._DartSymbolLookup.
    now rewrite (lookup_unregistered settings e _ _ _ s Hnone).
  - rewrite (lookup_at_first_named settings e _ _ _ _ _ Htable Hbefore).
    destruct (Z.eq_dec (SymbolAsset.mapping a) nullptr) as [Hunmapped|Hmapped].
    + rewrite (lookup_unmapped settings e _ _ _ _ _ Ha Hunmapped),
        (empty_path _ Hpath).
      destruct (map_asset settings e a) as [[p written] calls].
      exists p. reflexivity.
    + rewrite (lookup_mapped settings e _ _ _ _ _ Ha Hmapped).
      eexists. reflexivity.
Qed.

(** The resolver is usable: the asset-mapping strategy has its directory. *)
Lemma DART_SYMBOL_returns
    (build : Build) (settings : SkySettings) (e : Env) (name : string)
    (s : Process) :
  (resolution build = DynamicAndroid -> aot_snapshot_path settings <> "") ->
  exists p, result (DART_SYMBOL build settings e name s) = Ret p.
Proof.
  intros Hdir. unfold DART_SYMBOL. destruct (resolution build).
  - eexists. reflexivity.
  - destruct (IOS_lookup_returns e (Some name)) as (p & Hp). exists p. apply Hp.
  - apply lookup_returns. now apply Hdir.
Qed.

Lemma IsRunningPrecompiledCode_returns
    (build : Build) (settings : SkySettings) (e : Env) (s : Process) :
  (resolution build = DynamicAndroid -> aot_snapshot_path settings <> "") ->
  exists precompiled,
    result (IsRunningPrecompiledCode build settings e s) = Ret precompiled.
Proof.
  intros Hdir.
  destruct (DART_SYMBOL_returns build settings e kInstructionsSnapshotName s Hdir)
    as (p & Hp).
  unfold IsRunningPrecompiledCode, PrecompiledInstructionsSymbolIfPresent.
  destruct (resolution build); [eexists; reflexivity | |].
  all: rewrite (bind_Ret _ _ _ _ Hp); eexists; reflexivity.
Qed.

(** ** The flag vector *)

Lemma Vector_append_whole {A : Type} (v data : list A) :
  Vector_append v data (arraysize data) = v ++ data.
Proof. unfold Vector_append, arraysize. now rewrite firstn_all. Qed.

Lemma append_each {A : Type} (items v : list A) :
  fold_left (fun args flag => args ++ [flag]) items v = v ++ items.
Proof.
  revert v. induction items as [|x items IH]; intros v; cbn.
  - now rewrite app_nil_r.
  - rewrite IH, <- app_assoc. reflexivity.
Qed.

Lemma dart_flags_of_command_line (command_line : gmap string string) :
  (if HasSwitch command_line kDartFlags
   then istream_words (GetSwitchValueNative command_line kDartFlags) EmptyString
   else []) = user_flags command_line.
Proof.
  unfold HasSwitch, GetSwitchValueNative, user_flags.
  destruct (command_line !! kDartFlags); reflexivity.
Qed.

Lemma ShouldEnableCheckedMode_result
    (build : Build) (settings : SkySettings) (e : Env) (s : Process)
    (precompiled : bool) :
  result (IsRunningPrecompiledCode build settings e s) = Ret precompiled ->
  result (ShouldEnableCheckedMode build settings e s) =
  Ret (checked_mode_policy build settings precompiled).
Proof.
  intros Hmode. unfold ShouldEnableCheckedMode, checked_mode_policy.
  rewrite (bind_Ret _ _ _ _ Hmode). cbn [result].
  destruct precompiled; [reflexivity|].
  destruct (DART_STRICT build); reflexivity.
Qed.

(** The run of the flag composition: it aborts only if the mode test does,
    and otherwise hands over the vector of the specification. *)
Lemma InitDartVM_args_result
    (build : Build) (settings : SkySettings)
    (command_line : gmap string string) (e : Env) (s : Process) :
  match result (IsRunningPrecompiledCode build settings e s) with
  | Ret precompiled =>
      result (InitDartVM_args build settings command_line e s) =
      Ret (composed_flags build settings command_line precompiled)
  | Fatal =>
      result (InitDartVM_args build settings command_line e s) = Fatal
  end.
Proof.
  unfold InitDartVM_args.
  destruct (result (IsRunningPrecompiledCode build settings e s))
    as [precompiled|] eqn:Hmode.
  - rewrite (bind_Ret _ _ _ _ Hmode). cbn [result].
    pose proof (ShouldEnableCheckedMode_result build settings e _ precompiled
                  (IsRunningPrecompiledCode_again _ _ _ _ _ Hmode)) as Hchecked.
    rewrite (bind_Ret _ _ _ _ Hchecked). cbn [result ret].
    rewrite dart_flags_of_command_line, append_each.
    rewrite !Vector_append_whole.
    unfold composed_flags. f_equal.
    destruct precompiled, (checked_mode_policy build settings _),
      (start_paused settings), (trace_startup settings);
      rewrite ?Vector_append_whole, ?app_nil_r, <- ?app_assoc; reflexivity.
  - now rewrite (bind_Fatal _ _ _ Hmode).
Qed.

(** ** The user-supplied flags are the value split on white space *)

Lemma append_nil (t : string) : EmptyString +:+ t = t.
Proof. reflexivity. Qed.

Lemma append_cons (a : ascii) (s t : string) :
  String a s +:+ t = String a (s +:+ t).
Proof. reflexivity. Qed.

Lemma append_char (acc : string) (c : ascii) (t : string) :
  (acc +:+ String c EmptyString) +:+ t = acc +:+ String c t.
Proof.
  induction acc as [|a acc IH]; [reflexivity|].
  rewrite !append_cons. now f_equal.
Qed.

Lemma append_empty (t : string) : t +:+ EmptyString = t.
Proof.
  induction t as [|a t IH]; [reflexivity|].
  rewrite append_cons. now f_equal.
Qed.

Lemma istream_words_layout (input word : string) :
  exists t w items,
    Forall (fun c => isspace c = false) (String.list_ascii_of_string t) /\
    all_space w /\
    well_separated items /\
    (items <> [] -> word +:+ t <> EmptyString -> w <> EmptyString) /\
    input = t +:+ w +:+ laid_out items /\
    istream_words input word =
    match word +:+ t with
    | EmptyString => map fst items
    | String _ _ => (word +:+ t) :: map fst items
    end.
Proof.
  revert word. induction input as [|c input IH]; intros word.
  - exists EmptyString, EmptyString, [].
    rewrite append_empty.
    split; [constructor|]. split; [constructor|]. split; [exact Logic.I|].
    split; [intros H; now contradiction H|]. split; [reflexivity|].
    cbn. now destruct word.
  - destruct (isspace c) eqn:Hc.
    + destruct (IH EmptyString)
        as (t & w & items & Ht & Hw & Hitems & Hsep & -> & Hrun).
      rewrite append_nil in Hrun, Hsep.
      assert (Hstep :
        istream_words (String c (t +:+ w +:+ laid_out items)) word =
        match word with
        | EmptyString => istream_words (t +:+ w +:+ laid_out items) EmptyString
        | String _ _ =>
            word :: istream_words (t +:+ w +:+ laid_out items) EmptyString
        end) by (cbn [istream_words]; now rewrite Hc).
      rewrite Hstep, Hrun. clear Hstep Hrun.
      destruct t as [|a t].
      * exists EmptyString, (String c w), items.
        rewrite append_empty, !append_nil.
        split; [constructor|].
        split; [unfold all_space; cbn [String.list_ascii_of_string];
                constructor; assumption|].
        split; [exact Hitems|].
        split; [intros _ _; discriminate|].
        split; [reflexivity|]. now destruct word.
      * exists EmptyString, (String c EmptyString), ((String a t, w) :: items).
        rewrite append_empty, !append_nil.
        split; [constructor|].
        split; [unfold all_space; cbn [String.list_ascii_of_string];
                repeat constructor; assumption|].
        split.
        { cbn [well_separated]. split; [split; [discriminate | exact Ht]|].
          split; [exact Hw|]. split; [|exact Hitems].
          intros Hne. apply Hsep; [exact Hne | discriminate]. }
        split; [intros _ _; discriminate|].
        split; [reflexivity|]. now destruct word.
    + destruct (IH (word +:+ String c EmptyString))
        as (t & w & items & Ht & Hw & Hitems & Hsep & -> & Hrun).
      rewrite append_char in Hrun, Hsep.
      exists (String c t), w, items.
      split; [cbn [String.list_ascii_of_string]; now constructor|].
      split; [exact Hw|]. split; [exact Hitems|]. split; [exact Hsep|].
      split; [reflexivity|].
      cbn [istream_words]. rewrite Hc. exact Hrun.
Qed.

(** The extraction loop splits every string on white space. *)
Lemma istream_words_split (value : string) :
  split_on_whitespace value (istream_words value EmptyString).
Proof.
  destruct (istream_words_layout value EmptyString)
    as (t & w & items & Ht & Hw & Hitems & Hsep & -> & Hrun).
  rewrite append_nil in Hrun, Hsep. rewrite Hrun.
  destruct t as [|a t].
  - exists w, items. rewrite append_nil.
    split; [exact Hw|]. split; [exact Hitems|]. split; reflexivity.
  - exists EmptyString, ((String a t, w) :: items).
    split; [constructor|]. split; [|split; reflexivity].
    cbn [well_separated]. split; [split; [discriminate | exact Ht]|].
    split; [exact Hw|]. split; [|exact Hitems].
    intros Hne. apply Hsep; [exact Hne | discriminate].
Qed.

(** C1.  *Flag vector.*  Whatever the build, the host settings, the command
    line and the environment: the mode test aborts, and the composition with
    it, only when the asset-mapping resolver has no snapshot directory;
    otherwise the vector handed to the VM is, in this order, the
    ignore-unrecognized-flags directive, the profiling defaults, the mirrors
    directive, the background-compilation defaults, the precompilation flags
    iff the mode is precompiled, the checked-mode flags iff the checked-mode
    policy holds, the start-paused flag and the startup-tracing flags iff the
    settings ask for them, and last the user-supplied flags: the value of
    the switch split on white space, that is, the value is white space
    followed by exactly these flags, each a non-empty run of characters that
    are not white space, separated and followed by white space; nothing if
    the switch is absent. *)
Theorem vm_flags_composition
    (build : Build) (settings : SkySettings)
    (command_line : gmap string string) (e : Env) (s : Process) :
  match result (IsRunningPrecompiledCode build settings e s) with
  | Ret precompiled =>
      exists user,
        result (InitDartVM_args build settings command_line e s) =
        Ret (["--ignore-unrecognized-flags"] ++
             kDartProfilingArgs build ++
             kDartMirrorsArgs ++
             kDartBackgroundCompilationArgs ++
             (if precompiled then kDartPrecompilationArgs else []) ++
             (if negb precompiled &&
                 (DART_STRICT build || enable_dart_checked_mode settings)
              then kDartCheckedModeArgs else []) ++
             (if start_paused settings then kDartStartPausedArgs else []) ++
             (if trace_startup settings then kDartTraceStartupArgs else []) ++
             user) /\
        match command_line !! kDartFlags with
        | Some value =>
            user = istream_words value EmptyString /\
            split_on_whitespace value user
        | None => user = []
        end
  | Fatal =>
      result (InitDartVM_args build settings command_line e s) = Fatal /\
      resolution build = DynamicAndroid /\
      aot_snapshot_path settings = ""
  end.
Proof.
  pose proof (InitDartVM_args_result build settings command_line e s) as Hrun.
  destruct (result (IsRunningPrecompiledCode build settings e s)) eqn:Hmode.
  - exists (user_flags command_line). split; [exact Hrun|].
    unfold user_flags. destruct (command_line !! kDartFlags) as [value|].
    + split; [reflexivity | apply istream_words_split].
    + reflexivity.
  - split; [exact Hrun|].
    destruct (Resolution_eq_dec (resolution build) DynamicAndroid) as [Hres|Hres].
    + split; [exact Hres|].
      destruct (String.string_dec (aot_snapshot_path settings) "") as [Hp|Hp];
        [exact Hp|].
      destruct (IsRunningPrecompiledCode_returns build settings e s
                  (fun _ => Hp)) as (b & Hb).
      congruence.
    + destruct (IsRunningPrecompiledCode_returns build settings e s
                  (fun H => False_ind _ (Hres H))) as (b & Hb).
      congruence.
Qed.

(** A checked-mode flag is in the composed vector exactly when the policy
    put the checked-mode flags there or the user flag string names it. *)
Lemma checked_flag_in_composed
    (build : Build) (settings : SkySettings)
    (command_line : gmap string string) (precompiled : bool) (flag : string) :
  In flag kDartCheckedModeArgs ->
  In flag (composed_flags build settings command_line precompiled) <->
  checked_mode_policy build settings precompiled = true \/
  In flag (user_flags command_line).
Proof.
  intros Hflag. unfold composed_flags, kDartProfilingArgs.
  destruct (checked_mode_policy build settings precompiled).
  - split; [intros _; now left | intros _].
    rewrite !in_app_iff. do 5 right. left. exact Hflag.
  - cbn in Hflag.
    destruct Hflag as [<-|[<-|[<-|[<-|[]]]]];
      destruct precompiled, (WTF_OS_IOS_OR_MACOSX build),
        (start_paused settings), (trace_startup settings);
      cbn; rewrite ?in_app_iff; cbn;
      intuition discriminate.
Qed.

(** C2.  *Checked-mode flags.*  For every build, every host settings and
    every environment in which the mode test returns:
    [ShouldEnableCheckedMode] holds iff the mode is not precompiled and the
    build is strict or the settings enable checked mode, and the checked-mode
    flags are in the composed vector iff that policy holds; in precompiled
    mode they are absent for every setting combination.  The user-supplied
    flag string is no setting: it is appended as it is, so that it can
    override the defaults, and the flags it names are accounted for apart: a
    checked-mode flag is in the vector iff the policy holds or the string
    names it. *)
Theorem checked_mode_flags
    (build : Build) (settings : SkySettings)
    (command_line : gmap string string) (e : Env) (s : Process)
    (precompiled : bool) :
  result (IsRunningPrecompiledCode build settings e s) = Ret precompiled ->
  let policy :=
    precompiled = false /\
    (DART_STRICT build = true \/ enable_dart_checked_mode settings = true) in
  exists args,
    result (InitDartVM_args build settings command_line e s) = Ret args /\
    (result (ShouldEnableCheckedMode build settings e s) = Ret true <-> policy) /\
    (forall flag, In flag kDartCheckedModeArgs ->
       (In flag args <-> policy \/ In flag (user_flags command_line))) /\
    (precompiled = true ->
     forall flag, In flag kDartCheckedModeArgs ->
       In flag args -> In flag (user_flags command_line)) /\
    ((forall flag, In flag kDartCheckedModeArgs ->
        ~ In flag (user_flags command_line)) ->
     ((forall flag, In flag kDartCheckedModeArgs -> In flag args) <-> policy) /\
     ((exists flag, In flag kDartCheckedModeArgs /\ In flag args) <-> policy)).
Proof.
  intros Hmode policy.
  pose proof (InitDartVM_args_result build settings command_line e s) as Hrun.
  rewrite Hmode in Hrun.
  exists (composed_flags build settings command_line precompiled).
  split; [exact Hrun|].
  assert (Hpolicy :
    checked_mode_policy build settings precompiled = true <-> policy).
  { unfold checked_mode_policy, policy.
    destruct precompiled, (DART_STRICT build),
      (enable_dart_checked_mode settings); cbn; intuition discriminate. }
  assert (Hin : forall flag, In flag kDartCheckedModeArgs ->
            In flag (composed_flags build settings command_line precompiled) <->
            policy \/ In flag (user_flags command_line)).
  { intros flag Hflag.
    now rewrite (checked_flag_in_composed _ _ _ _ _ Hflag), Hpolicy. }
  split; [|split; [|split]].
  - rewrite (ShouldEnableCheckedMode_result _ _ _ _ _ Hmode), <- Hpolicy.
    split; congruence.
  - exact Hin.
  - intros -> flag Hflag Hpresent.
    apply (Hin flag Hflag) in Hpresent.
    destruct Hpresent as [[Hp _] | Huser]; [discriminate | exact Huser].
  - intros Huser. split; split.
    + intros Hall.
      assert (Hfirst : In "--enable_asserts" kDartCheckedModeArgs) by now left.
      destruct (proj1 (Hin _ Hfirst) (Hall _ Hfirst)) as [Hp | Hu];
        [exact Hp | now apply Huser in Hu].
    + intros Hp flag Hflag. apply (Hin flag Hflag). now left.
    + intros (flag & Hflag & Hpresent).
      destruct (proj1 (Hin _ Hflag) Hpresent) as [Hp | Hu];
        [exact Hp | now apply Huser in Hu].
    + intros Hp. exists "--enable_asserts".
      assert (Hfirst : In "--enable_asserts" kDartCheckedModeArgs) by now left.
      split; [exact Hfirst|]. apply (Hin _ Hfirst). now left.
Qed.

Lemma checked_mode_flags_witness :
  exists args,
    result (InitDartVM_args
              (mkBuild StaticResolution false true false false)
              sample_settings {[ "dart-flags" := "--verbose_gc" ]}
              bare_env process_start) = Ret args /\
    In "--enable_type_checks" args.
Proof.
  destruct (checked_mode_flags
              (mkBuild StaticResolution false true false false)
              sample_settings {[ "dart-flags" := "--verbose_gc" ]}
              bare_env process_start false eq_refl)
    as (args & Hrun & _ & Hin & _).
  exists args. split; [exact Hrun|].
  apply Hin; [right; left; reflexivity|].
  left. split; [reflexivity | left; reflexivity].
Defined.

(** The user-supplied flags are not filtered: in precompiled mode, with
    checked mode off in the settings, a command line that names the
    checked-mode flags has all four appended to the vector. *)
Lemma checked_flags_from_command_line :
  result (IsRunningPrecompiledCode ios_build sample_settings full_env
            process_start) = Ret true /\
  enable_dart_checked_mode sample_settings = false /\
  result (InitDartVM_args ios_build sample_settings
            {[ "dart-flags" :=
               "--enable_asserts --enable_type_checks --error_on_bad_type --error_on_bad_override" ]}
            full_env process_start) =
  Ret [ "--ignore-unrecognized-flags"; "--profile_period=1000";
        "--no-profiler"; "--enable_mirrors=false"; "--background_compilation";
        "--precompilation";
        "--enable_asserts"; "--enable_type_checks"; "--error_on_bad_type";
        "--error_on_bad_override" ].
Proof. vm_compute. repeat split. Qed.

(** ** Splitting the flag string *)

Lemma istream_words_skip (w rest : string) :
  all_space w ->
  istream_words (w +:+ rest) EmptyString = istream_words rest EmptyString.
Proof.
  unfold all_space. induction w as [|c w IH]; intros Hw; [reflexivity|].
  cbn [String.list_ascii_of_string] in Hw.
  inversion Hw as [|? ? Hc Hrest]; subst.
  rewrite append_cons. cbn [istream_words]. rewrite Hc. now apply IH.
Qed.

Lemma istream_words_take (t rest acc : string) :
  Forall (fun c => isspace c = false) (String.list_ascii_of_string t) ->
  istream_words (t +:+ rest) acc = istream_words rest (acc +:+ t).
Proof.
  revert acc. induction t as [|c t IH]; intros acc Ht.
  - now rewrite append_nil, append_empty.
  - cbn [String.list_ascii_of_string] in Ht.
    inversion Ht as [|? ? Hc Hrest]; subst.
    rewrite append_cons. cbn [istream_words]. rewrite Hc.
    rewrite (IH _ Hrest), append_char. reflexivity.
Qed.

Lemma istream_words_cut (w rest acc : string) :
  acc <> EmptyString -> all_space w -> w <> EmptyString ->
  istream_words (w +:+ rest) acc = acc :: istream_words rest EmptyString.
Proof.
  intros Hacc Hw Hne. destruct w as [|c w]; [congruence|].
  unfold all_space in Hw. cbn [String.list_ascii_of_string] in Hw.
  inversion Hw as [|? ? Hc Hrest]; subst.
  rewrite append_cons. cbn [istream_words]. rewrite Hc.
  destruct acc; [congruence|].
  now rewrite (istream_words_skip w rest Hrest).
Qed.

Lemma istream_words_last (w acc : string) :
  acc <> EmptyString -> all_space w -> istream_words w acc = [acc].
Proof.
  intros Hacc Hw. destruct w as [|c w].
  - cbn. destruct acc; [congruence | reflexivity].
  - rewrite <- (append_empty (String c w)).
    rewrite (istream_words_cut _ _ _ Hacc Hw); [reflexivity | discriminate].
Qed.

(** The extraction loop splits on white space: from a string laid out as
    leading white space and words that are each followed by white space it
    reads exactly the words, in order. *)
Lemma istream_words_laid_out (lead : string) (items : list (string * string)) :
  all_space lead ->
  well_separated items ->
  istream_words (lead +:+ laid_out items) EmptyString = map fst items.
Proof.
  intros Hlead Hitems. rewrite (istream_words_skip _ _ Hlead). clear Hlead lead.
  induction items as [|[t w] items IH]; [reflexivity|].
  cbn [laid_out map fst].
  destruct Hitems as ((Hne & Ht) & Hw & Hsep & Hrest).
  rewrite (istream_words_take _ _ _ Ht), append_nil.
  destruct items as [|item items].
  - cbn [laid_out]. rewrite append_empty.
    now rewrite (istream_words_last _ _ Hne Hw).
  - rewrite (istream_words_cut _ _ _ Hne Hw (Hsep ltac:(discriminate))).
    now rewrite (IH Hrest).
Qed.

Lemma istream_words_laid_out_witness :
  istream_words "  --observe   --verbose_gc "%string EmptyString =
  ["--observe"; "--verbose_gc"].
Proof.
  apply (istream_words_laid_out "  " [("--observe", "   "); ("--verbose_gc", " ")]).
  - repeat constructor.
  - cbn. unfold is_word, all_space.
    repeat split; try discriminate; repeat constructor.
Defined.

(** ** Which calls a run makes *)

Section Emits.
Context {A B : Type} (P : Event -> Prop).

Lemma emits_ret (a : A) : emits P (ret a).
Proof. intros s. constructor. Qed.

Lemma emits_fatal : emits P (@fatal A).
Proof. intros s. constructor. Qed.

Lemma emits_get (field : Process -> A) : emits P (get field).
Proof. intros s. constructor. Qed.

Lemma emits_call (ev : Event) (answer : A) : P ev -> emits P (call ev answer).
Proof. intros Hev s. repeat constructor. exact Hev. Qed.

Lemma emits_bind (m : M A) (f : A -> M B) :
  emits P m -> (forall a, emits P (f a)) -> emits P (bind m f).
Proof.
  intros Hm Hf s. unfold bind.
  destruct (result (m s)) as [a|]; cbn [events].
  - apply Forall_app. split; [apply Hm | apply Hf].
  - apply Hm.
Qed.

End Emits.

Lemma emits_modify (P : Event -> Prop) (f : Process -> Process) :
  emits P (modify f).
Proof. intros s. constructor. Qed.

Lemma emits_FTL_CHECK (P : Event -> Prop) (condition : bool) :
  emits P (FTL_CHECK condition).
Proof. destruct condition; [apply emits_ret | apply emits_fatal]. Qed.

Lemma emits_weaken {A : Type} (P Q : Event -> Prop) (m : M A) :
  (forall ev, P ev -> Q ev) -> emits P m -> emits Q m.
Proof. intros HPQ Hm s. eapply Forall_impl; [apply Hm | exact HPQ]. Qed.

Create HintDb emits discriminated.
#[export] Hint Resolve emits_ret emits_fatal emits_get emits_modify
  emits_FTL_CHECK : emits.

(** Takes a run apart along its binds and branches; what is left are the
    calls themselves and the runs named by hypotheses or hints. *)
Ltac emits_step :=
  match goal with
  | |- emits _ (bind _ _) => apply emits_bind; [|intros ?]
  | |- emits _ (call _ _) => apply emits_call; try reflexivity
  | |- emits _ (if ?c then _ else _) => destruct c
  | |- emits _ (match ?x with _ => _ end) => destruct x
  | |- emits _ _ => solve [eauto with emits]
  end.

Ltac emits_all := repeat emits_step.

Lemma emits_dlerror (P : Event -> Prop) : emits P IOS.dlerror.
Proof. intros s. constructor. Qed.

#[export] Hint Resolve emits_dlerror : emits.

Lemma emits_IOS_library
    (e : Env) (symbol_name library : option string) :
  emits (fun ev => is_resolver_event ev = true)
    (IOS.DartLookupSymbolInLibrary e symbol_name library).
Proof.
  unfold IOS.DartLookupSymbolInLibrary, IOS.dlopen, IOS.dlsym, IOS.linker_call.
  emits_all.
Qed.

Lemma emits_IOS_lookup (e : Env) (symbol_name : option string) :
  emits (fun ev => is_resolver_event ev = true)
    (IOS._DartSymbolLookup e symbol_name).
Proof.
  unfold IOS._DartSymbolLookup.
  pose proof (emits_IOS_library e symbol_name) as Hlib.
  emits_all.
Qed.

Lemma emits_ANDROID_from
    (settings : SkySettings) (e : Env) (symbol_name : string)
    (seen rest : list SymbolAsset.t) :
  emits (fun ev => is_resolver_event ev = true)
    (ANDROID._DartSymbolLookup_from settings e symbol_name seen rest).
Proof.
  revert seen. induction rest as [|a rest IH]; intros seen;
    cbn [ANDROID._DartSymbolLookup_from]; emits_all.
Qed.

Lemma emits_ANDROID_lookup
    (settings : SkySettings) (e : Env) (symbol_name : string) :
  emits (fun ev => is_resolver_event ev = true)
    (ANDROID._DartSymbolLookup settings e symbol_name).
Proof. intros s. apply emits_ANDROID_from. Qed.

Lemma emits_DART_SYMBOL
    (build : Build) (settings : SkySettings) (e : Env) (name : string) :
  emits (fun ev => is_resolver_event ev = true)
    (DART_SYMBOL build settings e name).
Proof.
  unfold DART_SYMBOL.
  pose proof (emits_IOS_lookup e (Some name)).
  pose proof (emits_ANDROID_lookup settings e name).
  emits_all.
Qed.

Lemma emits_IsRunningPrecompiledCode
    (build : Build) (settings : SkySettings) (e : Env) :
  emits (fun ev => is_resolver_event ev = true)
    (IsRunningPrecompiledCode build settings e).
Proof.
  unfold IsRunningPrecompiledCode, PrecompiledInstructionsSymbolIfPresent.
  pose proof (emits_DART_SYMBOL build settings e kInstructionsSnapshotName).
  emits_all.
Qed.

(** The resolver's calls are neither asset-bundle calls nor script loads. *)
Lemma resolver_event_other (ev : Event) :
  is_resolver_event ev = true ->
  is_asset_bundle_event ev = false /\ is_load_script_event ev = false.
Proof. destruct ev; cbn; intros H; (discriminate || (split; reflexivity)). Qed.

Lemma emits_ServiceIsolateCreateCallback
    (build : Build) (settings : SkySettings) (e : Env)
    (script_uri : option string) (error : ptr) :
  emits (fun ev => is_asset_bundle_event ev = false /\
                   is_load_script_event ev = false)
    (ServiceIsolateCreateCallback build settings e script_uri error).
Proof.
  unfold ServiceIsolateCreateCallback, call_hook.
  pose proof (emits_weaken _ _ _ resolver_event_other
                (emits_IsRunningPrecompiledCode build settings e)).
  pose proof (emits_weaken _ _ _ resolver_event_other
                (emits_DART_SYMBOL build settings e
                   kDartIsolateSnapshotBufferName)).
  emits_all; split; reflexivity.
Qed.

(** ** Isolate creation *)

Lemma IsServiceIsolateURL_true (name : string) (url_name : option string) :
  IsServiceIsolateURL name url_name = true <-> url_name = Some name.
Proof.
  unfold IsServiceIsolateURL. destruct url_name as [url|].
  - rewrite String.eqb_eq. split; congruence.
  - split; discriminate.
Qed.

(** C3.  *Service isolate.*  When the requested URI is the reserved
    service-isolate name, the isolate-creation callback is the
    service-isolate creation callback: same result, same globals, same calls.
    It has no check of the "file://" scheme, and none of its calls opens the
    asset bundle or reads the snapshot asset; in a product build it returns
    null without any call. *)
Theorem service_isolate_routing
    (build : Build) (settings : SkySettings)
    (DART_VM_SERVICE_ISOLATE_NAME : string) (e : Env)
    (main package_root package_config : option string)
    (flags callback_data error : ptr) (s : Process) :
  let script_uri := Some DART_VM_SERVICE_ISOLATE_NAME in
  let created :=
    IsolateCreateCallback build settings DART_VM_SERVICE_ISOLATE_NAME e
      script_uri main package_root package_config flags callback_data error s in
  IsServiceIsolateURL DART_VM_SERVICE_ISOLATE_NAME script_uri = true /\
  created = ServiceIsolateCreateCallback build settings e script_uri error s /\
  Forall (fun ev => is_asset_bundle_event ev = false) (events created) /\
  (FLUTTER_PRODUCT_MODE build = true -> created = mkRun (Ret nullptr) s []).
Proof.
  cbv zeta.
  assert (Hservice :
    IsServiceIsolateURL DART_VM_SERVICE_ISOLATE_NAME
      (Some DART_VM_SERVICE_ISOLATE_NAME) = true)
    by now apply IsServiceIsolateURL_true.
  split; [exact Hservice|].
  unfold IsolateCreateCallback. rewrite Hservice.
  split; [reflexivity|]. split.
  - eapply Forall_impl;
      [apply emits_ServiceIsolateCreateCallback | intros ev [Hev _]; exact Hev].
  - intros Hproduct. unfold ServiceIsolateCreateCallback.
    now rewrite Hproduct.
Qed.

Lemma service_isolate_routing_witness :
  IsolateCreateCallback (mkBuild StaticResolution true false false false)
    sample_settings "vm-service" bare_env (Some "vm-service") (Some "main")
    None None 0 0 0 process_start =
  mkRun (Ret nullptr) process_start [].
Proof.
  apply (service_isolate_routing
           (mkBuild StaticResolution true false false false)
           sample_settings "vm-service" bare_env (Some "main") None None 0 0 0
           process_start).
  reflexivity.
Defined.

Lemma run_bind {A B : Type} (m : M A) (f : A -> M B) (s s1 s2 : Process)
    (a : A) (r : Result B) (t1 t2 : list Event) :
  m s = mkRun (Ret a) s1 t1 ->
  f a s1 = mkRun r s2 t2 ->
  bind m f s = mkRun r s2 (t1 ++ t2).
Proof. intros Hm Hf. unfold bind. rewrite Hm. cbn. now rewrite Hf. Qed.

Lemma run_of_result {A : Type} (m : M A) (s : Process) (a : A) :
  result (m s) = Ret a -> m s = mkRun (Ret a) (final (m s)) (events (m s)).
Proof. intros <-. apply run_eta. Qed.

Lemma FTL_CHECK_holds (condition : bool) (s : Process) :
  condition = true -> FTL_CHECK condition s = mkRun (Ret tt) s [].
Proof. intros ->. reflexivity. Qed.

(** Runs a chain of binds whose calls are answered by hypotheses: [close]
    settles the checks and the runs that are known from the context. *)
Ltac run_with close :=
  cbn [negb];
  lazymatch goal with
  | |- bind _ _ _ = _ => eapply run_bind; [run_with close | run_with close]
  | |- FTL_CHECK _ _ = _ => apply FTL_CHECK_holds; close
  | |- call _ _ _ = _ => reflexivity
  | |- ret _ _ = _ => reflexivity
  | |- _ => close
  end.

(** The run of the generic path in snapshot mode when the bundle gives an
    empty snapshot asset and the VM goes along. *)
Lemma IsolateCreateCallback_empty_snapshot
    (build : Build) (settings : SkySettings)
    (DART_VM_SERVICE_ISOLATE_NAME : string) (e : Env) (uri : string)
    (main package_root package_config : option string)
    (flags callback_data error : ptr) (s : Process) :
  IsServiceIsolateURL DART_VM_SERVICE_ISOLATE_NAME (Some uri) = false ->
  result (IsRunningPrecompiledCode build settings e s) = Ret false ->
  (resolution build = DynamicAndroid -> aot_snapshot_path settings <> "") ->
  StartsWith uri kFileUriPrefix = true ->
  GetAsBuffer e (advance (String.length kFileUriPrefix) uri) kSnapshotAssetKey =
    Some [] ->
  (forall snapshot,
     Dart_CreateIsolate e (Some uri) main snapshot
       (CreateForChildIsolate e callback_data) <> nullptr) ->
  Dart_SetLibraryTagHandler_is_error e = false ->
  (forall isolate, Dart_IsolateMakeRunnable e isolate = true) ->
  exists isolate state calls,
    IsolateCreateCallback build settings DART_VM_SERVICE_ISOLATE_NAME e
      (Some uri) main package_root package_config flags callback_data error s =
    mkRun (Ret isolate) state calls /\
    isolate <> nullptr /\
    In (Ev_GetAsBuffer kSnapshotAssetKey) calls /\
    In (Ev_Dart_IsolateMakeRunnable isolate) calls /\
    Forall (fun ev => is_load_script_event ev = false) calls.
Proof.
  intros Hservice Hmode Hdir Hscheme Hbuffer Hcreate Htag Hrunnable.
  pose proof (emits_IsRunningPrecompiledCode build settings e s) as Hmode_calls.
  apply run_of_result in Hmode.
  destruct (DART_SYMBOL_returns build settings e kDartIsolateSnapshotBufferName
              (final (IsRunningPrecompiledCode build settings e s)) Hdir)
    as (snapshot & Hsnapshot).
  pose proof (emits_DART_SYMBOL build settings e kDartIsolateSnapshotBufferName
                (final (IsRunningPrecompiledCode build settings e s)))
    as Hsnapshot_calls.
  apply run_of_result in Hsnapshot.
  pose proof (Forall_impl _ _ _ Hmode_calls
                (fun ev H => proj2 (resolver_event_other ev H))) as Hmode_loads.
  pose proof (Forall_impl _ _ _ Hsnapshot_calls
                (fun ev H => proj2 (resolver_event_other ev H)))
    as Hsnapshot_loads.
  pose (isolate := Dart_CreateIsolate e (Some uri) main snapshot
                     (CreateForChildIsolate e callback_data)).
  assert (Hisolate : negb (is_null isolate) = true).
  { unfold is_null, isolate.
    now rewrite (proj2 (Z.eqb_neq _ _) (Hcreate snapshot)). }
  assert (Htag' : negb (Dart_SetLibraryTagHandler_is_error e) = true)
    by now rewrite Htag.
  unfold IsolateCreateCallback. rewrite Hservice.
  cbn [default from_option id negb]. rewrite Hbuffer.
  exists isolate.
  destruct (OS_ANDROID build); do 2 eexists; (split; [
    run_with ltac:(first [eassumption | apply Hrunnable | reflexivity]) |]).
  all: split; [apply Hcreate|]; split; [|split].
  all: try (rewrite ?in_app_iff; cbn [In]; intuition reflexivity).
  all: rewrite ?Forall_app; repeat split; try assumption; repeat constructor.
Qed.

Lemma emits_bind_result {A B : Type} (P : Event -> Prop)
    (m : M A) (f : A -> M B) :
  emits P m ->
  (forall a, (exists s, result (m s) = Ret a) -> emits P (f a)) ->
  emits P (bind m f).
Proof.
  intros Hm Hf s. unfold bind.
  destruct (result (m s)) as [a|] eqn:Ha; cbn [events].
  - apply Forall_app. split; [apply Hm | apply Hf; now exists s].
  - apply Hm.
Qed.

Lemma not_a_load (e : Env) (bundle_path : string) (ev : Event) :
  is_load_script_event ev = false -> loads_extracted e bundle_path ev.
Proof. intros Hev buffer ->. discriminate. Qed.

(** Whatever the arguments and the answers of the environment: a script
    snapshot that the isolate-creation callback loads is a non-empty buffer,
    the one the bundle gave for the snapshot asset. *)
Lemma IsolateCreateCallback_loads
    (build : Build) (settings : SkySettings)
    (DART_VM_SERVICE_ISOLATE_NAME : string) (e : Env)
    (script_uri main package_root package_config : option string)
    (flags callback_data error : ptr) :
  emits
    (loads_extracted e
       (advance (String.length kFileUriPrefix) (default "" script_uri)))
    (IsolateCreateCallback build settings DART_VM_SERVICE_ISOLATE_NAME e
       script_uri main package_root package_config flags callback_data error).
Proof.
  unfold IsolateCreateCallback.
  remember (advance (String.length kFileUriPrefix) (default "" script_uri))
    as bundle_path eqn:Hpath. clear Hpath.
  assert (Hresolver : forall ev,
            is_resolver_event ev = true -> loads_extracted e bundle_path ev).
  { intros ev Hev. apply not_a_load. now apply resolver_event_other. }
  pose proof (emits_weaken _ _ _ Hresolver
                (emits_IsRunningPrecompiledCode build settings e)) as Hmode.
  pose proof (emits_weaken _ _ _ Hresolver
                (emits_DART_SYMBOL build settings e
                   kDartIsolateSnapshotBufferName)) as Hsymbol.
  destruct (IsServiceIsolateURL DART_VM_SERVICE_ISOLATE_NAME script_uri).
  - eapply emits_weaken; [|apply emits_ServiceIsolateCreateCallback].
    intros ev [_ Hev]. now apply not_a_load.
  - apply emits_bind; [exact Hmode|]. intros precompiled.
    apply emits_bind_result.
    + emits_all; now apply not_a_load.
    + intros snapshot_data (s & Hdata).
      assert (Horigin :
        snapshot_data = [] \/
        GetAsBuffer e bundle_path kSnapshotAssetKey = Some snapshot_data).
      { destruct precompiled; cbn [negb] in Hdata.
        - cbn in Hdata. left. congruence.
        - right. unfold bind, FTL_CHECK, call, ret, fatal in Hdata.
          destruct (StartsWith (default "" script_uri) kFileUriPrefix);
            cbn in Hdata; [|discriminate].
          destruct (GetAsBuffer e bundle_path kSnapshotAssetKey);
            cbn in Hdata; congruence. }
      emits_all; try (now apply not_a_load).
      intros buffer Hev. injection Hev as <-.
      destruct Horigin as [Hempty | Hgiven]; [discriminate|].
      split; [discriminate | exact Hgiven].
Qed.

(** The whole run of the generic path in snapshot mode when the bundle gives
    an empty snapshot asset and the VM goes along. *)
Lemma IsolateCreateCallback_empty_snapshot_run
    (build : Build) (settings : SkySettings)
    (DART_VM_SERVICE_ISOLATE_NAME : string) (e : Env) (uri : string)
    (main package_root package_config : option string)
    (flags callback_data error : ptr) (s : Process) :
  let mode := IsRunningPrecompiledCode build settings e s in
  let symbol :=
    DART_SYMBOL build settings e kDartIsolateSnapshotBufferName (final mode) in
  let bundle_path := advance (String.length kFileUriPrefix) uri in
  let dart_state := CreateForChildIsolate e callback_data in
  IsServiceIsolateURL DART_VM_SERVICE_ISOLATE_NAME (Some uri) = false ->
  result mode = Ret false ->
  (resolution build = DynamicAndroid -> aot_snapshot_path settings <> "") ->
  StartsWith uri kFileUriPrefix = true ->
  GetAsBuffer e bundle_path kSnapshotAssetKey = Some [] ->
  (forall snapshot,
     Dart_CreateIsolate e (Some uri) main snapshot dart_state <> nullptr) ->
  Dart_SetLibraryTagHandler_is_error e = false ->
  (forall isolate, Dart_IsolateMakeRunnable e isolate = true) ->
  exists snapshot,
    result symbol = Ret snapshot /\
    let isolate := Dart_CreateIsolate e (Some uri) main snapshot dart_state in
    IsolateCreateCallback build settings DART_VM_SERVICE_ISOLATE_NAME e
      (Some uri) main package_root package_config flags callback_data error s =
    mkRun (Ret isolate) (final symbol)
      (events mode ++
       [Ev_ZipAssetBundle bundle_path; Ev_GetAsBuffer kSnapshotAssetKey;
        Ev_CreateForChildIsolate callback_data] ++
       events symbol ++
       [Ev_Dart_CreateIsolate (Some uri) main snapshot dart_state;
        Ev_SetIsolate dart_state isolate;
        Ev_Dart_SetLibraryTagHandler;
        Ev_DartApiScope_enter;
        Ev_DartIO_InitForIsolate;
        Ev_DartUI_InitForIsolate;
        Ev_DartMojoInternal_InitForIsolate;
        Ev_DartRuntimeHooks_Install (Some uri);
        Ev_add_provider "ui" "dart:ui"] ++
       (if OS_ANDROID build
        then [Ev_DartJni_InitForIsolate; Ev_add_provider "jni" "dart:jni"]
        else []) ++
       [Ev_DidCreateSecondaryIsolate isolate;
        Ev_DartApiScope_leave;
        Ev_Dart_ExitIsolate;
        Ev_Dart_IsolateMakeRunnable isolate]).
Proof.
  intros mode symbol bundle_path dart_state.
  intros Hservice Hmode Hdir Hscheme Hbuffer Hcreate Htag Hrunnable.
  subst mode symbol.
  apply run_of_result in Hmode.
  destruct (DART_SYMBOL_returns build settings e kDartIsolateSnapshotBufferName
              (final (IsRunningPrecompiledCode build settings e s)) Hdir)
    as (snapshot & Hsnapshot).
  exists snapshot. split; [exact Hsnapshot|].
  apply run_of_result in Hsnapshot.
  cbv zeta.
  pose (isolate := Dart_CreateIsolate e (Some uri) main snapshot dart_state).
  assert (Hisolate : negb (is_null isolate) = true).
  { unfold is_null, isolate.
    now rewrite (proj2 (Z.eqb_neq _ _) (Hcreate snapshot)). }
  assert (Htag' : negb (Dart_SetLibraryTagHandler_is_error e) = true)
    by now rewrite Htag.
  unfold IsolateCreateCallback. rewrite Hservice.
  cbn [default from_option id negb]. fold bundle_path. rewrite Hbuffer.
  destruct (OS_ANDROID build).
  all: etransitivity;
    [run_with ltac:(first [eassumption | apply Hrunnable | reflexivity])|].
  all: f_equal; rewrite <- ?app_assoc; cbn [app]; rewrite ?app_nil_r;
    reflexivity.
Qed.

(** C10.  *Empty snapshot asset.*  A script snapshot that the
    isolate-creation callback loads is always a non-empty buffer extracted
    from the bundle.  So in snapshot mode, when the extraction succeeds with an
    empty buffer (and the VM creates the isolate, installs the tag handler and
    makes the isolate runnable), the callback makes no load call at all and
    still completes the creation: it returns the isolate that
    [Dart_CreateIsolate] gave for the child state and the isolate snapshot,
    and its calls are exactly those of a creation without the load, ending
    with the call that makes the isolate runnable. *)
Theorem empty_snapshot_is_skipped
    (build : Build) (settings : SkySettings)
    (DART_VM_SERVICE_ISOLATE_NAME : string) (e : Env) (uri : string)
    (main package_root package_config : option string)
    (flags callback_data error : ptr) (s : Process) :
  let script_uri := Some uri in
  let bundle_path := advance (String.length kFileUriPrefix) uri in
  let created :=
    IsolateCreateCallback build settings DART_VM_SERVICE_ISOLATE_NAME e
      script_uri main package_root package_config flags callback_data error s in
  let mode := IsRunningPrecompiledCode build settings e s in
  let symbol :=
    DART_SYMBOL build settings e kDartIsolateSnapshotBufferName (final mode) in
  let dart_state := CreateForChildIsolate e callback_data in
  (forall buffer,
     In (Ev_Dart_LoadScriptFromSnapshot buffer) (events created) ->
     buffer <> [] /\
     GetAsBuffer e bundle_path kSnapshotAssetKey = Some buffer) /\
  (IsServiceIsolateURL DART_VM_SERVICE_ISOLATE_NAME script_uri = false ->
   result mode = Ret false ->
   (resolution build = DynamicAndroid -> aot_snapshot_path settings <> "") ->
   StartsWith uri kFileUriPrefix = true ->
   GetAsBuffer e bundle_path kSnapshotAssetKey = Some [] ->
   (forall snapshot,
      Dart_CreateIsolate e script_uri main snapshot dart_state <> nullptr) ->
   Dart_SetLibraryTagHandler_is_error e = false ->
   (forall isolate, Dart_IsolateMakeRunnable e isolate = true) ->
   exists isolate,
     result created = Ret isolate /\
     isolate <> nullptr /\
     In (Ev_GetAsBuffer kSnapshotAssetKey) (events created) /\
     In (Ev_Dart_IsolateMakeRunnable isolate) (events created) /\
     (forall buffer,
        ~ In (Ev_Dart_LoadScriptFromSnapshot buffer) (events created)) /\
     exists snapshot,
       result symbol = Ret snapshot /\
       isolate = Dart_CreateIsolate e script_uri main snapshot dart_state /\
       final created = final symbol /\
       events created =
         events mode ++
         [Ev_ZipAssetBundle bundle_path; Ev_GetAsBuffer kSnapshotAssetKey;
          Ev_CreateForChildIsolate callback_data] ++
         events symbol ++
         [Ev_Dart_CreateIsolate script_uri main snapshot dart_state;
          Ev_SetIsolate dart_state isolate;
          Ev_Dart_SetLibraryTagHandler;
          Ev_DartApiScope_enter;
          Ev_DartIO_InitForIsolate;
          Ev_DartUI_InitForIsolate;
          Ev_DartMojoInternal_InitForIsolate;
          Ev_DartRuntimeHooks_Install script_uri;
          Ev_add_provider "ui" "dart:ui"] ++
         (if OS_ANDROID build
          then [Ev_DartJni_InitForIsolate; Ev_add_provider "jni" "dart:jni"]
          else []) ++
         [Ev_DidCreateSecondaryIsolate isolate;
          Ev_DartApiScope_leave;
          Ev_Dart_ExitIsolate;
          Ev_Dart_IsolateMakeRunnable isolate]).
Proof.
  cbv zeta. split.
  - intros buffer Hin.
    pose proof (IsolateCreateCallback_loads build settings
                  DART_VM_SERVICE_ISOLATE_NAME e (Some uri) main package_root
                  package_config flags callback_data error s) as Hloads.
    rewrite Forall_forall in Hloads. apply list_elem_of_In in Hin.
    exact (Hloads _ Hin buffer eq_refl).
  - intros Hservice Hmode Hdir Hscheme Hbuffer Hcreate Htag Hrunnable.
    destruct (IsolateCreateCallback_empty_snapshot_run build settings
                DART_VM_SERVICE_ISOLATE_NAME e uri main package_root
                package_config flags callback_data error s
                Hservice Hmode Hdir Hscheme Hbuffer Hcreate Htag Hrunnable)
      as (snapshot & Hsnapshot & Hrun).
    cbv zeta in Hrun. rewrite Hrun. cbn [result final events].
    eexists. split; [reflexivity|].
    split; [apply Hcreate|].
    split; [apply in_or_app; right; right; left; reflexivity|].
    split.
    { rewrite !in_app_iff. do 4 right. cbn [In]. tauto. }
    split.
    { intros buffer Hin.
      pose proof (emits_IsRunningPrecompiledCode build settings e s) as Hmode_calls.
      pose proof (emits_DART_SYMBOL build settings e
                    kDartIsolateSnapshotBufferName
                    (final (IsRunningPrecompiledCode build settings e s)))
        as Hsymbol_calls.
      rewrite Forall_forall in Hmode_calls, Hsymbol_calls.
      rewrite !in_app_iff in Hin. cbn [In] in Hin.
      destruct (OS_ANDROID build); cbn [In] in Hin.
      all: repeat match type of Hin with
                  | _ \/ _ => destruct Hin as [Hin|Hin]
                  end;
        try discriminate; try contradiction.
      all: apply list_elem_of_In in Hin;
        first [ specialize (Hmode_calls _ Hin); discriminate
              | specialize (Hsymbol_calls _ Hin); discriminate ]. }
    exists snapshot. repeat split. exact Hsnapshot.
Qed.

Lemma empty_snapshot_is_skipped_witness :
  let created :=
    IsolateCreateCallback snapshot_build sample_settings "vm-service" full_env
      (Some "file:///data/app.flx") (Some "main") None None 0 256 0
      process_start in
  exists isolate,
    result created = Ret isolate /\
    isolate <> nullptr /\
    In (Ev_GetAsBuffer kSnapshotAssetKey) (events created) /\
    In (Ev_Dart_IsolateMakeRunnable isolate) (events created) /\
    (forall buffer,
       ~ In (Ev_Dart_LoadScriptFromSnapshot buffer) (events created)) /\
    isolate =
      Dart_CreateIsolate full_env (Some "file:///data/app.flx") (Some "main")
        (linked_symbol full_env kDartIsolateSnapshotBufferName)
        (CreateForChildIsolate full_env 256) /\
    events created =
      [Ev_ZipAssetBundle "/data/app.flx"; Ev_GetAsBuffer kSnapshotAssetKey;
       Ev_CreateForChildIsolate 256;
       Ev_Dart_CreateIsolate (Some "file:///data/app.flx") (Some "main") 4096
         272;
       Ev_SetIsolate 272 7;
       Ev_Dart_SetLibraryTagHandler;
       Ev_DartApiScope_enter;
       Ev_DartIO_InitForIsolate;
       Ev_DartUI_InitForIsolate;
       Ev_DartMojoInternal_InitForIsolate;
       Ev_DartRuntimeHooks_Install (Some "file:///data/app.flx");
       Ev_add_provider "ui" "dart:ui";
       Ev_DidCreateSecondaryIsolate 7;
       Ev_DartApiScope_leave;
       Ev_Dart_ExitIsolate;
       Ev_Dart_IsolateMakeRunnable 7].
Proof.
  destruct (empty_snapshot_is_skipped snapshot_build sample_settings
              "vm-service" full_env "file:///data/app.flx" (Some "main") None
              None 0 256 0 process_start) as [_ Hskipped].
  destruct Hskipped
    as (isolate & Hresult & Hnonnull & Hextract & Hmark & Hnone &
        snapshot & Hsnapshot & Hisolate & _ & Hcalls);
    try reflexivity; try discriminate.
  exists isolate.
  split; [exact Hresult|]. split; [exact Hnonnull|]. split; [exact Hextract|].
  split; [exact Hmark|]. split; [exact Hnone|].
  cbn in Hsnapshot. injection Hsnapshot as <-.
  split; [exact Hisolate|]. rewrite Hcalls, Hisolate. reflexivity.
Defined.

(** ** The service-isolate flag *)

Section Keeps.
Context {A B C : Type} (field : Process -> C).

Lemma keeps_ret (a : A) : keeps field (ret a).
Proof. intros s. reflexivity. Qed.

Lemma keeps_fatal : keeps field (@fatal A).
Proof. intros s. reflexivity. Qed.

Lemma keeps_get (other : Process -> A) : keeps field (get other).
Proof. intros s. reflexivity. Qed.

Lemma keeps_call (ev : Event) (answer : A) : keeps field (call ev answer).
Proof. intros s. reflexivity. Qed.

Lemma keeps_bind (m : M A) (f : A -> M B) :
  keeps field m -> (forall a, keeps field (f a)) -> keeps field (bind m f).
Proof.
  intros Hm Hf s. unfold bind.
  destruct (result (m s)) as [a|]; cbn [final].
  - now rewrite Hf, Hm.
  - apply Hm.
Qed.

End Keeps.

Lemma keeps_FTL_CHECK {C : Type} (field : Process -> C) (condition : bool) :
  keeps field (FTL_CHECK condition).
Proof. destruct condition; [apply keeps_ret | apply keeps_fatal]. Qed.

Lemma keeps_modify {C : Type} (field : Process -> C) (f : Process -> Process) :
  (forall s, field (f s) = field s) -> keeps field (modify f).
Proof. intros Hf s. apply Hf. Qed.

Create HintDb keeps discriminated.
#[export] Hint Resolve keeps_ret keeps_fatal keeps_get keeps_call
  keeps_FTL_CHECK : keeps.

Ltac keeps_step :=
  match goal with
  | |- keeps _ (bind _ _) => apply keeps_bind; [|intros ?]
  | |- keeps _ (modify _) => apply keeps_modify; intros ?
  | |- keeps _ (if ?c then _ else _) => destruct c
  | |- keeps _ (match ?x with _ => _ end) => destruct x
  | |- keeps _ _ => solve [eauto with keeps]
  end.

Ltac keeps_all := repeat keeps_step.

(** The resolvers write the asset table and the pending linker message,
    never the service-isolate flag. *)
Lemma keeps_flag_IOS_lookup (e : Env) (symbol_name : option string) :
  keeps g_service_isolate_initialized (IOS._DartSymbolLookup e symbol_name).
Proof.
  assert (Herr : keeps g_service_isolate_initialized IOS.dlerror)
    by (intros s; reflexivity).
  unfold IOS._DartSymbolLookup, IOS.DartLookupSymbolInLibrary, IOS.dlopen,
    IOS.dlsym, IOS.linker_call.
  keeps_all; try reflexivity.
  all: destruct (dl_message _); reflexivity.
Qed.

Lemma keeps_flag_ANDROID_from
    (settings : SkySettings) (e : Env) (symbol_name : string)
    (seen rest : list SymbolAsset.t) :
  keeps g_service_isolate_initialized
    (ANDROID._DartSymbolLookup_from settings e symbol_name seen rest).
Proof.
  revert seen. induction rest as [|a rest IH]; intros seen;
    cbn [ANDROID._DartSymbolLookup_from]; keeps_all; reflexivity.
Qed.

Lemma keeps_flag_IsRunningPrecompiledCode
    (build : Build) (settings : SkySettings) (e : Env) :
  keeps g_service_isolate_initialized
    (IsRunningPrecompiledCode build settings e).
Proof.
  pose proof (keeps_flag_IOS_lookup e (Some kInstructionsSnapshotName)).
  assert (keeps g_service_isolate_initialized
            (ANDROID._DartSymbolLookup settings e kInstructionsSnapshotName))
    by (intros s; apply keeps_flag_ANDROID_from).
  unfold IsRunningPrecompiledCode, PrecompiledInstructionsSymbolIfPresent,
    DART_SYMBOL.
  keeps_all.
Qed.

Lemma ensures_bind {A B : Type} (Q : Process -> Prop)
    (m : M A) (f : A -> M B) :
  (forall a, ensures Q (f a)) -> ensures Q (bind m f).
Proof.
  intros Hf s b. unfold bind.
  destruct (result (m s)) as [a|]; cbn [result final]; [apply Hf | discriminate].
Qed.

Lemma ensures_after_modify {A C : Type} (field : Process -> C) (value : C)
    (f : Process -> Process) (rest : M A) :
  (forall s, field (f s) = value) ->
  keeps field rest ->
  ensures (fun s => field s = value) (bind (modify f) (fun _ => rest)).
Proof.
  intros Hf Hrest s a _. unfold bind, modify. cbn [result final].
  now rewrite Hrest.
Qed.

(** Outside product builds, a service-isolate creation that returns has set
    [g_service_isolate_initialized]; from then on the two hook setters
    abort. *)
Lemma ServiceIsolateCreateCallback_initializes
    (build : Build) (settings : SkySettings) (e : Env)
    (script_uri : option string) (error : ptr) (s : Process) (isolate : ptr)
    (hook : option Hook) :
  FLUTTER_PRODUCT_MODE build = false ->
  result (ServiceIsolateCreateCallback build settings e script_uri error s) =
    Ret isolate ->
  let s' :=
    final (ServiceIsolateCreateCallback build settings e script_uri error s) in
  g_service_isolate_initialized s' = true /\
  result (SetServiceIsolateHook hook s') = Fatal /\
  result (SetRegisterNativeServiceProtocolExtensionHook hook s') = Fatal.
Proof.
  intros Hproduct Hreturned s'.
  assert (Hflag : g_service_isolate_initialized s' = true).
  { assert (Hensures :
      ensures (fun s => g_service_isolate_initialized s = true)
        (ServiceIsolateCreateCallback build settings e script_uri error)).
    { unfold ServiceIsolateCreateCallback. rewrite Hproduct.
      repeat lazymatch goal with
             | |- ensures _ (bind (modify _) _) => apply ensures_after_modify
             | |- ensures _ (bind _ _) => apply ensures_bind; intros ?
             end.
      - reflexivity.
      - pose proof (keeps_flag_IsRunningPrecompiledCode build settings e).
        unfold call_hook. keeps_all. }
    exact (Hensures s isolate Hreturned). }
  split; [exact Hflag|].
  unfold SetServiceIsolateHook, SetRegisterNativeServiceProtocolExtensionHook,
    CHECK, FTL_CHECK, bind, get, modify, fatal, ret.
  cbn. rewrite Hflag. split; reflexivity.
Qed.

Lemma ServiceIsolateCreateCallback_initializes_witness :
  result
    (SetServiceIsolateHook (Some 1%nat)
       (final (ServiceIsolateCreateCallback snapshot_build sample_settings
                 full_env (Some "vm-service") 0 process_start))) = Fatal.
Proof.
  apply (ServiceIsolateCreateCallback_initializes snapshot_build
           sample_settings full_env (Some "vm-service") 0 process_start 7
           (Some 1%nat)); reflexivity.
Defined.

(** * Further properties *)

(** ** The asset table as a cache *)

Section AssetTable.
Variable settings : SkySettings.

Lemma first_entry_absent (symbol_name : string) (table : list SymbolAsset.t) :
  Forall (fun a => ~ named symbol_name a) table ->
  first_entry symbol_name table = None.
Proof.
  induction 1 as [|a table Ha _ IH]; [reflexivity|].
  cbn. rewrite (proj2 (String.eqb_neq _ _) Ha). exact IH.
Qed.

Lemma first_entry_found
    (symbol_name : string) (before later : list SymbolAsset.t)
    (a : SymbolAsset.t) (p : ptr) :
  Forall (fun b => ~ named symbol_name b) before ->
  named symbol_name a ->
  first_entry symbol_name (before ++ a :: later) = Some a /\
  store_first symbol_name p (before ++ a :: later) =
    before ++ with_mapping p a :: later.
Proof.
  intros Hbefore Ha.
  induction Hbefore as [|b before Hb _ [IH1 IH2]]; cbn.
  - rewrite (proj2 (String.eqb_eq _ _) Ha). now split.
  - rewrite (proj2 (String.eqb_neq _ _) Hb). split; [exact IH1 | now f_equal].
Qed.

(** The run of a lookup, read off the entry it works on. *)
Lemma lookup_by_first_entry (e : Env) (symbol_name : string) (s : Process) :
  ANDROID._DartSymbolLookup settings e symbol_name s =
  match first_entry symbol_name (g_symbol_assets s) with
  | None => mkRun (Ret nullptr) s []
  | Some a =>
      if is_null (SymbolAsset.mapping a)
      then
        if ANDROID.empty (aot_snapshot_path settings) then mkRun Fatal s []
        else
          let '(p, written, calls) := map_asset settings e a in
          mkRun (Ret p)
            (if written
             then with_symbol_assets
                    (store_first symbol_name p (g_symbol_assets s)) s
             else s)
            calls
      else mkRun (Ret (SymbolAsset.mapping a)) s []
  end.
Proof.
  destruct (first_named symbol_name (g_symbol_assets s))
    as [Hnone | (before & a & later & Htable & Hbefore & Ha)].
  - rewrite (first_entry_absent _ _ Hnone).
    apply (lookup_unregistered settings e _ _ _ s Hnone).
  - rewrite (lookup_at_first_named settings e _ _ _ _ _ Htable Hbefore).
    rewrite Htable.
    destruct (first_entry_found symbol_name before later a) with (p := nullptr)
      as [-> _]; [assumption..|].
    unfold is_null.
    destruct (Z.eqb_spec (SymbolAsset.mapping a) nullptr) as [Hunmapped|Hmapped].
    + rewrite (lookup_unmapped settings e _ _ _ _ _ Ha Hunmapped).
      destruct (ANDROID.empty (aot_snapshot_path settings)); [reflexivity|].
      destruct (map_asset settings e a) as [[p written] calls].
      destruct (first_entry_found symbol_name before later a p Hbefore Ha)
        as [_ ->].
      reflexivity.
    + apply (lookup_mapped settings e _ _ _ _ _ Ha Hmapped).
Qed.

Lemma first_entry_store_other
    (symbol_name other : string) (p : ptr) (table : list SymbolAsset.t) :
  symbol_name <> other ->
  first_entry symbol_name (store_first other p table) =
  first_entry symbol_name table.
Proof.
  intros Hne. induction table as [|a table IH]; [reflexivity|].
  cbn. destruct (String.eqb_spec (SymbolAsset.symbol_name a) other) as [Ho|Ho].
  - cbn. destruct (String.eqb_spec (SymbolAsset.symbol_name a) symbol_name);
      [congruence | reflexivity].
  - cbn. destruct (String.eqb (SymbolAsset.symbol_name a) symbol_name);
      [reflexivity | exact IH].
Qed.

(** A lookup of another name leaves the entry of [symbol_name] alone. *)
Lemma first_entry_after_other
    (e : Env) (symbol_name other : string) (s : Process) :
  symbol_name <> other ->
  first_entry symbol_name
    (g_symbol_assets (final (ANDROID._DartSymbolLookup settings e other s))) =
  first_entry symbol_name (g_symbol_assets s).
Proof.
  intros Hne. rewrite lookup_by_first_entry.
  destruct (first_entry other (g_symbol_assets s)) as [a|]; [|reflexivity].
  destruct (is_null (SymbolAsset.mapping a)); [|reflexivity].
  destruct (ANDROID.empty (aot_snapshot_path settings)); [reflexivity|].
  destruct (map_asset settings e a) as [[p written] calls].
  destruct written; [|reflexivity].
  cbn [final g_symbol_assets with_symbol_assets].
  now apply first_entry_store_other.
Qed.

(** What a lookup returns and calls is decided by the entry it works on. *)
Lemma lookup_same_entry (e : Env) (symbol_name : string) (s s' : Process) :
  first_entry symbol_name (g_symbol_assets s) =
  first_entry symbol_name (g_symbol_assets s') ->
  result (ANDROID._DartSymbolLookup settings e symbol_name s) =
  result (ANDROID._DartSymbolLookup settings e symbol_name s') /\
  events (ANDROID._DartSymbolLookup settings e symbol_name s) =
  events (ANDROID._DartSymbolLookup settings e symbol_name s').
Proof.
  intros Hsame. rewrite !lookup_by_first_entry, Hsame.
  destruct (first_entry symbol_name (g_symbol_assets s')) as [a|];
    [|split; reflexivity].
  destruct (is_null (SymbolAsset.mapping a)); [|split; reflexivity].
  destruct (ANDROID.empty (aot_snapshot_path settings)); [split; reflexivity|].
  destruct (map_asset settings e a) as [[p written] calls].
  split; reflexivity.
Qed.

(** A mapped entry stays what it is under any lookup. *)
Lemma mapped_entry_stays
    (e : Env) (symbol_name other : string) (s : Process) (a : SymbolAsset.t) :
  first_entry symbol_name (g_symbol_assets s) = Some a ->
  SymbolAsset.mapping a <> nullptr ->
  first_entry symbol_name
    (g_symbol_assets (final (ANDROID._DartSymbolLookup settings e other s))) =
  Some a.
Proof.
  intros Hentry Hmapped.
  destruct (String.eqb_spec symbol_name other) as [<-|Hne].
  - rewrite lookup_by_first_entry, Hentry.
    unfold is_null. rewrite (proj2 (Z.eqb_neq _ _) Hmapped). exact Hentry.
  - now rewrite first_entry_after_other.
Qed.

End AssetTable.

Lemma map_asset_shape
    (settings : SkySettings) (e : Env) (a : SymbolAsset.t) :
  asset_calls e (snd (map_asset settings e a)) /\
  forall size prot fd,
    In (Ev_mmap size prot fd) (snd (map_asset settings e a)) ->
    Z.testbit prot 2 = SymbolAsset.is_executable a.
Proof.
  unfold map_asset.
  destruct (GetFileSize e _) as [size|] eqn:Hsize; cbn [snd].
  - destruct (Z.eqb_spec (sys_open e
                (FilePath_Append e (aot_snapshot_path settings)
                   (SymbolAsset.file_name a))) (-1)) as [Hfd|Hfd]; cbn [snd].
    + split; [now apply calls_no_open|].
      intros ? ? ? [H|[H|[]]]; discriminate.
    + split.
      * apply calls_mapped; try assumption;
          destruct (SymbolAsset.is_executable a); reflexivity.
      * intros ? ? ? [H|[H|[H|[H|[]]]]]; try discriminate.
        injection H as _ <- _.
        destruct (SymbolAsset.is_executable a); reflexivity.
  - split; [now apply calls_no_size|].
    intros ? ? ? [H|[]]; discriminate.
Qed.

(** A pointer that was handed out is handed out again after further
    lookups. *)
Lemma lookup_kept_after
    (settings : SkySettings) (e e' : Env) (symbol_name : string) (s : Process)
    (p : ptr) (others : list (Env * string)) :
  result (ANDROID._DartSymbolLookup settings e symbol_name s) = Ret p ->
  p <> nullptr ->
  let s' :=
    lookups_after settings others
      (final (ANDROID._DartSymbolLookup settings e symbol_name s)) in
  ANDROID._DartSymbolLookup settings e' symbol_name s' = mkRun (Ret p) s' [].
Proof.
  intros Hres Hp. cbv zeta.
  assert (Hentry : exists a,
    first_entry symbol_name
      (g_symbol_assets
         (final (ANDROID._DartSymbolLookup settings e symbol_name s))) =
      Some a /\ SymbolAsset.mapping a = p).
  { pose proof (lookup_hit_after settings e e symbol_name s p Hres Hp) as Hhit.
    rewrite lookup_by_first_entry in Hhit.
    destruct (first_entry symbol_name _) as [a|]; [|cbn in Hhit; congruence].
    exists a. split; [reflexivity|].
    destruct (is_null (SymbolAsset.mapping a)) eqn:Hnull.
    - destruct (ANDROID.empty (aot_snapshot_path settings));
        [discriminate|].
      destruct (map_asset_calls settings e a) as (more & Hmore).
      destruct (map_asset settings e a) as [[q written] calls].
      cbn [snd] in Hmore. subst calls. discriminate.
    - injection Hhit as Hhit. exact Hhit. }
  revert Hentry.
  generalize (final (ANDROID._DartSymbolLookup settings e symbol_name s)).
  induction others as [|[e1 other] others IH]; intros s1 (a & Hentry & Ha).
  - cbn [lookups_after]. rewrite lookup_by_first_entry, Hentry.
    unfold is_null. rewrite Ha, (proj2 (Z.eqb_neq _ _) Hp). reflexivity.
  - cbn [lookups_after]. apply IH. exists a. split; [|exact Ha].
    apply mapped_entry_stays; [exact Hentry | now rewrite Ha].
Qed.

(** X3.  *The cache keeps what it handed out.*  Once a lookup of a name has
    returned a non-null pointer, a lookup of that name returns the same
    pointer, calls nothing and changes nothing, after any number of further
    lookups of any names in any environments. *)
Theorem asset_pointer_is_kept
    (settings : SkySettings) (e e' : Env) (symbol_name : string) (s : Process)
    (p : ptr) (others : list (Env * string)) :
  result (ANDROID._DartSymbolLookup settings e symbol_name s) = Ret p ->
  p <> nullptr ->
  let s' :=
    lookups_after settings others
      (final (ANDROID._DartSymbolLookup settings e symbol_name s)) in
  ANDROID._DartSymbolLookup settings e' symbol_name s' = mkRun (Ret p) s' [].
Proof.
  exact (lookup_kept_after settings e e' symbol_name s p others).
Qed.

Lemma asset_pointer_is_kept_witness :
  let s' :=
    lookups_after sample_settings
      [(bare_env, kDataSnapshotName); (full_env, kDartIsolateSnapshotBufferName)]
      (final (ANDROID._DartSymbolLookup sample_settings full_env
                kInstructionsSnapshotName process_start)) in
  ANDROID._DartSymbolLookup sample_settings bare_env kInstructionsSnapshotName s'
  = mkRun (Ret 65536) s' [].
Proof.
  apply (asset_pointer_is_kept sample_settings full_env bare_env
           kInstructionsSnapshotName process_start 65536);
    [reflexivity | discriminate].
Defined.

(** X4.  *File calls of an asset lookup.*  Whatever the table and the
    environment, a lookup makes no file call, or asks for the file size and
    stops there because there is none, or goes on to open the file and stops
    because that fails, or opens, maps and closes: a descriptor that was
    opened is always closed, nothing is mapped that was not opened, the
    mapping is readable and never writable, and it is executable exactly when
    the entry says so. *)
Theorem asset_lookup_file_calls
    (settings : SkySettings) (e : Env) (symbol_name : string) (s : Process) :
  let calls := events (ANDROID._DartSymbolLookup settings e symbol_name s) in
  asset_calls e calls /\
  forall size prot fd,
    In (Ev_mmap size prot fd) calls ->
    exists a,
      first_entry symbol_name (g_symbol_assets s) = Some a /\
      Z.testbit prot 2 = SymbolAsset.is_executable a.
Proof.
  cbv zeta. rewrite lookup_by_first_entry.
  destruct (first_entry symbol_name (g_symbol_assets s)) as [a|];
    [|split; [constructor | intros ? ? ? []]].
  destruct (is_null (SymbolAsset.mapping a));
    [|split; [constructor | intros ? ? ? []]].
  destruct (ANDROID.empty (aot_snapshot_path settings));
    [split; [constructor | intros ? ? ? []]|].
  destruct (map_asset_shape settings e a) as [Hshape Hexec].
  destruct (map_asset settings e a) as [[p written] calls].
  cbn [events snd] in *. split; [exact Hshape|].
  intros size prot fd Hin. exists a. split; [reflexivity|].
  exact (Hexec _ _ _ Hin).
Qed.

(** X5.  *Lookups of different names do not interfere.*  What a lookup of
    one name returns and which file calls it makes are the same whether or
    not a lookup of another name, in whatever environment, went before. *)
Theorem asset_lookups_do_not_interfere
    (settings : SkySettings) (e e' : Env) (symbol_name other : string)
    (s : Process) :
  symbol_name <> other ->
  let s' := final (ANDROID._DartSymbolLookup settings e' other s) in
  result (ANDROID._DartSymbolLookup settings e symbol_name s') =
  result (ANDROID._DartSymbolLookup settings e symbol_name s) /\
  events (ANDROID._DartSymbolLookup settings e symbol_name s') =
  events (ANDROID._DartSymbolLookup settings e symbol_name s).
Proof.
  intros Hne. cbv zeta. apply lookup_same_entry.
  now apply first_entry_after_other.
Qed.

Lemma asset_lookups_do_not_interfere_witness :
  result (ANDROID._DartSymbolLookup sample_settings full_env kDataSnapshotName
            (final (ANDROID._DartSymbolLookup sample_settings full_env
                      kInstructionsSnapshotName process_start))) =
  result (ANDROID._DartSymbolLookup sample_settings full_env kDataSnapshotName
            process_start).
Proof.
  apply (asset_lookups_do_not_interfere sample_settings full_env full_env
           kDataSnapshotName kInstructionsSnapshotName process_start).
  discriminate.
Defined.

(** ** The dynamic-library resolver and pending linker messages *)

(** X6.  *A stale linker message does not matter.*  Whatever message an
    earlier linker failure left pending for [dlerror], a lookup returns the
    same pointer and makes the same linker calls as without it, and a lookup
    of a non-null name leaves no message pending. *)
Theorem dynamic_lookup_ignores_pending_message
    (e : Env) (symbol_name : option string) (s : Process)
    (stale : option string) :
  let fresh := IOS._DartSymbolLookup e symbol_name s in
  let lookup := IOS._DartSymbolLookup e symbol_name (with_dl_error stale s) in
  result lookup = result fresh /\
  events lookup = events fresh /\
  (symbol_name <> None -> dl_error (final lookup) = None).
Proof.
  cbv zeta. destruct symbol_name as [name|];
    [|repeat split; intros H; now contradiction H].
  unfold IOS._DartSymbolLookup, IOS.DartLookupSymbolInLibrary, IOS.dlopen,
    IOS.dlsym, IOS.linker_call, IOS.dlerror, bind, ret, call, modify.
  cbn.
  destruct (sys_dlopen e (Some kDartApplicationLibraryPath))
    as [handle [msg|]]; cbn;
    [|destruct (sys_dlsym e handle name) as [sym [msg|]]; cbn;
      [|destruct (is_null sym); cbn]].
  all: destruct (sys_dlopen e None) as [handle' [msg'|]]; cbn;
    [|destruct (sys_dlsym e handle' name) as [sym' [msg'|]]; cbn].
  all: repeat split.
Qed.

Lemma dynamic_lookup_ignores_pending_message_witness :
  dl_error
    (final (IOS._DartSymbolLookup full_env (Some kDataSnapshotName)
              (with_dl_error (Some "image not found") process_start))) = None.
Proof.
  apply (dynamic_lookup_ignores_pending_message full_env
           (Some kDataSnapshotName) process_start (Some "image not found")).
  discriminate.
Defined.

(** ** The execution mode over time *)

Lemma IsRunningPrecompiledCode_ANDROID
    (build : Build) (settings : SkySettings) (e : Env) (s : Process) :
  resolution build = DynamicAndroid ->
  IsRunningPrecompiledCode build settings e s =
  bind (ANDROID._DartSymbolLookup settings e kInstructionsSnapshotName)
    (fun instructions => ret (negb (is_null instructions))) s.
Proof.
  intros Hres.
  unfold IsRunningPrecompiledCode, PrecompiledInstructionsSymbolIfPresent,
    DART_SYMBOL.
  now rewrite Hres.
Qed.

(** X7.  *The execution mode over time.*  Asked twice in a row in an
    environment that answers alike, [IsRunningPrecompiledCode] gives the same
    mode, under every resolver strategy.  With the asset-mapping strategy a
    mode that was once reported as precompiled is reported as precompiled ever
    after, without a file call, whatever lookups come between and whatever
    becomes of the files. *)
Theorem execution_mode_is_stable
    (build : Build) (settings : SkySettings) (e e' : Env) (s : Process) :
  let first := IsRunningPrecompiledCode build settings e s in
  (forall precompiled,
     result first = Ret precompiled ->
     result (IsRunningPrecompiledCode build settings e (final first)) =
     Ret precompiled) /\
  (resolution build = DynamicAndroid ->
   result first = Ret true ->
   forall others,
     let later := lookups_after settings others (final first) in
     IsRunningPrecompiledCode build settings e' later =
     mkRun (Ret true) later []).
Proof.
  cbv zeta. split.
  - intros precompiled. apply IsRunningPrecompiledCode_again.
  - intros Hres Hmode others.
    rewrite !(IsRunningPrecompiledCode_ANDROID _ _ _ _ Hres) in *.
    unfold bind in Hmode.
    destruct (result (ANDROID._DartSymbolLookup settings e
                        kInstructionsSnapshotName s)) as [p|] eqn:Hp;
      [|discriminate].
    cbn in Hmode. injection Hmode as Hmode.
    assert (Hnonnull : p <> nullptr).
    { intros ->. discriminate. }
    assert (Hfinal :
      final (bind (ANDROID._DartSymbolLookup settings e
                     kInstructionsSnapshotName)
               (fun instructions => ret (negb (is_null instructions))) s) =
      final (ANDROID._DartSymbolLookup settings e kInstructionsSnapshotName s)).
    { unfold bind. rewrite Hp. reflexivity. }
    rewrite Hfinal.
    pose proof (lookup_kept_after settings e e' kInstructionsSnapshotName s p
                  others Hp Hnonnull) as Hkept.
    cbv zeta in Hkept. unfold bind. rewrite Hkept. cbn.
    now rewrite Hmode.
Qed.

Lemma execution_mode_is_stable_witness :
  let first :=
    IsRunningPrecompiledCode
      (mkBuild DynamicAndroid false false false true) sample_settings full_env
      process_start in
  let later :=
    lookups_after sample_settings [(bare_env, kDataSnapshotName)]
      (final first) in
  IsRunningPrecompiledCode
    (mkBuild DynamicAndroid false false false true) sample_settings bare_env
    later = mkRun (Ret true) later [].
Proof.
  cbv zeta.
  apply (execution_mode_is_stable
           (mkBuild DynamicAndroid false false false true) sample_settings
           full_env bare_env process_start); reflexivity.
Defined.

(** ** The file-modification callback, in full *)

Lemma DartFileModifiedCallback_stat
    (e : Env) (source_url : string) (since_ms : Z) (file_info : File_Info) :
  int64 since_ms ->
  StartsWith source_url "file:" = true ->
  GetFileInfo e (advance 5 source_url) = Some file_info ->
  DartFileModifiedCallback e source_url since_ms =
  (since_ms * kMicrosecondsPerMillisecond <? last_modified file_info).
Proof.
  intros Hr Hp Hstat. unfold DartFileModifiedCallback.
  rewrite Hp. cbn [negb].
  rewrite (file_scheme_removed _ Hp), Hstat, (since_time_exact since_ms Hr).
  apply Z.gtb_ltb.
Qed.

(** X8.  *Modified since.*  For a "file:" URL whose file can be stat'ed the
    callback answers "modified" exactly when the file's last modification is
    later than [since_ms] milliseconds, to the microsecond.  For every URL the
    answer is monotone: what counts as modified since a later instant counts
    as modified since any earlier one. *)
Theorem file_modified_since
    (e : Env) (source_url : string) (since_ms later_ms : Z) :
  int64 since_ms -> int64 later_ms -> since_ms <= later_ms ->
  (forall file_info,
     StartsWith source_url "file:" = true ->
     GetFileInfo e (advance 5 source_url) = Some file_info ->
     (DartFileModifiedCallback e source_url since_ms = true <->
      since_ms * kMicrosecondsPerMillisecond < last_modified file_info)) /\
  (DartFileModifiedCallback e source_url later_ms = true ->
   DartFileModifiedCallback e source_url since_ms = true).
Proof.
  intros Hsince Hlater Hle. split.
  - intros file_info Hp Hstat.
    rewrite (DartFileModifiedCallback_stat e _ _ _ Hsince Hp Hstat).
    apply Z.ltb_lt.
  - destruct (StartsWith source_url "file:") eqn:Hp.
    + destruct (GetFileInfo e (advance 5 source_url)) as [file_info|] eqn:Hstat.
      * rewrite !(DartFileModifiedCallback_stat e _ _ file_info) by assumption.
        rewrite !Z.ltb_lt. unfold kMicrosecondsPerMillisecond. lia.
      * intros _. unfold DartFileModifiedCallback. rewrite Hp. cbn [negb].
        now rewrite (file_scheme_removed _ Hp), Hstat.
    + intros _. unfold DartFileModifiedCallback. now rewrite Hp.
Qed.

Lemma file_modified_since_witness :
  DartFileModifiedCallback full_env "file:///tmp/a.dart" 4999 = true.
Proof.
  assert (H4999 : int64 4999) by (unfold int64; lia).
  assert (H5000 : int64 5000) by (unfold int64; lia).
  destruct (file_modified_since full_env "file:///tmp/a.dart" 4999 5000
              H4999 H5000 ltac:(lia)) as [Hexact _].
  apply (Hexact (mkFile_Info 5000000)); [reflexivity | reflexivity |].
  vm_compute. reflexivity.
Defined.

(** ** The words of the flag string *)

Lemma chars_of_append (a b : string) :
  String.list_ascii_of_string (a +:+ b) =
  String.list_ascii_of_string a ++ String.list_ascii_of_string b.
Proof.
  induction a as [|c a IH]; [reflexivity|].
  rewrite append_cons. cbn. now rewrite IH.
Qed.

Lemma istream_words_invariant (input word : string) :
  Forall (fun c => isspace c = false) (String.list_ascii_of_string word) ->
  Forall is_word (istream_words input word) /\
  glue (istream_words input word) = word +:+ remove_spaces input.
Proof.
  revert word. induction input as [|c input IH]; intros word Hword.
  - cbn. destruct word as [|d word]; [split; [constructor | reflexivity]|].
    split.
    + constructor; [split; [discriminate | exact Hword] | constructor].
    + unfold glue. cbn [fold_right]. now rewrite !append_empty.
  - cbn [istream_words remove_spaces].
    destruct (isspace c) eqn:Hc.
    + destruct word as [|d word].
      * apply IH. constructor.
      * destruct (IH EmptyString ltac:(constructor)) as [IHw IHg]. split.
        -- constructor; [|exact IHw]. split; [discriminate | exact Hword].
        -- unfold glue in *. cbn [fold_right]. rewrite IHg, append_nil.
           reflexivity.
    + destruct (IH (word +:+ String c EmptyString)) as [IHw IHg].
      { rewrite chars_of_append. apply Forall_app. split; [exact Hword|].
        repeat constructor. exact Hc. }
      split; [exact IHw|]. now rewrite IHg, append_char.
Qed.

(** X9.  *What the extraction reads.*  From any flag string, the words read
    are non-empty and free of white space, and put end to end they are the
    string with its white space removed: nothing but white space is dropped,
    nothing is added, no empty flag is ever produced. *)
Theorem istream_words_sound (input : string) :
  Forall is_word (istream_words input EmptyString) /\
  glue (istream_words input EmptyString) = remove_spaces input.
Proof.
  destruct (istream_words_invariant input EmptyString ltac:(constructor))
    as [Hwords Hglue].
  split; [exact Hwords|]. now rewrite Hglue, append_nil.
Qed.

(** ** Runs that return: a small program logic *)

Section Hoare.
Context {A B : Type} (I : Process -> Prop).

Lemma hoare_ret (a : A) (Q : A -> list Event -> Prop) :
  Q a [] -> hoare I (ret a) Q.
Proof.
  intros HQ s Hs. split; [exact Hs|].
  intros a' Ha. cbn in Ha. injection Ha as <-. exact HQ.
Qed.

Lemma hoare_fatal (Q : A -> list Event -> Prop) : hoare I (@fatal A) Q.
Proof. intros s Hs. split; [exact Hs | discriminate]. Qed.

Lemma hoare_weaken (m : M A) (Q Q' : A -> list Event -> Prop) :
  (forall a t, Q a t -> Q' a t) -> hoare I m Q -> hoare I m Q'.
Proof.
  intros HQ Hm s Hs. destruct (Hm s Hs) as [HI Hret].
  split; [exact HI|]. intros a Ha. apply HQ, Hret, Ha.
Qed.

Lemma hoare_bind (m : M A) (f : A -> M B)
    (R : A -> list Event -> Prop) (Q : B -> list Event -> Prop) :
  hoare I m R ->
  (forall a t1, R a t1 -> hoare I (f a) (fun b t2 => Q b (t1 ++ t2))) ->
  hoare I (bind m f) Q.
Proof.
  intros Hm Hf s Hs. destruct (Hm s Hs) as [HI Hret]. unfold bind.
  destruct (result (m s)) as [a|] eqn:Ha; cbn [result final events].
  - destruct (Hf a _ (Hret a eq_refl) _ HI) as [HI' Hret'].
    split; [exact HI'|]. intros b Hb. exact (Hret' b Hb).
  - split; [exact HI | discriminate].
Qed.

Lemma hoare_bind_call (ev : Event) (x : A) (f : A -> M B)
    (Q : B -> list Event -> Prop) :
  hoare I (f x) (fun b t => Q b (ev :: t)) ->
  hoare I (bind (call ev x) f) Q.
Proof.
  intros Hf. apply (hoare_bind _ _ (fun a t => a = x /\ t = [ev])).
  - intros s Hs. split; [exact Hs|].
    intros a Ha. cbn in Ha. injection Ha as <-. now split.
  - intros a t1 [-> ->]. exact Hf.
Qed.

End Hoare.

Lemma hoare_bind_check {B : Type} (I : Process -> Prop) (condition : bool)
    (rest : M B) (Q : B -> list Event -> Prop) :
  (condition = true -> hoare I rest Q) ->
  hoare I (bind (FTL_CHECK condition) (fun _ => rest)) Q.
Proof.
  intros Hrest s Hs. unfold bind, FTL_CHECK.
  destruct condition; cbn [result final events ret fatal].
  - destruct (Hrest eq_refl s Hs) as [HI Hret].
    split; [exact HI|]. intros b Hb. exact (Hret b Hb).
  - split; [exact Hs | discriminate].
Qed.

Lemma hoare_bind_modify {B : Type} (I : Process -> Prop)
    (f : Process -> Process) (rest : M B) (Q : B -> list Event -> Prop) :
  (forall s, I s -> I (f s)) ->
  hoare I rest Q ->
  hoare I (bind (modify f) (fun _ => rest)) Q.
Proof.
  intros Hf Hrest s Hs. unfold bind, modify. cbn [result final events].
  destruct (Hrest (f s) (Hf s Hs)) as [HI Hret].
  split; [exact HI|]. intros b Hb. exact (Hret b Hb).
Qed.

(** What is known of a piece without looking into it: the calls it makes. *)
Lemma hoare_emits {A : Type} (I : Process -> Prop) (P : Event -> Prop)
    (m : M A) :
  (forall s, I s -> I (final (m s))) ->
  emits P m ->
  hoare I m (fun _ t => Forall P t).
Proof.
  intros HI Hm s Hs. split; [now apply HI|]. intros a _. apply Hm.
Qed.

Lemma hoare_bind_read {A B : Type} (I : Process -> Prop)
    (field : Process -> A) (f : A -> M B) (Q : B -> list Event -> Prop) :
  (forall v, (exists s, I s /\ field s = v) -> hoare I (f v) Q) ->
  hoare I (bind (get field) f) Q.
Proof.
  intros Hf s Hs. unfold bind, get. cbn [result final events].
  destruct (Hf (field s) (ex_intro _ s (conj Hs eq_refl)) s Hs) as [HI Hret].
  split; [exact HI|]. intros b Hb. exact (Hret b Hb).
Qed.

Lemma hoare_bind_call_weak {A B : Type} (I : Process -> Prop)
    (ev : Event) (x : A) (f : A -> M B) (Q : B -> list Event -> Prop) :
  (forall b t, Q b t -> Q b (ev :: t)) ->
  hoare I (f x) Q ->
  hoare I (bind (call ev x) f) Q.
Proof.
  intros HQ Hf. apply hoare_bind_call.
  eapply hoare_weaken; [|exact Hf]. exact HQ.
Qed.

Lemma hoare_bind_weak {A B : Type} (I : Process -> Prop)
    (m : M A) (f : A -> M B)
    (R : A -> list Event -> Prop) (Q : B -> list Event -> Prop) :
  (forall a t1 b t2, R a t1 -> Q b t2 -> Q b (t1 ++ t2)) ->
  hoare I m R ->
  (forall a, (exists t1, R a t1) -> hoare I (f a) Q) ->
  hoare I (bind m f) Q.
Proof.
  intros HQ Hm Hf. apply (hoare_bind I m f R); [exact Hm|].
  intros a t1 HR. eapply hoare_weaken; [|apply Hf; now exists t1].
  intros b t2. now apply (HQ a).
Qed.

Lemma hoare_check (I : Process -> Prop) (condition : bool) :
  hoare I (FTL_CHECK condition) (fun _ t => condition = true /\ t = []).
Proof.
  intros s Hs. destruct condition; cbn; (split; [exact Hs|]); [|discriminate].
  intros _ _. now split.
Qed.

Lemma hoare_any {A : Type} (m : M A) :
  hoare (fun _ => True) m (fun _ _ => True).
Proof. intros s _. split; [exact Logic.I | intros; exact Logic.I]. Qed.

Lemma hoare_returned {A : Type} (m : M A) (Q : A -> list Event -> Prop)
    (s : Process) (a : A) :
  hoare (fun _ => True) m Q -> result (m s) = Ret a -> Q a (events (m s)).
Proof. intros Hm. exact (proj2 (Hm s Logic.I) a). Qed.

(** ** What the resolvers leave alone *)

Section KeepsResolver.
Context {C : Type} (field : Process -> C).
Hypothesis field_table : forall t s, field (with_symbol_assets t s) = field s.
Hypothesis field_dl_error : forall x s, field (with_dl_error x s) = field s.

Lemma keeps_IOS_lookup (e : Env) (symbol_name : option string) :
  keeps field (IOS._DartSymbolLookup e symbol_name).
Proof.
  assert (Herr : keeps field IOS.dlerror)
    by (intros s; apply field_dl_error).
  unfold IOS._DartSymbolLookup, IOS.DartLookupSymbolInLibrary, IOS.dlopen,
    IOS.dlsym, IOS.linker_call.
  keeps_all; try reflexivity.
  all: destruct (dl_message _); [apply field_dl_error | reflexivity].
Qed.

Lemma keeps_ANDROID_from
    (settings : SkySettings) (e : Env) (symbol_name : string)
    (seen rest : list SymbolAsset.t) :
  keeps field (ANDROID._DartSymbolLookup_from settings e symbol_name seen rest).
Proof.
  revert seen. induction rest as [|a rest IH]; intros seen;
    cbn [ANDROID._DartSymbolLookup_from]; keeps_all; apply field_table.
Qed.

Lemma keeps_DART_SYMBOL
    (build : Build) (settings : SkySettings) (e : Env) (name : string) :
  keeps field (DART_SYMBOL build settings e name).
Proof.
  pose proof (keeps_IOS_lookup e (Some name)).
  assert (keeps field (ANDROID._DartSymbolLookup settings e name))
    by (intros s; apply keeps_ANDROID_from).
  unfold DART_SYMBOL. keeps_all.
Qed.

Lemma keeps_IsRunningPrecompiledCode
    (build : Build) (settings : SkySettings) (e : Env) :
  keeps field (IsRunningPrecompiledCode build settings e).
Proof.
  pose proof (keeps_DART_SYMBOL build settings e kInstructionsSnapshotName).
  unfold IsRunningPrecompiledCode, PrecompiledInstructionsSymbolIfPresent.
  keeps_all.
Qed.

End KeepsResolver.

(** ** Isolate creation: the runs that abort, the runs that return *)

Lemma run_bind_fatal {A B : Type} (m : M A) (f : A -> M B) (s s1 : Process)
    (t1 : list Event) :
  m s = mkRun Fatal s1 t1 -> bind m f s = mkRun Fatal s1 t1.
Proof. intros Hm. unfold bind. now rewrite Hm. Qed.

Lemma FTL_CHECK_fails (condition : bool) (s : Process) :
  condition = false -> FTL_CHECK condition s = mkRun Fatal s [].
Proof. intros ->. reflexivity. Qed.

Lemma not_null (p : ptr) : negb (is_null p) = true -> p <> nullptr.
Proof.
  unfold is_null. intros H ->. discriminate.
Qed.

Lemma negb_true_false (b : bool) : negb b = true -> b = false.
Proof. now destruct b. Qed.

Lemma resolver_not_hook (ev : Event) :
  is_resolver_event ev = true -> is_hook_event ev = false.
Proof. destruct ev; cbn; intros H; (discriminate || reflexivity). Qed.

(** Takes a run that returns apart, call by call and check by check; the
    calls of the pieces it does not look into stay abstract. *)
Ltac hoare_step :=
  cbv beta;
  lazymatch goal with
  | |- hoare _ (bind (call _ _) _) _ => apply hoare_bind_call
  | |- hoare _ (bind (FTL_CHECK _) _) _ => apply hoare_bind_check; intros ?
  | |- hoare _ (bind _ _) _ =>
      apply (hoare_bind _ _ _ (fun _ _ => True));
      [apply hoare_any | intros ? ? _]
  | |- hoare _ (ret _) _ => apply hoare_ret
  end.

Lemma ends_here {A : Type} (tail : list A) :
  exists before, tail = before ++ tail.
Proof. now exists []. Qed.

Lemma ends_app {A : Type} (t0 t tail : list A) :
  (exists before, t = before ++ tail) ->
  exists before, t0 ++ t = before ++ tail.
Proof. intros (before & ->). exists (t0 ++ before). apply app_assoc. Qed.

Lemma ends_cons {A : Type} (x : A) (t tail : list A) :
  (exists before, t = before ++ tail) ->
  exists before, x :: t = before ++ tail.
Proof. intros (before & ->). now exists (x :: before). Qed.

Ltac ends_with :=
  repeat first [apply ends_here | apply ends_app | apply ends_cons].

Ltac in_trace :=
  cbn [app];
  solve [repeat first [apply in_eq | apply in_cons | apply in_or_app; right]].

(** The generic path in snapshot mode aborts before any call to the VM when
    the URI has no "file://" scheme or the bundle has no snapshot asset. *)
Lemma IsolateCreateCallback_aborts
    (build : Build) (settings : SkySettings)
    (DART_VM_SERVICE_ISOLATE_NAME : string) (e : Env)
    (script_uri main package_root package_config : option string)
    (flags callback_data error : ptr) (s : Process) :
  let created :=
    IsolateCreateCallback build settings DART_VM_SERVICE_ISOLATE_NAME e
      script_uri main package_root package_config flags callback_data error s in
  let mode := IsRunningPrecompiledCode build settings e s in
  let uri := default "" script_uri in
  let bundle_path := advance (String.length kFileUriPrefix) uri in
  IsServiceIsolateURL DART_VM_SERVICE_ISOLATE_NAME script_uri = false ->
  result mode = Ret false ->
  (StartsWith uri kFileUriPrefix = false ->
   created = mkRun Fatal (final mode) (events mode)) /\
  (StartsWith uri kFileUriPrefix = true ->
   GetAsBuffer e bundle_path kSnapshotAssetKey = None ->
   created =
     mkRun Fatal (final mode)
       (events mode ++
        [Ev_ZipAssetBundle bundle_path; Ev_GetAsBuffer kSnapshotAssetKey])).
Proof.
  intros created mode uri bundle_path Hservice Hmode.
  subst created mode bundle_path uri.
  unfold IsolateCreateCallback. rewrite Hservice.
  rewrite (bind_Ret _ _ _ _ Hmode).
  cbn [negb].
  set (s1 := final (IsRunningPrecompiledCode build settings e s)).
  split.
  - intros Hscheme. rewrite Hscheme.
    rewrite bind_Fatal by reflexivity. cbn [result final events].
    now rewrite app_nil_r.
  - intros Hscheme Hbuffer. rewrite Hscheme, Hbuffer.
    rewrite bind_Fatal by reflexivity. reflexivity.
Qed.

Lemma not_a_bundle (bundle_path : string) (ev : Event) :
  is_asset_bundle_event ev = false -> opens_bundle_at bundle_path ev.
Proof. intros Hev p ->. discriminate. Qed.

(** Whatever the arguments and the answers of the environment: a bundle that
    the isolate-creation callback opens is at the path after the scheme. *)
Lemma IsolateCreateCallback_opens
    (build : Build) (settings : SkySettings)
    (DART_VM_SERVICE_ISOLATE_NAME : string) (e : Env)
    (script_uri main package_root package_config : option string)
    (flags callback_data error : ptr) :
  emits
    (opens_bundle_at
       (advance (String.length kFileUriPrefix) (default "" script_uri)))
    (IsolateCreateCallback build settings DART_VM_SERVICE_ISOLATE_NAME e
       script_uri main package_root package_config flags callback_data error).
Proof.
  unfold IsolateCreateCallback.
  remember (advance (String.length kFileUriPrefix) (default "" script_uri))
    as bundle_path eqn:Hpath. clear Hpath.
  assert (Hresolver : forall ev,
            is_resolver_event ev = true -> opens_bundle_at bundle_path ev).
  { intros ev Hev. apply not_a_bundle. now apply resolver_event_other. }
  pose proof (emits_weaken _ _ _ Hresolver
                (emits_IsRunningPrecompiledCode build settings e)) as Hmode.
  pose proof (emits_weaken _ _ _ Hresolver
                (emits_DART_SYMBOL build settings e
                   kDartIsolateSnapshotBufferName)) as Hsymbol.
  destruct (IsServiceIsolateURL DART_VM_SERVICE_ISOLATE_NAME script_uri).
  - eapply emits_weaken; [|apply emits_ServiceIsolateCreateCallback].
    intros ev [Hev _]. now apply not_a_bundle.
  - emits_all; intros q Hq; first [discriminate | now injection Hq as <-].
Qed.

(** In precompiled mode the generic path neither opens the bundle nor loads
    a script snapshot. *)
Lemma IsolateCreateCallback_precompiled
    (build : Build) (settings : SkySettings)
    (DART_VM_SERVICE_ISOLATE_NAME : string) (e : Env)
    (script_uri main package_root package_config : option string)
    (flags callback_data error : ptr) (s : Process) :
  IsServiceIsolateURL DART_VM_SERVICE_ISOLATE_NAME script_uri = false ->
  result (IsRunningPrecompiledCode build settings e s) = Ret true ->
  Forall (fun ev => is_asset_bundle_event ev = false /\
                    is_load_script_event ev = false)
    (events
       (IsolateCreateCallback build settings DART_VM_SERVICE_ISOLATE_NAME e
          script_uri main package_root package_config flags callback_data
          error s)).
Proof.
  intros Hservice Hmode.
  pose proof (emits_weaken _ _ _ resolver_event_other
                (emits_IsRunningPrecompiledCode build settings e)) as Hmode_calls.
  pose proof (emits_weaken _ _ _ resolver_event_other
                (emits_DART_SYMBOL build settings e
                   kDartIsolateSnapshotBufferName)) as Hsymbol.
  unfold IsolateCreateCallback. rewrite Hservice.
  rewrite (bind_Ret _ _ _ _ Hmode). cbn [events negb].
  apply Forall_app. split; [apply Hmode_calls|].
  lazymatch goal with
  | |- Forall ?P (events (?m ?s1)) => enough (Htail : emits P m) by apply Htail
  end.
  apply emits_bind_result; [apply emits_ret|].
  intros data (s0 & Hdata). cbn in Hdata. injection Hdata as <-.
  emits_all; split; reflexivity.
Qed.

(** X10.  On the generic path in snapshot mode, a URI without the "file://"
    scheme aborts the process right after the mode test, and a bundle
    without the snapshot asset aborts it right after the extraction: in both
    cases nothing has been asked of the VM, no isolate state was created
    and no isolate. *)
Theorem isolate_creation_aborts_early
    (build : Build) (settings : SkySettings)
    (DART_VM_SERVICE_ISOLATE_NAME : string) (e : Env) (uri : string)
    (main package_root package_config : option string)
    (flags callback_data error : ptr) (s : Process) :
  let created :=
    IsolateCreateCallback build settings DART_VM_SERVICE_ISOLATE_NAME e
      (Some uri) main package_root package_config flags callback_data error s in
  let mode := IsRunningPrecompiledCode build settings e s in
  let bundle_path := advance (String.length kFileUriPrefix) uri in
  IsServiceIsolateURL DART_VM_SERVICE_ISOLATE_NAME (Some uri) = false ->
  result mode = Ret false ->
  StartsWith uri kFileUriPrefix = false \/
  GetAsBuffer e bundle_path kSnapshotAssetKey = None ->
  result created = Fatal /\
  final created = final mode /\
  events created =
    events mode ++
    (if StartsWith uri kFileUriPrefix
     then [Ev_ZipAssetBundle bundle_path; Ev_GetAsBuffer kSnapshotAssetKey]
     else []) /\
  Forall (fun ev => is_resolver_event ev = true \/
                    is_asset_bundle_event ev = true) (events created).
Proof.
  intros created mode bundle_path Hservice Hmode Hmissing.
  destruct (IsolateCreateCallback_aborts build settings
              DART_VM_SERVICE_ISOLATE_NAME e (Some uri) main package_root
              package_config flags callback_data error s Hservice Hmode)
    as [Hscheme Hasset].
  cbn [default from_option id] in Hscheme, Hasset.
  fold created mode bundle_path in Hscheme, Hasset.
  pose proof (emits_IsRunningPrecompiledCode build settings e s) as Hcalls.
  fold mode in Hcalls.
  assert (Hrun :
    created =
    mkRun Fatal (final mode)
      (events mode ++
       (if StartsWith uri kFileUriPrefix
        then [Ev_ZipAssetBundle bundle_path; Ev_GetAsBuffer kSnapshotAssetKey]
        else []))).
  { destruct (StartsWith uri kFileUriPrefix) eqn:Hprefix.
    - destruct Hmissing as [|Hnone]; [discriminate|].
      now apply Hasset.
    - rewrite app_nil_r. now apply Hscheme. }
  rewrite Hrun. cbn [result final events].
  split; [reflexivity|]. split; [reflexivity|]. split; [reflexivity|].
  apply Forall_app. split.
  - eapply Forall_impl; [exact Hcalls|]. intros ev Hev. now left.
  - destruct (StartsWith uri kFileUriPrefix); repeat constructor;
      right; reflexivity.
Qed.

Lemma isolate_creation_aborts_early_witness :
  result
    (IsolateCreateCallback snapshot_build sample_settings "vm-service" bare_env
       (Some "http://host/app.flx") (Some "main") None None 0 256 0
       process_start) = Fatal.
Proof.
  apply (isolate_creation_aborts_early snapshot_build sample_settings
           "vm-service" bare_env "http://host/app.flx" (Some "main") None None
           0 256 0 process_start); [reflexivity | reflexivity |].
  left. reflexivity.
Defined.

(** X11.  The asset bundle is opened only on the generic path, only in
    snapshot mode, only for a URI with the "file://" scheme, and only at the
    path that follows the scheme. *)
Theorem bundle_is_opened_only_for_snapshots
    (build : Build) (settings : SkySettings)
    (DART_VM_SERVICE_ISOLATE_NAME : string) (e : Env)
    (script_uri main package_root package_config : option string)
    (flags callback_data error : ptr) (s : Process) (p : string) :
  let created :=
    IsolateCreateCallback build settings DART_VM_SERVICE_ISOLATE_NAME e
      script_uri main package_root package_config flags callback_data error s in
  In (Ev_ZipAssetBundle p) (events created) ->
  IsServiceIsolateURL DART_VM_SERVICE_ISOLATE_NAME script_uri = false /\
  result (IsRunningPrecompiledCode build settings e s) = Ret false /\
  StartsWith (default "" script_uri) kFileUriPrefix = true /\
  p = advance (String.length kFileUriPrefix) (default "" script_uri).
Proof.
  intros created Hin.
  pose proof (IsolateCreateCallback_opens build settings
                DART_VM_SERVICE_ISOLATE_NAME e script_uri main package_root
                package_config flags callback_data error s) as Hat.
  pose proof (emits_IsRunningPrecompiledCode build settings e s) as Hmode.
  fold created in Hat.
  apply list_elem_of_In in Hin. rewrite Forall_forall in Hat, Hmode.
  pose proof (Hat _ Hin p eq_refl) as Hp.
  destruct (IsServiceIsolateURL DART_VM_SERVICE_ISOLATE_NAME script_uri)
    eqn:Hservice.
  { exfalso.
    pose proof (emits_ServiceIsolateCreateCallback build settings e script_uri
                  error s) as Hnone.
    unfold created, IsolateCreateCallback in Hin. rewrite Hservice in Hin.
    rewrite Forall_forall in Hnone. destruct (Hnone _ Hin); discriminate. }
  split; [reflexivity|].
  destruct (result (IsRunningPrecompiledCode build settings e s))
    as [[|]|] eqn:Hresult.
  - exfalso.
    pose proof (IsolateCreateCallback_precompiled build settings
                  DART_VM_SERVICE_ISOLATE_NAME e script_uri main package_root
                  package_config flags callback_data error s Hservice Hresult)
      as Hnone.
    fold created in Hnone. rewrite Forall_forall in Hnone.
    destruct (Hnone _ Hin); discriminate.
  - split; [reflexivity|].
    destruct (StartsWith (default "" script_uri) kFileUriPrefix) eqn:Hscheme.
    + split; [reflexivity | exact Hp].
    + exfalso.
      destruct (IsolateCreateCallback_aborts build settings
                  DART_VM_SERVICE_ISOLATE_NAME e script_uri main package_root
                  package_config flags callback_data error s Hservice Hresult)
        as [Habort _].
      fold created in Habort. cbv zeta in Habort.
      rewrite (Habort Hscheme) in Hin. cbn [events] in Hin.
      specialize (Hmode _ Hin). discriminate.
  - exfalso. unfold created, IsolateCreateCallback in Hin.
    rewrite Hservice, bind_Fatal in Hin by exact Hresult.
    cbn [events] in Hin. specialize (Hmode _ Hin). discriminate.
Qed.

Lemma bundle_is_opened_only_for_snapshots_witness :
  result (IsRunningPrecompiledCode snapshot_build sample_settings full_env
            process_start) = Ret false /\
  "/data/app.flx" =
    advance (String.length kFileUriPrefix) "file:///data/app.flx".
Proof.
  destruct (bundle_is_opened_only_for_snapshots snapshot_build sample_settings
              "vm-service" full_env (Some "file:///data/app.flx") (Some "main")
              None None 0 256 0 process_start "/data/app.flx")
    as (_ & Hmode & _ & Hpath).
  - cbn. left. reflexivity.
  - split; [exact Hmode | exact Hpath].
Defined.

(** X12.  An isolate that the generic path returns is the non-null one the
    VM created for the child state of the parent, with the embedder's tag
    handler installed without error and marked runnable by the VM; and the
    run ends with the notification [DidCreateSecondaryIsolate] for this
    isolate, the end of the API scope, the exit from the isolate and the
    call that makes it runnable, in this order. *)
Theorem returned_isolate_is_runnable
    (build : Build) (settings : SkySettings)
    (DART_VM_SERVICE_ISOLATE_NAME : string) (e : Env)
    (script_uri main package_root package_config : option string)
    (flags callback_data error : ptr) (s : Process) (isolate : ptr) :
  let created :=
    IsolateCreateCallback build settings DART_VM_SERVICE_ISOLATE_NAME e
      script_uri main package_root package_config flags callback_data error s in
  IsServiceIsolateURL DART_VM_SERVICE_ISOLATE_NAME script_uri = false ->
  result created = Ret isolate ->
  isolate <> nullptr /\
  (exists snapshot,
     isolate = Dart_CreateIsolate e script_uri main snapshot
                 (CreateForChildIsolate e callback_data)) /\
  Dart_SetLibraryTagHandler_is_error e = false /\
  Dart_IsolateMakeRunnable e isolate = true /\
  exists before,
    events created =
    before ++ [Ev_DidCreateSecondaryIsolate isolate; Ev_DartApiScope_leave;
               Ev_Dart_ExitIsolate; Ev_Dart_IsolateMakeRunnable isolate].
Proof.
  intros created Hservice Hreturned. subst created.
  revert Hreturned.
  apply (hoare_returned _
    (fun isolate t =>
       isolate <> nullptr /\
       (exists snapshot,
          isolate = Dart_CreateIsolate e script_uri main snapshot
                      (CreateForChildIsolate e callback_data)) /\
       Dart_SetLibraryTagHandler_is_error e = false /\
       Dart_IsolateMakeRunnable e isolate = true /\
       exists before,
         t = before ++ [Ev_DidCreateSecondaryIsolate isolate;
                        Ev_DartApiScope_leave; Ev_Dart_ExitIsolate;
                        Ev_Dart_IsolateMakeRunnable isolate])).
  unfold IsolateCreateCallback. rewrite Hservice.
  repeat hoare_step.
  split; [now apply not_null|].
  split; [eexists; reflexivity|].
  split; [now apply negb_true_false|].
  split; [assumption|].
  ends_with.
Qed.

Lemma returned_isolate_is_runnable_witness :
  Dart_IsolateMakeRunnable full_env 7 = true /\
  Dart_SetLibraryTagHandler_is_error full_env = false.
Proof.
  destruct (returned_isolate_is_runnable snapshot_build sample_settings
              "vm-service" full_env (Some "file:///data/app.flx") (Some "main")
              None None 0 256 0 process_start 7)
    as (_ & _ & Htag & Hrunnable & _); [reflexivity | reflexivity |].
  split; [exact Hrunnable | exact Htag].
Defined.

(** X13.  A run of the generic path in snapshot mode that returns has found
    the "file://" scheme, has opened the bundle at the path after it and
    got the snapshot asset from it; and if that buffer is not empty, the run
    has loaded it as the isolate's script, without error. *)
Theorem returned_snapshot_run_loaded_the_asset
    (build : Build) (settings : SkySettings)
    (DART_VM_SERVICE_ISOLATE_NAME : string) (e : Env) (uri : string)
    (main package_root package_config : option string)
    (flags callback_data error : ptr) (s : Process) (isolate : ptr) :
  let created :=
    IsolateCreateCallback build settings DART_VM_SERVICE_ISOLATE_NAME e
      (Some uri) main package_root package_config flags callback_data error s in
  let bundle_path := advance (String.length kFileUriPrefix) uri in
  IsServiceIsolateURL DART_VM_SERVICE_ISOLATE_NAME (Some uri) = false ->
  result (IsRunningPrecompiledCode build settings e s) = Ret false ->
  result created = Ret isolate ->
  StartsWith uri kFileUriPrefix = true /\
  In (Ev_ZipAssetBundle bundle_path) (events created) /\
  In (Ev_GetAsBuffer kSnapshotAssetKey) (events created) /\
  exists buffer,
    GetAsBuffer e bundle_path kSnapshotAssetKey = Some buffer /\
    (buffer <> [] ->
     Dart_LoadScriptFromSnapshot_is_error e buffer = false /\
     In (Ev_Dart_LoadScriptFromSnapshot buffer) (events created)).
Proof.
  intros created bundle_path Hservice Hmode Hreturned.
  subst created bundle_path. revert Hreturned.
  unfold IsolateCreateCallback. rewrite Hservice.
  rewrite (bind_Ret _ _ _ _ Hmode). cbn [result events negb default from_option id].
  set (bundle_path := advance (String.length kFileUriPrefix) uri).
  intros Hreturned.
  lazymatch type of Hreturned with
  | result (?m ?s1) = _ =>
      pose proof (fun Q H => hoare_returned m Q s1 isolate H Hreturned) as Hrest
  end.
  specialize (Hrest (fun _ t =>
    StartsWith uri kFileUriPrefix = true /\
    In (Ev_ZipAssetBundle bundle_path) t /\
    In (Ev_GetAsBuffer kSnapshotAssetKey) t /\
    exists buffer,
      GetAsBuffer e bundle_path kSnapshotAssetKey = Some buffer /\
      (buffer <> [] ->
       Dart_LoadScriptFromSnapshot_is_error e buffer = false /\
       In (Ev_Dart_LoadScriptFromSnapshot buffer) t))).
  cbv beta in Hrest.
  destruct Hrest as (Hscheme & Hopen & Hget & buffer & Hbuffer & Hload).
  - apply (hoare_bind _ _ _ (fun data t1 =>
             StartsWith uri kFileUriPrefix = true /\
             GetAsBuffer e bundle_path kSnapshotAssetKey = Some data /\
             t1 = [Ev_ZipAssetBundle bundle_path;
                   Ev_GetAsBuffer kSnapshotAssetKey])).
    + do 3 hoare_step. cbv beta.
      destruct (GetAsBuffer e bundle_path kSnapshotAssetKey);
        [apply hoare_ret; auto | apply hoare_fatal].
    + intros data bundle_calls (Hscheme & Hdata & ->).
      destruct data as [|b data].
      * repeat hoare_step.
        split; [exact Hscheme|]. split; [in_trace|]. split; [in_trace|].
        exists []. split; [exact Hdata | intros Hne; now destruct Hne].
      * repeat (cbv beta;
                lazymatch goal with
                | |- hoare _ (bind (bind (call
                        (Ev_Dart_LoadScriptFromSnapshot _) _) _) _) _ => fail
                | |- _ => hoare_step
                end).
        apply (hoare_bind _ _ _ (fun _ t1 =>
                 Dart_LoadScriptFromSnapshot_is_error e (b :: data) = false /\
                 t1 = [Ev_Dart_LoadScriptFromSnapshot (b :: data)])).
        { hoare_step. cbv beta.
          eapply hoare_weaken; [|apply hoare_check].
          intros _ t [Hok ->]. split; [now apply negb_true_false | reflexivity]. }
        intros _ load_calls (Hok & ->).
        repeat hoare_step.
        split; [exact Hscheme|]. split; [in_trace|]. split; [in_trace|].
        exists (b :: data). split; [exact Hdata|]. intros _.
        split; [exact Hok | in_trace].
  - split; [exact Hscheme|].
    split; [apply in_app_iff; now right|].
    split; [apply in_app_iff; now right|].
    exists buffer. split; [exact Hbuffer|]. intros Hne.
    destruct (Hload Hne) as [Hok Hin].
    split; [exact Hok | apply in_app_iff; now right].
Qed.

Lemma returned_snapshot_run_loaded_the_asset_witness :
  StartsWith "file:///data/app.flx" kFileUriPrefix = true /\
  exists buffer,
    GetAsBuffer full_env "/data/app.flx" kSnapshotAssetKey = Some buffer.
Proof.
  destruct (returned_snapshot_run_loaded_the_asset snapshot_build
              sample_settings "vm-service" full_env "file:///data/app.flx"
              (Some "main") None None 0 256 0 process_start 7)
    as (Hscheme & _ & _ & buffer & Hbuffer & _);
    [reflexivity | reflexivity | reflexivity |].
  split; [exact Hscheme | exists buffer; exact Hbuffer].
Defined.

(** ** The service isolate: what a returned run has established *)

Lemma emits_not_startup_resolver (ev : Event) :
  is_resolver_event ev = true -> is_startup_event ev = false.
Proof. destruct ev; cbn; intros H; (discriminate || reflexivity). Qed.

(** X14.  Outside product builds, a service isolate that the creation
    callback returns is the non-null one the VM created under the entry
    point "main" for a fresh isolate state, the VM says it is the service
    isolate, and the tag handler is installed without error.  With the
    observatory enabled, the service was started on 127.0.0.1 at the
    configured port with the origin check left on, and the start succeeded;
    with it disabled, the service was not started at all. *)
Theorem returned_service_isolate
    (build : Build) (settings : SkySettings) (e : Env)
    (script_uri : option string) (error : ptr) (s : Process) (isolate : ptr) :
  let created := ServiceIsolateCreateCallback build settings e script_uri error s in
  FLUTTER_PRODUCT_MODE build = false ->
  result created = Ret isolate ->
  isolate <> nullptr /\
  (exists snapshot,
     isolate = Dart_CreateIsolate e script_uri (Some "main") snapshot
                 (new_DartState e)) /\
  Dart_IsServiceIsolate e isolate = true /\
  Dart_SetLibraryTagHandler_is_error e = false /\
  (if enable_observatory settings
   then exists precompiled,
          DartServiceIsolate_Startup e "127.0.0.1" (observatory_port settings)
            precompiled false = true /\
          In (Ev_DartServiceIsolate_Startup "127.0.0.1"
                (observatory_port settings) precompiled false)
            (events created)
   else Forall (fun ev => is_startup_event ev = false) (events created)).
Proof.
  intros created Hproduct Hreturned. subst created.
  assert (Hpost :
    isolate <> nullptr /\
    (exists snapshot,
       isolate = Dart_CreateIsolate e script_uri (Some "main") snapshot
                   (new_DartState e)) /\
    Dart_IsServiceIsolate e isolate = true /\
    Dart_SetLibraryTagHandler_is_error e = false /\
    (enable_observatory settings = true ->
     exists precompiled,
       DartServiceIsolate_Startup e "127.0.0.1" (observatory_port settings)
         precompiled false = true /\
       In (Ev_DartServiceIsolate_Startup "127.0.0.1"
             (observatory_port settings) precompiled false)
         (events (ServiceIsolateCreateCallback build settings e script_uri
                    error s)))).
  { revert Hreturned.
    apply (hoare_returned _
      (fun isolate t =>
         isolate <> nullptr /\
         (exists snapshot,
            isolate = Dart_CreateIsolate e script_uri (Some "main") snapshot
                        (new_DartState e)) /\
         Dart_IsServiceIsolate e isolate = true /\
         Dart_SetLibraryTagHandler_is_error e = false /\
         (enable_observatory settings = true ->
          exists precompiled,
            DartServiceIsolate_Startup e "127.0.0.1"
              (observatory_port settings) precompiled false = true /\
            In (Ev_DartServiceIsolate_Startup "127.0.0.1"
                  (observatory_port settings) precompiled false) t))).
    unfold ServiceIsolateCreateCallback. rewrite Hproduct.
    destruct (enable_observatory settings).
    - repeat (cbv beta;
              lazymatch goal with
              | |- hoare _ (bind (bind (IsRunningPrecompiledCode _ _ _) _) _) _ =>
                  fail
              | |- _ => hoare_step
              end).
      apply (hoare_bind _ _ _ (fun _ t1 =>
               exists precompiled,
                 DartServiceIsolate_Startup e "127.0.0.1"
                   (observatory_port settings) precompiled false = true /\
                 In (Ev_DartServiceIsolate_Startup "127.0.0.1"
                       (observatory_port settings) precompiled false) t1)).
      { do 2 hoare_step. cbv beta.
        eapply hoare_weaken; [|apply hoare_check].
        intros _ t [Hok ->]. eexists. split; [exact Hok | in_trace]. }
      intros _ startup_calls (precompiled & Hok & Hin).
      repeat hoare_step.
      split; [now apply not_null|].
      split; [eexists; reflexivity|].
      split; [assumption|].
      split; [now apply negb_true_false|].
      intros _. exists precompiled. split; [exact Hok|].
      cbn [app].
      solve [repeat first [apply in_or_app; left; exact Hin
                          | apply in_cons | apply in_or_app; right]].
    - repeat hoare_step.
      split; [now apply not_null|].
      split; [eexists; reflexivity|].
      split; [assumption|].
      split; [now apply negb_true_false|].
      discriminate. }
  destruct Hpost as (Hnonnull & Hcreated & Hservice & Htag & Hstartup).
  repeat (split; [assumption|]).
  destruct (enable_observatory settings) eqn:Hobservatory.
  - now apply Hstartup.
  - pose proof (emits_weaken _ _ _ emits_not_startup_resolver
                  (emits_IsRunningPrecompiledCode build settings e)).
    pose proof (emits_weaken _ _ _ emits_not_startup_resolver
                  (emits_DART_SYMBOL build settings e
                     kDartIsolateSnapshotBufferName)).
    enough (Hnone : emits (fun ev => is_startup_event ev = false)
                      (ServiceIsolateCreateCallback build settings e
                         script_uri error)) by apply Hnone.
    unfold ServiceIsolateCreateCallback, call_hook. rewrite Hobservatory.
    emits_all.
Qed.

Lemma returned_service_isolate_witness :
  exists precompiled,
    DartServiceIsolate_Startup full_env "127.0.0.1" 8181 precompiled false =
    true.
Proof.
  destruct (returned_service_isolate snapshot_build
              (mkSkySettings true 8181 false false false "/data/aot" "")
              full_env (Some "vm-service") 0 process_start 7)
    as (_ & _ & _ & _ & precompiled & Hstarted & _);
    [reflexivity | reflexivity |].
  exists precompiled. exact Hstarted.
Defined.

Lemma hoare_call {A : Type} (I : Process -> Prop) (ev : Event) (x : A) :
  hoare I (call ev x) (fun a t => a = x /\ t = [ev]).
Proof.
  intros s Hs. split; [exact Hs|].
  intros a Ha. cbn in Ha. injection Ha as <-. now split.
Qed.

(** * The initialisation of the VM *)

Lemma boot_run_bind {A B : Type} (m : Boot A) (f : A -> Boot B)
    (s s1 s2 : Process) (a : A) (r : Result B) (t1 t2 : list InitEvent) :
  m s = mkBootRun (Ret a) s1 t1 ->
  f a s1 = mkBootRun r s2 t2 ->
  boot_bind m f s = mkBootRun r s2 (t1 ++ t2).
Proof. intros Hm Hf. unfold boot_bind. rewrite Hm. cbn. now rewrite Hf. Qed.

Lemma boot_run_bind_fatal {A B : Type} (m : Boot A) (f : A -> Boot B)
    (s s1 : Process) (t1 : list InitEvent) :
  m s = mkBootRun Fatal s1 t1 -> boot_bind m f s = mkBootRun Fatal s1 t1.
Proof. intros Hm. unfold boot_bind. now rewrite Hm. Qed.

Lemma lift_run {A : Type} (m : M A) (s : Process) :
  lift m s = mkBootRun (result (m s)) (final (m s))
               (map Init_resolver (events (m s))).
Proof. reflexivity. Qed.

Lemma boot_check_holds (condition : bool) (s : Process) :
  condition = true -> boot_check condition s = mkBootRun (Ret tt) s [].
Proof. intros ->. reflexivity. Qed.

Lemma boot_check_fails (condition : bool) (s : Process) :
  condition = false -> boot_check condition s = mkBootRun Fatal s [].
Proof. intros ->. reflexivity. Qed.

Lemma boot_when (condition : bool) (ev : InitEvent) (s : Process) :
  (if condition then boot_call ev tt else boot_ret tt) s =
  mkBootRun (Ret tt) s (if condition then [ev] else []).
Proof. now destruct condition. Qed.

Lemma boot_unless (condition : bool) (ev : InitEvent) (s : Process) :
  (if condition then boot_ret tt else boot_call ev tt) s =
  mkBootRun (Ret tt) s (if condition then [] else [ev]).
Proof. now destruct condition. Qed.

(** Runs [InitDartVM] along its binds; [close] settles the runs and the
    checks that the context knows. *)
Ltac boot_run close :=
  cbv beta iota;
  lazymatch goal with
  | |- boot_bind _ _ _ = _ =>
      first [ eapply boot_run_bind; [boot_run close | boot_run close]
            | eapply boot_run_bind_fatal; boot_run close ]
  | |- boot_check _ _ = _ =>
      first [apply boot_check_holds; close | apply boot_check_fails; close]
  | |- boot_call _ _ _ = _ => reflexivity
  | |- boot_ret _ _ = _ => reflexivity
  | |- boot_fatal _ = _ => reflexivity
  | |- (if _ then boot_call _ _ else boot_ret _) _ = _ => apply boot_when
  | |- (if _ then boot_ret _ else boot_call _ _) _ = _ => apply boot_unless
  | |- (match ?x with Some _ => _ | None => _ end) _ = _ =>
      lazymatch goal with
      | H : x = _ |- _ => rewrite H; reflexivity
      end
  | |- _ => close
  end.

(** The run of [InitDartVM], outcome by outcome. *)
Lemma InitDartVM_run
    (build : Build) (settings : SkySettings)
    (command_line : gmap string string) (e : Env) (ie : InitEnv)
    (order : ArgumentOrder) (s : Process) :
  let flags := InitDartVM_args build settings command_line e s in
  let symbols :=
    Dart_Initialize_arguments build settings e order (final flags) in
  let setup :=
    InitDartVM_setup_calls settings ie ++ map Init_resolver (events flags) in
  InitDartVM build settings command_line e ie order s =
  match result flags with
  | Fatal => mkBootRun Fatal (final flags) setup
  | Ret args =>
      if Dart_SetVMFlags ie args then
        let lookups :=
          setup ++ [Init_Dart_SetVMFlags args] ++
          InitDartVM_global_calls build ++
          map Init_resolver (events symbols) in
        match result symbols with
        | Fatal => mkBootRun Fatal (final symbols) lookups
        | Ret (vm_isolate_snapshot, instructions_snapshot, data_snapshot) =>
            let initialize :=
              lookups ++
              [Init_Dart_Initialize vm_isolate_snapshot instructions_snapshot
                 data_snapshot] in
            match Dart_Initialize ie vm_isolate_snapshot instructions_snapshot
                    data_snapshot with
            | Some _ => mkBootRun Fatal (final symbols) initialize
            | None =>
                mkBootRun (Ret tt) (final symbols)
                  (initialize ++ InitDartVM_final_calls ie)
            end
        end
      else mkBootRun Fatal (final flags) (setup ++ [Init_Dart_SetVMFlags args])
  end.
Proof.
  cbv zeta.
  unfold InitDartVM, InitDartVM_setup_calls, InitDartVM_global_calls,
    InitDartVM_final_calls.
  pose proof (lift_run (InitDartVM_args build settings command_line e) s)
    as Hflags.
  pose proof (lift_run (Dart_Initialize_arguments build settings e order)
                (final (InitDartVM_args build settings command_line e s)))
    as Hsymbols.
  destruct (result (InitDartVM_args build settings command_line e s))
    as [args|];
    [destruct (Dart_SetVMFlags ie args) eqn:Haccepted;
     [destruct (result (Dart_Initialize_arguments build settings e order _))
        as [[[vm instructions] data]|];
      [destruct (Dart_Initialize ie vm instructions data) eqn:Herror|]|]|].
  all: etransitivity; [boot_run ltac:(eassumption)|].
  all: f_equal; rewrite <- ?app_assoc; cbn [app]; rewrite ?app_nil_r;
    rewrite <- ?app_assoc; reflexivity.
Qed.

(** The kinds of calls in the parts of a run of [InitDartVM]. *)
Lemma resolver_calls_only (t : list Event) :
  Forall (fun ev => is_resolver_call ev = true) (map Init_resolver t).
Proof. induction t; constructor; [reflexivity | assumption]. Qed.

Lemma setup_calls_kind (settings : SkySettings) (ie : InitEnv) :
  Forall (fun ev =>
            match ev with
            | Init_BootstrapDartIo | Init_SetSystemTempDirectory _
            | Init_HandleWatcher_Start
            | Init_SetHandleWatcherProducerHandle _ => True
            | _ => False
            end)
    (InitDartVM_setup_calls settings ie).
Proof.
  unfold InitDartVM_setup_calls.
  destruct (negb (ANDROID.empty (temp_directory_path settings)));
    repeat constructor.
Qed.

Lemma global_calls_kind (build : Build) :
  Forall (fun ev =>
            match ev with
            | Init_InitDebugger => FLUTTER_PRODUCT_MODE build = false
            | Init_DartJni_InitForGlobal => OS_ANDROID build = true
            | Init_DartUI_InitForGlobal
            | Init_Dart_SetEmbedderTimelineCallbacks
            | Init_Dart_SetFileModifiedCallback => True
            | _ => False
            end)
    (InitDartVM_global_calls build).
Proof.
  unfold InitDartVM_global_calls.
  destruct (FLUTTER_PRODUCT_MODE build), (OS_ANDROID build);
    repeat constructor.
Qed.

Lemma final_calls_kind (ie : InitEnv) :
  Forall (fun ev =>
            match ev with
            | Init_Dart_TimelineEvent label timestamp0 timestamp1 =>
                engine_main_enter_ts ie <> 0 /\
                label = "FlutterEngineMainEnter" /\
                timestamp0 = engine_main_enter_ts ie /\
                timestamp1 = engine_main_enter_ts ie
            | Init_Dart_SetServiceStreamCallbacks => True
            | _ => False
            end)
    (InitDartVM_final_calls ie).
Proof.
  unfold InitDartVM_final_calls.
  destruct (engine_main_enter_ts ie =? 0) eqn:Hts; repeat constructor.
  now apply Z.eqb_neq.
Qed.

Lemma global_calls_present (build : Build) :
  In Init_DartUI_InitForGlobal (InitDartVM_global_calls build) /\
  In Init_Dart_SetEmbedderTimelineCallbacks (InitDartVM_global_calls build) /\
  In Init_Dart_SetFileModifiedCallback (InitDartVM_global_calls build) /\
  (FLUTTER_PRODUCT_MODE build = false ->
   In Init_InitDebugger (InitDartVM_global_calls build)) /\
  (OS_ANDROID build = true ->
   In Init_DartJni_InitForGlobal (InitDartVM_global_calls build)).
Proof.
  unfold InitDartVM_global_calls.
  destruct (FLUTTER_PRODUCT_MODE build), (OS_ANDROID build); cbn;
    intuition discriminate.
Qed.

Lemma split_after {A : Type} (l : list A) (x : A) (after : list A) :
  (l ++ [x]) ++ after = l ++ x :: after.
Proof. now rewrite <- app_assoc. Qed.

(** Finds the kind of a call from the part of the run it is in. *)
Ltac call_kind H :=
  repeat lazymatch type of H with
         | In _ (_ ++ _) => apply in_app_or in H; destruct H as [H|H]
         end;
  try (apply list_elem_of_In in H;
       first
         [ pose proof (proj1 (Forall_forall _ _) (resolver_calls_only _) _ H)
         | pose proof (proj1 (Forall_forall _ _) (setup_calls_kind _ _) _ H)
         | pose proof (proj1 (Forall_forall _ _) (global_calls_kind _) _ H)
         | pose proof (proj1 (Forall_forall _ _) (final_calls_kind _) _ H) ];
       apply list_elem_of_In in H);
  try (cbn [In] in H; destruct H as [H|[]]).

(** X16.  Whenever [InitDartVM] calls [Dart_Initialize], it does so once,
    and before the call the flags were handed to the VM and accepted, the
    UI bindings were initialised for the process, the embedder's timeline
    callbacks and the file-modified callback were registered, the debugger
    was initialised unless this is a product build, and on Android the JNI
    bindings were initialised. *)
Theorem vm_is_initialized_after_its_setup
    (build : Build) (settings : SkySettings)
    (command_line : gmap string string) (e : Env) (ie : InitEnv)
    (order : ArgumentOrder) (s : Process) (a b c : ptr) :
  let run := InitDartVM build settings command_line e ie order s in
  In (Init_Dart_Initialize a b c) (boot_calls run) ->
  exists args before after,
    boot_calls run = before ++ Init_Dart_Initialize a b c :: after /\
    Forall (fun ev => is_initialize_call ev = false) (before ++ after) /\
    In (Init_Dart_SetVMFlags args) before /\
    Dart_SetVMFlags ie args = true /\
    In Init_DartUI_InitForGlobal before /\
    In Init_Dart_SetEmbedderTimelineCallbacks before /\
    In Init_Dart_SetFileModifiedCallback before /\
    (FLUTTER_PRODUCT_MODE build = false -> In Init_InitDebugger before) /\
    (OS_ANDROID build = true -> In Init_DartJni_InitForGlobal before).
Proof.
  intros run Hin. subst run. revert Hin.
  rewrite InitDartVM_run. cbv zeta.
  destruct (global_calls_present build) as (Hui & Htimeline & Hfile & Hdebug & Hjni).
  destruct (result (InitDartVM_args build settings command_line e s))
    as [args|];
    [destruct (Dart_SetVMFlags ie args) eqn:Haccepted;
     [destruct (result (Dart_Initialize_arguments build settings e order _))
        as [[[vm instructions] data]|];
      [destruct (Dart_Initialize ie vm instructions data) eqn:Herror|]|]|].
  all: cbn [boot_calls]; intros Hin.
  all: call_kind Hin; try discriminate; try contradiction.
  all: injection Hin as <- <- <-; exists args.
  all: eexists; eexists;
    (split; [first [reflexivity | apply split_after]|]).
  all: split;
    [rewrite ?Forall_app; repeat split; try (repeat constructor; fail);
     first [ eapply Forall_impl; [apply setup_calls_kind|]
           | eapply Forall_impl; [apply resolver_calls_only|]
           | eapply Forall_impl; [apply global_calls_kind|]
           | eapply Forall_impl; [apply final_calls_kind|] ];
     intros ev Hkind; destruct ev; cbn in *;
     first [reflexivity | contradiction | discriminate]|].
  all: rewrite !in_app_iff; cbn [In]; repeat split; auto 10.
Qed.

Lemma final_calls_end (ie : InitEnv) :
  exists before,
    InitDartVM_final_calls ie = before ++ [Init_Dart_SetServiceStreamCallbacks].
Proof. unfold InitDartVM_final_calls. eexists. reflexivity. Qed.

Lemma final_calls_timeline (ie : InitEnv) :
  engine_main_enter_ts ie <> 0 ->
  In (Init_Dart_TimelineEvent "FlutterEngineMainEnter"
        (engine_main_enter_ts ie) (engine_main_enter_ts ie))
    (InitDartVM_final_calls ie).
Proof.
  intros Hts. unfold InitDartVM_final_calls.
  rewrite (proj2 (Z.eqb_neq _ _) Hts). cbn. now left.
Qed.

(** Takes the run of [InitDartVM] apart into its five outcomes. *)
Ltac InitDartVM_outcomes build settings command_line e ie order s :=
  rewrite (InitDartVM_run build settings command_line e ie order s) in *;
  cbv zeta in *;
  destruct (result (InitDartVM_args build settings command_line e s))
    as [?args|] eqn:?Hflags;
    [destruct (Dart_SetVMFlags ie args) eqn:?Haccepted;
     [destruct (result (Dart_Initialize_arguments build settings e order _))
        as [[[?vm ?instructions] ?data]|] eqn:?Hsymbols;
      [destruct (Dart_Initialize ie vm instructions data) eqn:?Herror|]|]|];
  cbn [boot_result boot_final boot_calls] in *.

(** X17.  [InitDartVM] returns exactly when [Dart_Initialize] was called
    and reported no error; it is then, and only then, that the stream
    callbacks of the service are registered, as the last call of the run.
    The timeline event "FlutterEngineMainEnter" is sent exactly when the
    initialisation returns and the engine's entry timestamp is not zero, and
    it carries that timestamp twice. *)
Theorem InitDartVM_returns
    (build : Build) (settings : SkySettings)
    (command_line : gmap string string) (e : Env) (ie : InitEnv)
    (order : ArgumentOrder) (s : Process) :
  let run := InitDartVM build settings command_line e ie order s in
  (boot_result run = Ret tt <->
   exists a b c,
     In (Init_Dart_Initialize a b c) (boot_calls run) /\
     Dart_Initialize ie a b c = None) /\
  (boot_result run = Ret tt <->
   In Init_Dart_SetServiceStreamCallbacks (boot_calls run)) /\
  (boot_result run = Ret tt ->
   exists before,
     boot_calls run = before ++ [Init_Dart_SetServiceStreamCallbacks]) /\
  (forall label timestamp0 timestamp1,
     In (Init_Dart_TimelineEvent label timestamp0 timestamp1) (boot_calls run)
     <->
     boot_result run = Ret tt /\
     engine_main_enter_ts ie <> 0 /\
     label = "FlutterEngineMainEnter" /\
     timestamp0 = engine_main_enter_ts ie /\
     timestamp1 = engine_main_enter_ts ie).
Proof.
  intros run. subst run.
  InitDartVM_outcomes build settings command_line e ie order s.
  all: split; [split|split; [split|split]].
  all: try discriminate.
  all: try (intros (a & b & c & Hin & Hnone)).
  all: try (intros label timestamp0 timestamp1; split;
            [intros Hin | intros (Hreturned & Hts & -> & -> & ->)]).
  all: try intros Hin.
  all: try discriminate.
  all: try (call_kind Hin; try discriminate; try contradiction;
            try congruence).
  - exists vm, instructions, data. split; [|exact Herror].
    rewrite !in_app_iff. cbn [In]. auto 10.
  - apply in_or_app. right.
    destruct (final_calls_end ie) as (before & ->).
    apply in_or_app. right. now left.
  - destruct (final_calls_end ie) as (before & ->).
    eexists. apply app_assoc.
  - split; [reflexivity | assumption].
  - apply in_or_app. right. now apply final_calls_timeline.
Qed.

Lemma result_bind_Ret {A B : Type} (m : M A) (f : A -> M B) (s : Process)
    (a : A) :
  result (m s) = Ret a ->
  result (bind m f s) = result (f a (final (m s))).
Proof. intros Hm. now rewrite (bind_Ret _ _ _ _ Hm). Qed.

Lemma result_bind_Fatal {A B : Type} (m : M A) (f : A -> M B) (s : Process) :
  result (m s) = Fatal -> result (bind m f s) = Fatal.
Proof. intros Hm. now rewrite (bind_Fatal _ _ _ Hm). Qed.

Lemma InitDartVM_args_returns
    (build : Build) (settings : SkySettings)
    (command_line : gmap string string) (e : Env) (s : Process) :
  (resolution build = DynamicAndroid -> aot_snapshot_path settings <> "") ->
  exists args,
    result (InitDartVM_args build settings command_line e s) = Ret args.
Proof.
  intros Hdir.
  destruct (IsRunningPrecompiledCode_returns build settings e s Hdir)
    as (precompiled & Hmode).
  pose proof (InitDartVM_args_result build settings command_line e s) as Hargs.
  rewrite Hmode in Hargs. eexists. exact Hargs.
Qed.

Lemma Dart_Initialize_arguments_returns
    (build : Build) (settings : SkySettings) (e : Env)
    (order : ArgumentOrder) (s : Process) :
  (resolution build = DynamicAndroid -> aot_snapshot_path settings <> "") ->
  exists symbols,
    result (Dart_Initialize_arguments build settings e order s) = Ret symbols.
Proof.
  intros Hdir.
  assert (Hsecond : forall s0, exists p,
            result (PrecompiledInstructionsSymbolIfPresent build settings e s0) =
            Ret p).
  { intros s0. unfold PrecompiledInstructionsSymbolIfPresent.
    destruct (resolution build) eqn:Hres; [eexists; reflexivity| |];
      apply DART_SYMBOL_returns; rewrite Hres; exact Hdir. }
  assert (Hthird : forall s0, exists p,
            result (PrecompiledDataSnapshotSymbolIfPresent build settings e s0) =
            Ret p).
  { intros s0. unfold PrecompiledDataSnapshotSymbolIfPresent.
    destruct (resolution build) eqn:Hres; [eexists; reflexivity| |];
      apply DART_SYMBOL_returns; rewrite Hres; exact Hdir. }
  pose proof (fun s0 => DART_SYMBOL_returns build settings e
                          kDartVmIsolateSnapshotBufferName s0 Hdir) as Hfirst.
  unfold Dart_Initialize_arguments.
  destruct order;
    repeat lazymatch goal with
           | |- exists symbols, result (bind ?m _ ?s0) = _ =>
               let p := fresh "p" in
               let Hp := fresh "Hp" in
               first [ destruct (Hfirst s0) as (p & Hp);
                       rewrite (result_bind_Ret _ _ _ _ Hp)
                     | destruct (Hsecond s0) as (p & Hp);
                       rewrite (result_bind_Ret _ _ _ _ Hp)
                     | destruct (Hthird s0) as (p & Hp);
                       rewrite (result_bind_Ret _ _ _ _ Hp) ];
               cbv beta
           end;
    eexists; reflexivity.
Qed.

(** X18.  [InitDartVM] aborts in three cases only: the asset-mapping
    resolver has no snapshot directory, the VM rejects the flags, or
    [Dart_Initialize] reports an error.  A rejection of the flags and an
    error of the initialisation always abort, and the failing call is then
    the last one of the run. *)
Theorem InitDartVM_aborts_only
    (build : Build) (settings : SkySettings)
    (command_line : gmap string string) (e : Env) (ie : InitEnv)
    (order : ArgumentOrder) (s : Process) :
  let run := InitDartVM build settings command_line e ie order s in
  (boot_result run = Fatal ->
   (resolution build = DynamicAndroid /\ aot_snapshot_path settings = "") \/
   (exists args, Dart_SetVMFlags ie args = false /\
                 In (Init_Dart_SetVMFlags args) (boot_calls run)) \/
   (exists a b c, Dart_Initialize ie a b c <> None /\
                  In (Init_Dart_Initialize a b c) (boot_calls run))) /\
  (forall args,
     In (Init_Dart_SetVMFlags args) (boot_calls run) ->
     Dart_SetVMFlags ie args = false ->
     boot_result run = Fatal /\
     exists before, boot_calls run = before ++ [Init_Dart_SetVMFlags args]) /\
  (forall a b c,
     In (Init_Dart_Initialize a b c) (boot_calls run) ->
     Dart_Initialize ie a b c <> None ->
     boot_result run = Fatal /\
     exists before, boot_calls run = before ++ [Init_Dart_Initialize a b c]).
Proof.
  intros run. subst run.
  assert (Hdir :
    (resolution build = DynamicAndroid /\ aot_snapshot_path settings = "") \/
    (resolution build = DynamicAndroid -> aot_snapshot_path settings <> "")).
  { destruct (String.string_dec (aot_snapshot_path settings) "") as [Hempty|Hset];
      [|right; intros _; exact Hset].
    destruct (resolution build); [right; discriminate .. | left; now split]. }
  pose proof (InitDartVM_args_returns build settings command_line e s) as Hreturns.
  pose proof (Dart_Initialize_arguments_returns build settings e order
                (final (InitDartVM_args build settings command_line e s)))
    as Hreturns'.
  InitDartVM_outcomes build settings command_line e ie order s.
  all: split; [intros Hfatal | split; [intros args' Hin Hrejected
                                     | intros a b c Hin Hfailed]].
  all: try discriminate.
  all: try (call_kind Hin; try discriminate; try contradiction).
  all: try congruence.
  - right. right. exists vm, instructions, data.
    split; [congruence|]. apply in_or_app. right. now left.
  - injection Hin as <- <- <-. split; [reflexivity | eexists; reflexivity].
  - destruct Hdir as [Hempty | Hset]; [now left|].
    destruct (Hreturns' Hset) as (symbols & Hnone). discriminate.
  - right. left. exists args.
    split; [exact Haccepted|]. apply in_or_app. right. now left.
  - injection Hin as <-. split; [reflexivity | eexists; reflexivity].
  - destruct Hdir as [Hempty | Hset]; [now left|].
    destruct (Hreturns Hset) as (args & Hnone). discriminate.
Qed.

(** ** The symbol lookups of one run *)

Lemma DART_SYMBOL_after_other
    (build : Build) (settings : SkySettings) (e e' : Env)
    (name other : string) (s : Process) :
  name <> other ->
  result (DART_SYMBOL build settings e name
            (final (DART_SYMBOL build settings e' other s))) =
  result (DART_SYMBOL build settings e name s).
Proof.
  intros Hne. unfold DART_SYMBOL. destruct (resolution build).
  - reflexivity.
  - destruct (IOS_lookup_returns e (Some name)) as (q & Hq). now rewrite !Hq.
  - apply lookup_same_entry. now apply first_entry_after_other.
Qed.

(** In one environment, what a symbol resolves to is not changed by
    resolving any symbol, the same or another. *)
Lemma DART_SYMBOL_stable
    (build : Build) (settings : SkySettings) (e : Env)
    (name other : string) (s : Process) (p : ptr) :
  result (DART_SYMBOL build settings e name s) = Ret p ->
  result (DART_SYMBOL build settings e name
            (final (DART_SYMBOL build settings e other s))) = Ret p.
Proof.
  intros Hp. destruct (String.string_dec name other) as [<-|Hne].
  - now apply DART_SYMBOL_again.
  - now rewrite DART_SYMBOL_after_other.
Qed.

Section Resolved.
Variable build : Build.
Variable settings : SkySettings.
Variable e : Env.
Variable name : string.
Variable p : ptr.

Lemma resolved_DART_SYMBOL (other : string) :
  hoare (resolves_to build settings e name p) (DART_SYMBOL build settings e other)
    (fun q _ => other = name -> q = p).
Proof.
  intros s Hs. split; [now apply DART_SYMBOL_stable|].
  intros q Hq ->. unfold resolves_to in Hs. congruence.
Qed.

Lemma resolved_instructions :
  hoare (resolves_to build settings e name p) (PrecompiledInstructionsSymbolIfPresent build settings e)
    (fun q _ =>
       resolution build <> StaticResolution ->
       name = kInstructionsSnapshotName -> q = p).
Proof.
  unfold PrecompiledInstructionsSymbolIfPresent.
  destruct (resolution build).
  - apply hoare_ret. intros H. now contradiction H.
  - eapply hoare_weaken; [|apply resolved_DART_SYMBOL]. cbv beta. auto.
  - eapply hoare_weaken; [|apply resolved_DART_SYMBOL]. cbv beta. auto.
Qed.

Lemma resolved_data :
  hoare (resolves_to build settings e name p) (PrecompiledDataSnapshotSymbolIfPresent build settings e)
    (fun _ _ => True).
Proof.
  unfold PrecompiledDataSnapshotSymbolIfPresent.
  destruct (resolution build).
  - now apply hoare_ret.
  - eapply hoare_weaken; [|apply resolved_DART_SYMBOL]. cbv beta. auto.
  - eapply hoare_weaken; [|apply resolved_DART_SYMBOL]. cbv beta. auto.
Qed.

Lemma resolved_IsRunningPrecompiledCode :
  hoare (resolves_to build settings e name p) (IsRunningPrecompiledCode build settings e)
    (fun _ _ => True).
Proof.
  unfold IsRunningPrecompiledCode.
  destruct (resolution build) eqn:Hres; [now apply hoare_ret| |].
  all: eapply hoare_bind; [apply resolved_instructions|];
    intros q t _; now apply hoare_ret.
Qed.

Lemma resolved_InitDartVM_args (command_line : gmap string string) :
  hoare (resolves_to build settings e name p) (InitDartVM_args build settings command_line e)
    (fun _ _ => True).
Proof.
  unfold InitDartVM_args, ShouldEnableCheckedMode.
  eapply hoare_bind; [apply resolved_IsRunningPrecompiledCode|].
  intros precompiled t _.
  eapply hoare_bind.
  - eapply hoare_bind; [apply resolved_IsRunningPrecompiledCode|].
    intros again t' _.
    instantiate (1 := fun _ _ => True).
    destruct again; [|destruct (DART_STRICT build)]; now apply hoare_ret.
  - intros checked t' _. now apply hoare_ret.
Qed.

Lemma resolved_Dart_Initialize_arguments (order : ArgumentOrder) :
  hoare (resolves_to build settings e name p) (Dart_Initialize_arguments build settings e order)
    (fun symbols _ =>
       resolution build <> StaticResolution ->
       name = kInstructionsSnapshotName ->
       snd (fst symbols) = p).
Proof.
  unfold Dart_Initialize_arguments.
  destruct order;
    repeat lazymatch goal with
           | |- hoare _ (bind (DART_SYMBOL _ _ _ _) _) _ =>
               eapply hoare_bind; [apply resolved_DART_SYMBOL|];
               intros ? ? _; cbv beta
           | |- hoare _ (bind (PrecompiledInstructionsSymbolIfPresent _ _ _) _) _ =>
               eapply hoare_bind; [apply resolved_instructions|];
               intros ? ? ?; cbv beta
           | |- hoare _ (bind (PrecompiledDataSnapshotSymbolIfPresent _ _ _) _) _ =>
               eapply hoare_bind; [apply resolved_data|];
               intros ? ? _; cbv beta
           end;
    apply hoare_ret; cbn [fst snd]; assumption.
Qed.

End Resolved.

(** The three lookups do not get in each other's way. *)
Lemma symbols_in_any_order
    (build : Build) (settings : SkySettings) (e : Env)
    (order : ArgumentOrder) (s : Process) :
  result (Dart_Initialize_arguments build settings e order s) =
  symbols_at build settings e s.
Proof.
  assert (Hnames :
    kDartVmIsolateSnapshotBufferName <> kInstructionsSnapshotName /\
    kDartVmIsolateSnapshotBufferName <> kDataSnapshotName /\
    kInstructionsSnapshotName <> kDataSnapshotName) by (repeat split; discriminate).
  destruct Hnames as (H12 & H13 & H23).
  pose proof (fun n o (H : n <> o) s0 =>
                DART_SYMBOL_after_other build settings e e n o s0 H) as Hafter.
  unfold symbols_at, Dart_Initialize_arguments,
    PrecompiledInstructionsSymbolIfPresent,
    PrecompiledDataSnapshotSymbolIfPresent.
  destruct (resolution build) eqn:Hres;
    [unfold DART_SYMBOL; rewrite Hres; destruct order; reflexivity | |].
  all: destruct order.
  all: repeat lazymatch goal with
       | |- result (bind (DART_SYMBOL _ _ _ ?n) _ ?s0) = _ =>
           let E := fresh "E" in
           destruct (result (DART_SYMBOL build settings e n s)) eqn:E;
           [rewrite (result_bind_Ret (DART_SYMBOL build settings e n) _ s0 _)
              by (rewrite ?Hafter
                    by (assumption || (apply not_eq_sym; assumption));
                  exact E)
           |rewrite (result_bind_Fatal (DART_SYMBOL build settings e n) _ s0)
              by (rewrite ?Hafter
                    by (assumption || (apply not_eq_sym; assumption));
                  exact E)];
           cbv beta
       end.
  all: repeat match goal with
       | |- context [match result ?r with _ => _ end] => destruct (result r)
       end; reflexivity.
Qed.

Lemma IsRunningPrecompiledCode_resolved
    (build : Build) (settings : SkySettings) (e : Env) (s : Process)
    (precompiled : bool) :
  result (IsRunningPrecompiledCode build settings e s) = Ret precompiled ->
  match resolution build with
  | StaticResolution => precompiled = false
  | _ =>
      exists p,
        resolves_to build settings e kInstructionsSnapshotName p s /\
        precompiled = negb (is_null p)
  end.
Proof.
  unfold IsRunningPrecompiledCode, PrecompiledInstructionsSymbolIfPresent,
    resolves_to.
  destruct (resolution build); [intros H; now injection H as <- | |].
  all: intros H;
    destruct (result (DART_SYMBOL build settings e kInstructionsSnapshotName s))
      as [p|] eqn:Hp;
    [rewrite (result_bind_Ret _ _ _ _ Hp) in H
    |rewrite (result_bind_Fatal _ _ _ Hp) in H; discriminate];
    exists p; split; [reflexivity | now injection H as <-].
Qed.

(** X19.  The flags that [InitDartVM] hands to the VM are the ones composed
    for the execution mode found at the start; and when the VM is then
    initialised, the instructions snapshot it is given agrees with them: it
    is non-null exactly when the flags were composed for precompiled code. *)
Theorem flags_handed_to_the_vm
    (build : Build) (settings : SkySettings)
    (command_line : gmap string string) (e : Env) (ie : InitEnv)
    (order : ArgumentOrder) (s : Process) (args : list string) :
  let run := InitDartVM build settings command_line e ie order s in
  In (Init_Dart_SetVMFlags args) (boot_calls run) ->
  (exists precompiled,
     result (IsRunningPrecompiledCode build settings e s) = Ret precompiled /\
     args = composed_flags build settings command_line precompiled) /\
  (forall a b c,
     In (Init_Dart_Initialize a b c) (boot_calls run) ->
     args = composed_flags build settings command_line (negb (is_null b))).
Proof.
  intros run Hin. subst run.
  pose proof (InitDartVM_args_result build settings command_line e s) as Hcomposed.
  pose proof (symbols_in_any_order build settings e order
                (final (InitDartVM_args build settings command_line e s)))
    as Hcanonical.
  destruct (result (IsRunningPrecompiledCode build settings e s))
    as [precompiled|] eqn:Hmode.
  2: { exfalso. revert Hin. rewrite InitDartVM_run. cbv zeta.
       rewrite Hcomposed. cbn [boot_calls]. intros Hin.
       call_kind Hin; try discriminate; contradiction. }
  assert (Hargs : args = composed_flags build settings command_line precompiled).
  { revert Hin. rewrite InitDartVM_run. cbv zeta. rewrite Hcomposed.
    destruct (Dart_SetVMFlags ie _);
      [destruct (result (Dart_Initialize_arguments build settings e order _))
         as [[[vm instructions] data]|];
       [destruct (Dart_Initialize ie vm instructions data)|]|].
    all: cbn [boot_calls]; intros Hin.
    all: call_kind Hin; try discriminate; try contradiction.
    all: now injection Hin as <-. }
  split; [exists precompiled; now split|].
  intros a b c Hinit. rewrite Hargs. f_equal.
  assert (Hsymbols :
    result (Dart_Initialize_arguments build settings e order
              (final (InitDartVM_args build settings command_line e s))) =
    Ret (a, b, c)).
  { revert Hinit. rewrite InitDartVM_run. cbv zeta. rewrite Hcomposed.
    destruct (Dart_SetVMFlags ie _);
      [destruct (result (Dart_Initialize_arguments build settings e order _))
         as [[[vm instructions] data]|];
       [destruct (Dart_Initialize ie vm instructions data)|]|].
    all: cbn [boot_calls]; intros Hinit.
    all: call_kind Hinit; try discriminate; try contradiction.
    all: now injection Hinit as <- <- <-. }
  pose proof (IsRunningPrecompiledCode_resolved build settings e s precompiled
                Hmode) as Hresolved.
  destruct (resolution build) eqn:Hres.
  - subst precompiled. rewrite Hcanonical in Hsymbols.
    unfold symbols_at, PrecompiledInstructionsSymbolIfPresent in Hsymbols.
    rewrite Hres in Hsymbols.
    destruct (result (DART_SYMBOL _ _ _ _ _)); [|discriminate].
    cbn [result ret] in Hsymbols.
    destruct (result (PrecompiledDataSnapshotSymbolIfPresent _ _ _ _));
      [|discriminate].
    now injection Hsymbols as <- <- <-.
  - destruct Hresolved as (p & Hp & ->).
    destruct (resolved_InitDartVM_args build settings e
                kInstructionsSnapshotName p command_line s Hp) as [Hp' _].
    destruct (resolved_Dart_Initialize_arguments build settings e
                kInstructionsSnapshotName p order _ Hp') as [_ Hpost].
    specialize (Hpost _ Hsymbols). cbn [fst snd] in Hpost.
    rewrite Hpost; [reflexivity | now rewrite Hres | reflexivity].
  - destruct Hresolved as (p & Hp & ->).
    destruct (resolved_InitDartVM_args build settings e
                kInstructionsSnapshotName p command_line s Hp) as [Hp' _].
    destruct (resolved_Dart_Initialize_arguments build settings e
                kInstructionsSnapshotName p order _ Hp') as [_ Hpost].
    specialize (Hpost _ Hsymbols). cbn [fst snd] in Hpost.
    rewrite Hpost; [reflexivity | now rewrite Hres | reflexivity].
Qed.

Lemma outside_resolver_app (t1 t2 : list InitEvent) :
  outside_resolver (t1 ++ t2) = outside_resolver t1 ++ outside_resolver t2.
Proof. apply List.filter_app. Qed.

Lemma outside_resolver_map (t : list Event) :
  outside_resolver (map Init_resolver t) = [].
Proof. induction t; [reflexivity | exact IHt]. Qed.

(** X20.  The order in which the compiler evaluates the three symbol
    arguments of [Dart_Initialize] does not matter: whether [InitDartVM]
    returns, which symbols the VM is initialised with, and every call
    outside the resolver are the same under all six orders. *)
Theorem argument_order_does_not_matter
    (build : Build) (settings : SkySettings)
    (command_line : gmap string string) (e : Env) (ie : InitEnv)
    (order order' : ArgumentOrder) (s : Process) :
  let run := InitDartVM build settings command_line e ie order s in
  let run' := InitDartVM build settings command_line e ie order' s in
  boot_result run = boot_result run' /\
  outside_resolver (boot_calls run) = outside_resolver (boot_calls run').
Proof.
  cbv zeta. rewrite !InitDartVM_run. cbv zeta.
  rewrite !symbols_in_any_order.
  destruct (result (InitDartVM_args build settings command_line e s))
    as [args|]; [|split; reflexivity].
  destruct (Dart_SetVMFlags ie args); [|split; reflexivity].
  destruct (symbols_at build settings e _) as [[[vm instructions] data]|];
    [destruct (Dart_Initialize ie vm instructions data)|].
  all: cbn [boot_result boot_calls]; split; [reflexivity|].
  all: rewrite !outside_resolver_app, !outside_resolver_map; reflexivity.
Qed.

(** ** What the initialisation leaves alone *)

Section KeepsInit.
Context {C : Type} (field : Process -> C).
Hypothesis field_table : forall t s, field (with_symbol_assets t s) = field s.
Hypothesis field_dl_error : forall x s, field (with_dl_error x s) = field s.

Lemma keeps_InitDartVM_args
    (build : Build) (settings : SkySettings)
    (command_line : gmap string string) (e : Env) :
  keeps field (InitDartVM_args build settings command_line e).
Proof.
  pose proof (keeps_IsRunningPrecompiledCode field field_table field_dl_error
                build settings e).
  unfold InitDartVM_args, ShouldEnableCheckedMode. keeps_all.
Qed.

Lemma keeps_Dart_Initialize_arguments
    (build : Build) (settings : SkySettings) (e : Env)
    (order : ArgumentOrder) :
  keeps field (Dart_Initialize_arguments build settings e order).
Proof.
  pose proof (keeps_DART_SYMBOL field field_table field_dl_error build
                settings e) as Hsymbol.
  assert (keeps field (PrecompiledInstructionsSymbolIfPresent build settings e)).
  { unfold PrecompiledInstructionsSymbolIfPresent. keeps_all; apply Hsymbol. }
  assert (keeps field (PrecompiledDataSnapshotSymbolIfPresent build settings e)).
  { unfold PrecompiledDataSnapshotSymbolIfPresent. keeps_all; apply Hsymbol. }
  unfold Dart_Initialize_arguments.
  destruct order; keeps_all; apply Hsymbol.
Qed.

Lemma keeps_InitDartVM
    (build : Build) (settings : SkySettings)
    (command_line : gmap string string) (e : Env) (ie : InitEnv)
    (order : ArgumentOrder) (s : Process) :
  field (boot_final (InitDartVM build settings command_line e ie order s)) =
  field s.
Proof.
  pose proof (keeps_InitDartVM_args build settings command_line e s) as Hflags.
  pose proof (keeps_Dart_Initialize_arguments build settings e order
                (final (InitDartVM_args build settings command_line e s)))
    as Hsymbols.
  rewrite InitDartVM_run. cbv zeta.
  destruct (result (InitDartVM_args build settings command_line e s))
    as [args|]; [|exact Hflags].
  destruct (Dart_SetVMFlags ie args); [|exact Hflags].
  destruct (result (Dart_Initialize_arguments build settings e order _))
    as [[[vm instructions] data]|];
    [destruct (Dart_Initialize ie vm instructions data)|].
  all: cbn [boot_final]; now rewrite Hsymbols.
Qed.

End KeepsInit.

(** X21.  [InitDartVM] writes none of the embedder's globals but the table
    of mapped assets: the service-isolate flag, the two hooks and the
    capture switches are after the run, however it ends, what they were
    before; so the hooks can still be set after the initialisation if they
    could before. *)
Theorem InitDartVM_keeps_the_globals
    (build : Build) (settings : SkySettings)
    (command_line : gmap string string) (e : Env) (ie : InitEnv)
    (order : ArgumentOrder) (s : Process) (hook : option Hook) :
  let s' := boot_final (InitDartVM build settings command_line e ie order s) in
  g_service_isolate_initialized s' = g_service_isolate_initialized s /\
  g_service_isolate_hook s' = g_service_isolate_hook s /\
  g_register_native_service_protocol_extensions_hook s' =
    g_register_native_service_protocol_extensions_hook s /\
  capture_stdout s' = capture_stdout s /\
  capture_stderr s' = capture_stderr s /\
  result (SetServiceIsolateHook hook s') = result (SetServiceIsolateHook hook s) /\
  result (SetRegisterNativeServiceProtocolExtensionHook hook s') =
    result (SetRegisterNativeServiceProtocolExtensionHook hook s).
Proof.
  cbv zeta.
  assert (Hflag :
    g_service_isolate_initialized
      (boot_final (InitDartVM build settings command_line e ie order s)) =
    g_service_isolate_initialized s)
    by (apply keeps_InitDartVM; reflexivity).
  repeat split; try (apply keeps_InitDartVM; reflexivity).
  - unfold SetServiceIsolateHook, bind, get, FTL_CHECK.
    cbn [result final events]. rewrite Hflag.
    now destruct (g_service_isolate_initialized s).
  - unfold SetRegisterNativeServiceProtocolExtensionHook, CHECK, bind, get,
      FTL_CHECK.
    cbn [result final events]. rewrite Hflag.
    now destruct (g_service_isolate_initialized s).
Qed.

Lemma vm_is_initialized_after_its_setup_witness :
  let run :=
    InitDartVM snapshot_build sample_settings ∅ full_env ready_vm Order_123
      process_start in
  exists args before after,
    boot_calls run = before ++ Init_Dart_Initialize 4096 0 0 :: after /\
    Forall (fun ev => is_initialize_call ev = false) (before ++ after) /\
    In (Init_Dart_SetVMFlags args) before /\
    Dart_SetVMFlags ready_vm args = true /\
    In Init_DartUI_InitForGlobal before /\
    In Init_Dart_SetEmbedderTimelineCallbacks before /\
    In Init_Dart_SetFileModifiedCallback before /\
    (FLUTTER_PRODUCT_MODE snapshot_build = false ->
     In Init_InitDebugger before) /\
    (OS_ANDROID snapshot_build = true -> In Init_DartJni_InitForGlobal before).
Proof.
  apply (vm_is_initialized_after_its_setup snapshot_build sample_settings ∅
           full_env ready_vm Order_123 process_start 4096 0 0).
  vm_compute. auto 20.
Defined.

Lemma flags_handed_to_the_vm_witness :
  exists precompiled,
    result (IsRunningPrecompiledCode ios_build sample_settings full_env
              process_start) = Ret precompiled /\
    composed_flags ios_build sample_settings ∅ true =
    composed_flags ios_build sample_settings ∅ precompiled.
Proof.
  apply (flags_handed_to_the_vm ios_build sample_settings ∅ full_env ready_vm
           Order_321 process_start
           (composed_flags ios_build sample_settings ∅ true)).
  vm_compute. auto 20.
Defined.

(** ** Isolate creation: when it returns *)

(** X22.  On the generic path in snapshot mode the callback returns the
    isolate the VM created whenever nothing fails: the resolver has its
    directory, the URI has the "file://" scheme, the bundle has the snapshot
    asset, the VM creates an isolate, installs the tag handler, loads the
    snapshot if it is not empty, and makes the isolate runnable. *)
Theorem isolate_creation_succeeds
    (build : Build) (settings : SkySettings)
    (DART_VM_SERVICE_ISOLATE_NAME : string) (e : Env) (uri : string)
    (main package_root package_config : option string)
    (flags callback_data error : ptr) (s : Process) (buffer : list byte) :
  let script_uri := Some uri in
  let bundle_path := advance (String.length kFileUriPrefix) uri in
  let created :=
    IsolateCreateCallback build settings DART_VM_SERVICE_ISOLATE_NAME e
      script_uri main package_root package_config flags callback_data error s in
  IsServiceIsolateURL DART_VM_SERVICE_ISOLATE_NAME script_uri = false ->
  result (IsRunningPrecompiledCode build settings e s) = Ret false ->
  (resolution build = DynamicAndroid -> aot_snapshot_path settings <> "") ->
  StartsWith uri kFileUriPrefix = true ->
  GetAsBuffer e bundle_path kSnapshotAssetKey = Some buffer ->
  (forall snapshot,
     Dart_CreateIsolate e script_uri main snapshot
       (CreateForChildIsolate e callback_data) <> nullptr) ->
  Dart_SetLibraryTagHandler_is_error e = false ->
  (buffer <> [] -> Dart_LoadScriptFromSnapshot_is_error e buffer = false) ->
  (forall isolate, Dart_IsolateMakeRunnable e isolate = true) ->
  exists snapshot,
    result created =
    Ret (Dart_CreateIsolate e script_uri main snapshot
           (CreateForChildIsolate e callback_data)).
Proof.
  intros script_uri bundle_path created.
  intros Hservice Hmode Hdir Hscheme Hbuffer Hcreate Htag Hload Hrunnable.
  subst script_uri created.
  apply run_of_result in Hmode.
  destruct (DART_SYMBOL_returns build settings e kDartIsolateSnapshotBufferName
              (final (IsRunningPrecompiledCode build settings e s)) Hdir)
    as (snapshot & Hsnapshot).
  apply run_of_result in Hsnapshot.
  exists snapshot.
  pose (isolate := Dart_CreateIsolate e (Some uri) main snapshot
                     (CreateForChildIsolate e callback_data)).
  assert (Hisolate : negb (is_null isolate) = true).
  { unfold is_null, isolate.
    now rewrite (proj2 (Z.eqb_neq _ _) (Hcreate snapshot)). }
  assert (Htag' : negb (Dart_SetLibraryTagHandler_is_error e) = true)
    by now rewrite Htag.
  unfold IsolateCreateCallback. rewrite Hservice.
  cbn [default from_option id negb]. fold bundle_path. rewrite Hbuffer.
  enough (Hrun : exists state calls,
    bind (IsRunningPrecompiledCode build settings e) _ s =
    mkRun (Ret isolate) state calls)
    by (destruct Hrun as (state & calls & ->); reflexivity).
  destruct buffer as [|b buffer].
  - destruct (OS_ANDROID build); do 2 eexists;
      run_with ltac:(first [eassumption | apply Hrunnable | reflexivity]).
  - assert (Hload' :
      negb (Dart_LoadScriptFromSnapshot_is_error e (b :: buffer)) = true)
      by (rewrite Hload; [reflexivity | discriminate]).
    destruct (OS_ANDROID build); do 2 eexists;
      run_with ltac:(first [eassumption | apply Hrunnable | reflexivity]).
Qed.

Lemma isolate_creation_succeeds_witness :
  exists snapshot,
    result
      (IsolateCreateCallback snapshot_build sample_settings "vm-service"
         bundle_env (Some "file:///data/app.flx") (Some "main") None None 0
         256 0 process_start) =
    Ret (Dart_CreateIsolate bundle_env (Some "file:///data/app.flx")
           (Some "main") snapshot (CreateForChildIsolate bundle_env 256)).
Proof.
  apply (isolate_creation_succeeds snapshot_build sample_settings "vm-service"
           bundle_env "file:///data/app.flx" (Some "main") None None 0 256 0
           process_start [x2a]); try reflexivity; try discriminate.
  all: intros; discriminate.
Defined.

(** X23.  When the process runs precompiled code, the generic path neither
    looks at the URI's scheme, nor opens a bundle, nor loads a script
    snapshot: whatever the URI, none of its calls is a bundle call or a
    script load, and it returns the isolate the VM created as soon as the VM
    creates one, installs the tag handler and makes the isolate runnable. *)
Theorem precompiled_isolate_creation
    (build : Build) (settings : SkySettings)
    (DART_VM_SERVICE_ISOLATE_NAME : string) (e : Env)
    (script_uri main package_root package_config : option string)
    (flags callback_data error : ptr) (s : Process) :
  let created :=
    IsolateCreateCallback build settings DART_VM_SERVICE_ISOLATE_NAME e
      script_uri main package_root package_config flags callback_data error s in
  IsServiceIsolateURL DART_VM_SERVICE_ISOLATE_NAME script_uri = false ->
  result (IsRunningPrecompiledCode build settings e s) = Ret true ->
  Forall (fun ev => is_asset_bundle_event ev = false /\
                    is_load_script_event ev = false) (events created) /\
  ((resolution build = DynamicAndroid -> aot_snapshot_path settings <> "") ->
   (forall snapshot,
      Dart_CreateIsolate e script_uri main snapshot
        (CreateForChildIsolate e callback_data) <> nullptr) ->
   Dart_SetLibraryTagHandler_is_error e = false ->
   (forall isolate, Dart_IsolateMakeRunnable e isolate = true) ->
   exists snapshot,
     result created =
     Ret (Dart_CreateIsolate e script_uri main snapshot
            (CreateForChildIsolate e callback_data))).
Proof.
  intros created Hservice Hmode. subst created. split.
  - now apply IsolateCreateCallback_precompiled.
  - intros Hdir Hcreate Htag Hrunnable.
    apply run_of_result in Hmode.
    destruct (DART_SYMBOL_returns build settings e
                kDartIsolateSnapshotBufferName
                (final (IsRunningPrecompiledCode build settings e s)) Hdir)
      as (snapshot & Hsnapshot).
    apply run_of_result in Hsnapshot.
    exists snapshot.
    pose (isolate := Dart_CreateIsolate e script_uri main snapshot
                       (CreateForChildIsolate e callback_data)).
    assert (Hisolate : negb (is_null isolate) = true).
    { unfold is_null, isolate.
      now rewrite (proj2 (Z.eqb_neq _ _) (Hcreate snapshot)). }
    assert (Htag' : negb (Dart_SetLibraryTagHandler_is_error e) = true)
      by now rewrite Htag.
    unfold IsolateCreateCallback. rewrite Hservice.
    enough (Hrun : exists state calls,
      bind (IsRunningPrecompiledCode build settings e) _ s =
      mkRun (Ret isolate) state calls)
      by (destruct Hrun as (state & calls & ->); reflexivity).
    destruct (OS_ANDROID build); do 2 eexists;
      run_with ltac:(first [eassumption | apply Hrunnable | reflexivity]).
Qed.

Lemma precompiled_isolate_creation_witness :
  exists snapshot,
    result
      (IsolateCreateCallback ios_build sample_settings "vm-service" full_env
         (Some "package:app/main.dart") (Some "main") None None 0 256 0
         process_start) =
    Ret (Dart_CreateIsolate full_env (Some "package:app/main.dart")
           (Some "main") snapshot (CreateForChildIsolate full_env 256)).
Proof.
  apply (precompiled_isolate_creation ios_build sample_settings "vm-service"
           full_env (Some "package:app/main.dart") (Some "main") None None
           0 256 0 process_start); try reflexivity; try discriminate.
  all: intros; discriminate.
Defined.

(** X24.  Outside product builds the service-isolate creation returns the
    isolate the VM created whenever nothing fails: the resolver has its
    directory, the VM creates an isolate and says it is the service isolate,
    installs the tag handler and, if the observatory is enabled, starts the
    service; whether hooks are set or not. *)
Theorem service_isolate_creation_succeeds
    (build : Build) (settings : SkySettings) (e : Env)
    (script_uri : option string) (error : ptr) (s : Process) :
  let created := ServiceIsolateCreateCallback build settings e script_uri error s in
  FLUTTER_PRODUCT_MODE build = false ->
  (resolution build = DynamicAndroid -> aot_snapshot_path settings <> "") ->
  (forall snapshot,
     Dart_CreateIsolate e script_uri (Some "main") snapshot (new_DartState e)
     <> nullptr) ->
  (forall isolate, Dart_IsServiceIsolate e isolate = true) ->
  Dart_SetLibraryTagHandler_is_error e = false ->
  (enable_observatory settings = true ->
   forall precompiled,
     DartServiceIsolate_Startup e "127.0.0.1" (observatory_port settings)
       precompiled false = true) ->
  exists snapshot,
    result created =
    Ret (Dart_CreateIsolate e script_uri (Some "main") snapshot
           (new_DartState e)).
Proof.
  intros created Hproduct Hdir Hcreate Hservice Htag Hstartup. subst created.
  pose (mode_at := fun s0 =>
          match result (IsRunningPrecompiledCode build settings e s0) with
          | Ret precompiled => precompiled
          | Fatal => false
          end).
  assert (Hmode : forall s0,
            IsRunningPrecompiledCode build settings e s0 =
            mkRun (Ret (mode_at s0))
              (final (IsRunningPrecompiledCode build settings e s0))
              (events (IsRunningPrecompiledCode build settings e s0))).
  { intros s0. apply run_of_result. unfold mode_at.
    destruct (IsRunningPrecompiledCode_returns build settings e s0 Hdir)
      as (precompiled & ->). reflexivity. }
  assert (Hhook : forall hook ev s0,
            call_hook build settings e hook ev s0 =
            mkRun (Ret tt) (final (call_hook build settings e hook ev s0))
              (events (call_hook build settings e hook ev s0))).
  { intros hook ev s0. apply run_of_result. unfold call_hook.
    destruct hook as [h|]; [|reflexivity].
    now rewrite (result_bind_Ret _ _ _ _ (f_equal result (Hmode s0))). }
  destruct (DART_SYMBOL_returns build settings e kDartIsolateSnapshotBufferName
              s Hdir) as (snapshot & Hsnapshot).
  apply run_of_result in Hsnapshot.
  exists snapshot.
  pose (isolate := Dart_CreateIsolate e script_uri (Some "main") snapshot
                     (new_DartState e)).
  assert (Hisolate : negb (is_null isolate) = true).
  { unfold is_null, isolate.
    now rewrite (proj2 (Z.eqb_neq _ _) (Hcreate snapshot)). }
  assert (Htag' : negb (Dart_SetLibraryTagHandler_is_error e) = true)
    by now rewrite Htag.
  unfold ServiceIsolateCreateCallback. rewrite Hproduct.
  enough (Hrun : exists state calls,
    bind (call Ev_new_DartState (new_DartState e)) _ s =
    mkRun (Ret isolate) state calls)
    by (destruct Hrun as (state & calls & ->); reflexivity).
  destruct (enable_observatory settings) eqn:Hobservatory; do 2 eexists.
  all: run_with ltac:(first [ eassumption | apply Hservice | apply Hmode
                            | apply Hhook | now apply Hstartup
                            | reflexivity ]).
Qed.

Lemma service_isolate_creation_succeeds_witness :
  exists snapshot,
    result
      (ServiceIsolateCreateCallback snapshot_build
         (mkSkySettings true 8181 false false false "/data/aot" "")
         full_env (Some "vm-service") 0
         (with_service_isolate_hook (Some 1%nat) process_start)) =
    Ret (Dart_CreateIsolate full_env (Some "vm-service") (Some "main") snapshot
           (new_DartState full_env)).
Proof.
  apply (service_isolate_creation_succeeds snapshot_build
           (mkSkySettings true 8181 false false false "/data/aot" "")
           full_env (Some "vm-service") 0
           (with_service_isolate_hook (Some 1%nat) process_start));
    try reflexivity; try discriminate.
  all: intros; first [discriminate | reflexivity].
Defined.

(** ** Isolate creation and the globals *)

Section KeepsCreation.
Context {C : Type} (field : Process -> C).
Hypothesis field_table : forall t s, field (with_symbol_assets t s) = field s.
Hypothesis field_dl_error : forall x s, field (with_dl_error x s) = field s.

Lemma keeps_generic_path
    (build : Build) (settings : SkySettings)
    (DART_VM_SERVICE_ISOLATE_NAME : string) (e : Env)
    (script_uri main package_root package_config : option string)
    (flags callback_data error : ptr) :
  IsServiceIsolateURL DART_VM_SERVICE_ISOLATE_NAME script_uri = false ->
  keeps field
    (IsolateCreateCallback build settings DART_VM_SERVICE_ISOLATE_NAME e
       script_uri main package_root package_config flags callback_data error).
Proof.
  intros Hservice.
  pose proof (keeps_IsRunningPrecompiledCode field field_table field_dl_error
                build settings e).
  pose proof (keeps_DART_SYMBOL field field_table field_dl_error build
                settings e kDartIsolateSnapshotBufferName).
  unfold IsolateCreateCallback. rewrite Hservice. keeps_all.
Qed.

Hypothesis field_initialized : forall b s, field (with_initialized b s) = field s.

Lemma keeps_ServiceIsolateCreateCallback
    (build : Build) (settings : SkySettings) (e : Env)
    (script_uri : option string) (error : ptr) :
  keeps field (ServiceIsolateCreateCallback build settings e script_uri error).
Proof.
  pose proof (keeps_IsRunningPrecompiledCode field field_table field_dl_error
                build settings e).
  pose proof (keeps_DART_SYMBOL field field_table field_dl_error build
                settings e kDartIsolateSnapshotBufferName).
  unfold ServiceIsolateCreateCallback, call_hook. keeps_all.
  all: apply field_initialized.
Qed.

Lemma keeps_IsolateCreateCallback
    (build : Build) (settings : SkySettings)
    (DART_VM_SERVICE_ISOLATE_NAME : string) (e : Env)
    (script_uri main package_root package_config : option string)
    (flags callback_data error : ptr) :
  keeps field
    (IsolateCreateCallback build settings DART_VM_SERVICE_ISOLATE_NAME e
       script_uri main package_root package_config flags callback_data error).
Proof.
  destruct (IsServiceIsolateURL DART_VM_SERVICE_ISOLATE_NAME script_uri)
    eqn:Hservice.
  - unfold IsolateCreateCallback. rewrite Hservice.
    apply keeps_ServiceIsolateCreateCallback.
  - now apply keeps_generic_path.
Qed.

End KeepsCreation.

Lemma hoare_keeps {A C : Type} (field : Process -> C) (v : C) (m : M A) :
  keeps field m -> hoare (fun s => field s = v) m (fun _ _ => True).
Proof.
  intros Hm s Hs. split; [now rewrite Hm | intros; exact Logic.I].
Qed.

(** X25.  The isolate-creation callback, on either path and however it
    ends, never writes the two hooks or the capture switches, and never
    lowers the service-isolate flag; on the generic path it does not touch
    the flag at all.  So once the service isolate is initialised, no later
    isolate creation makes the hook setters usable again. *)
Theorem isolate_creation_keeps_the_globals
    (build : Build) (settings : SkySettings)
    (DART_VM_SERVICE_ISOLATE_NAME : string) (e : Env)
    (script_uri main package_root package_config : option string)
    (flags callback_data error : ptr) (s : Process) :
  let s' :=
    final (IsolateCreateCallback build settings DART_VM_SERVICE_ISOLATE_NAME e
             script_uri main package_root package_config flags callback_data
             error s) in
  g_service_isolate_hook s' = g_service_isolate_hook s /\
  g_register_native_service_protocol_extensions_hook s' =
    g_register_native_service_protocol_extensions_hook s /\
  capture_stdout s' = capture_stdout s /\
  capture_stderr s' = capture_stderr s /\
  (g_service_isolate_initialized s = true ->
   g_service_isolate_initialized s' = true) /\
  (IsServiceIsolateURL DART_VM_SERVICE_ISOLATE_NAME script_uri = false ->
   g_service_isolate_initialized s' = g_service_isolate_initialized s).
Proof.
  cbv zeta.
  do 4 (split; [apply keeps_IsolateCreateCallback; reflexivity|]).
  split.
  - intros Hset.
    destruct (IsServiceIsolateURL DART_VM_SERVICE_ISOLATE_NAME script_uri)
      eqn:Hservice.
    + unfold IsolateCreateCallback. rewrite Hservice.
      enough (Hkept :
        hoare (fun s => g_service_isolate_initialized s = true)
          (ServiceIsolateCreateCallback build settings e script_uri error)
          (fun _ _ => True)) by exact (proj1 (Hkept s Hset)).
      pose proof (hoare_keeps g_service_isolate_initialized true _
                    (keeps_flag_IsRunningPrecompiledCode build settings e))
        as Hmode.
      pose proof (hoare_keeps g_service_isolate_initialized true _
                    (keeps_DART_SYMBOL g_service_isolate_initialized
                       ltac:(reflexivity) ltac:(reflexivity) build settings e
                       kDartIsolateSnapshotBufferName)) as Hsymbol.
      unfold ServiceIsolateCreateCallback.
      destruct (FLUTTER_PRODUCT_MODE build); [now apply hoare_ret|].
      repeat (cbv beta;
              lazymatch goal with
              | |- hoare _ (bind (call _ _) _) _ => apply hoare_bind_call
              | |- hoare _ (bind (FTL_CHECK _) _) _ =>
                  apply hoare_bind_check; intros _
              | |- hoare _ (bind (modify _) _) _ =>
                  apply hoare_bind_modify; [intros; reflexivity|]
              | |- hoare _ (bind (get _) _) _ =>
                  apply hoare_bind_read; intros ? _
              | |- hoare _ (bind _ _) _ =>
                  apply (hoare_bind _ _ _ (fun _ _ => True)); [|intros ? ? _]
              | |- hoare _ (ret _) _ => now apply hoare_ret
              | |- hoare _ (call _ _) _ =>
                  eapply hoare_weaken; [|apply hoare_call]; now intros
              | |- hoare _ (FTL_CHECK _) _ =>
                  eapply hoare_weaken; [|apply hoare_check]; now intros
              | |- hoare _ (if ?c then _ else _) _ => destruct c
              | |- hoare _ (call_hook _ _ _ ?h _) _ =>
                  unfold call_hook; destruct h
              | |- hoare _ (DART_SYMBOL _ _ _ _) _ => exact Hsymbol
              | |- hoare _ (IsRunningPrecompiledCode _ _ _) _ => exact Hmode
              end).
    + now rewrite (keeps_generic_path g_service_isolate_initialized
                     ltac:(reflexivity) ltac:(reflexivity) build settings
                     DART_VM_SERVICE_ISOLATE_NAME e script_uri main
                     package_root package_config flags callback_data error
                     Hservice s).
  - intros Hservice.
    apply (keeps_generic_path g_service_isolate_initialized
             ltac:(reflexivity) ltac:(reflexivity) build settings
             DART_VM_SERVICE_ISOLATE_NAME e script_uri main package_root
             package_config flags callback_data error Hservice s).
Qed.

(** ** The mode test over one run *)

Lemma IsRunningPrecompiledCode_of_resolved
    (build : Build) (settings : SkySettings) (e : Env) (s : Process) (p : ptr) :
  resolution build <> StaticResolution ->
  resolves_to build settings e kInstructionsSnapshotName p s ->
  result (IsRunningPrecompiledCode build settings e s) = Ret (negb (is_null p)).
Proof.
  unfold IsRunningPrecompiledCode, PrecompiledInstructionsSymbolIfPresent,
    resolves_to.
  intros Hres Hp. destruct (resolution build); [now contradiction Hres| |].
  all: now rewrite (result_bind_Ret _ _ _ _ Hp).
Qed.

(** A mode that the test has returned is returned again after any symbol
    lookup in the same environment. *)
Lemma IsRunningPrecompiledCode_after_symbol
    (build : Build) (settings : SkySettings) (e : Env) (other : string)
    (s : Process) (precompiled : bool) :
  result (IsRunningPrecompiledCode build settings e s) = Ret precompiled ->
  result (IsRunningPrecompiledCode build settings e
            (final (DART_SYMBOL build settings e other s))) = Ret precompiled.
Proof.
  intros Hmode.
  pose proof (IsRunningPrecompiledCode_resolved build settings e s precompiled
                Hmode) as Hresolved.
  destruct (resolution build) eqn:Hres.
  - unfold IsRunningPrecompiledCode. rewrite Hres. now subst.
  - destruct Hresolved as (p & Hp & ->).
    apply IsRunningPrecompiledCode_of_resolved; [now rewrite Hres|].
    now apply DART_SYMBOL_stable.
  - destruct Hresolved as (p & Hp & ->).
    apply IsRunningPrecompiledCode_of_resolved; [now rewrite Hres|].
    now apply DART_SYMBOL_stable.
Qed.

(** The mode test does not read the service-isolate flag. *)
Lemma IsRunningPrecompiledCode_ignores_flag
    (build : Build) (settings : SkySettings) (e : Env) (b : bool) (s : Process) :
  result (IsRunningPrecompiledCode build settings e (with_initialized b s)) =
  result (IsRunningPrecompiledCode build settings e s).
Proof.
  unfold IsRunningPrecompiledCode, PrecompiledInstructionsSymbolIfPresent,
    DART_SYMBOL.
  destruct (resolution build); [reflexivity| |].
  - destruct (IOS_lookup_returns e (Some kInstructionsSnapshotName)) as (q & Hq).
    now rewrite !(result_bind_Ret _ _ _ _ (Hq _)).
  - unfold bind. rewrite !lookup_by_first_entry.
    cbn [g_symbol_assets with_initialized].
    destruct (first_entry _ _) as [a|]; [|reflexivity].
    destruct (is_null (SymbolAsset.mapping a)); [|reflexivity].
    destruct (ANDROID.empty (aot_snapshot_path settings)); [reflexivity|].
    destruct (map_asset settings e a) as [[p written] calls]. reflexivity.
Qed.

Section ModeAgrees.
Variable build : Build.
Variable settings : SkySettings.
Variable e : Env.
Variable start : Process.

Lemma mode_agrees_start : mode_agrees build settings e start start.
Proof. intros precompiled H. exact H. Qed.

Lemma mode_agrees_DART_SYMBOL (other : string) (s : Process) :
  mode_agrees build settings e start s ->
  mode_agrees build settings e start
    (final (DART_SYMBOL build settings e other s)).
Proof.
  intros Hs precompiled Hstart.
  apply IsRunningPrecompiledCode_after_symbol. now apply Hs.
Qed.

Lemma mode_agrees_IsRunningPrecompiledCode (s : Process) :
  mode_agrees build settings e start s ->
  mode_agrees build settings e start
    (final (IsRunningPrecompiledCode build settings e s)).
Proof.
  intros Hs precompiled Hstart.
  apply IsRunningPrecompiledCode_again. now apply Hs.
Qed.

Lemma mode_agrees_with_initialized (b : bool) (s : Process) :
  mode_agrees build settings e start s ->
  mode_agrees build settings e start (with_initialized b s).
Proof.
  intros Hs precompiled Hstart.
  rewrite IsRunningPrecompiledCode_ignores_flag. now apply Hs.
Qed.

End ModeAgrees.

(** ** The two hooks of the service isolate, and the mode they are given *)

Lemma hoare_call_hook
    (build : Build) (settings : SkySettings) (e : Env) (start : Process)
    (I : Process -> Prop) (hook : option Hook) (ev : Hook -> bool -> Event) :
  (forall s, I s -> mode_agrees build settings e start s) ->
  (forall s, I s -> I (final (IsRunningPrecompiledCode build settings e s))) ->
  hoare I (call_hook build settings e hook ev)
    (fun _ t => hook_calls build settings e start hook ev t).
Proof.
  intros Hagrees Hframe. unfold call_hook. destruct hook as [h|].
  - intros s1 Hs1. unfold bind.
    destruct (result (IsRunningPrecompiledCode build settings e s1))
      as [mode|] eqn:Hmode; cbn [result final events call].
    + split; [now apply Hframe|]. intros _ _.
      exists s1, mode. split; [exact Hmode|]. split; [reflexivity|].
      split; [apply emits_IsRunningPrecompiledCode | now apply Hagrees].
    + split; [now apply Hframe | discriminate].
  - apply hoare_ret. reflexivity.
Qed.

(** X15.  Outside product builds, in a service-isolate creation that
    returns, each of the two hooks is called if and only if it is set, and
    then once, with the execution mode that the mode test returns when it is
    run, immediately before the call, from the state the creation is in; in
    one environment this is the mode the process had when the creation
    began.  The service-isolate hook is called inside the API scope, as the
    last thing before the scope ends and the isolate is exited; the
    extension hook after the exit, as the last call of the run. *)
Theorem service_isolate_hooks_in_order
    (build : Build) (settings : SkySettings) (e : Env)
    (script_uri : option string) (error : ptr) (s : Process) (isolate : ptr) :
  let created := ServiceIsolateCreateCallback build settings e script_uri error s in
  FLUTTER_PRODUCT_MODE build = false ->
  result created = Ret isolate ->
  exists outside inside service_calls extension_calls,
    events created =
      outside ++ [Ev_DartApiScope_enter] ++ inside ++ service_calls ++
      [Ev_DartApiScope_leave; Ev_Dart_ExitIsolate] ++ extension_calls /\
    Forall (fun ev => is_hook_event ev = false) outside /\
    Forall (fun ev => is_hook_event ev = false) inside /\
    hook_calls build settings e s (g_service_isolate_hook s)
      Ev_service_isolate_hook service_calls /\
    hook_calls build settings e s
      (g_register_native_service_protocol_extensions_hook s)
      Ev_extensions_hook extension_calls.
Proof.
  intros created Hproduct Hreturned. subst created.
  set (h1 := g_service_isolate_hook s).
  set (h2 := g_register_native_service_protocol_extensions_hook s).
  pose (I := fun s' : Process =>
               g_service_isolate_hook s' = h1 /\
               g_register_native_service_protocol_extensions_hook s' = h2 /\
               mode_agrees build settings e s s').
  pose (Q1 := fun (_ : ptr) (t : list Event) =>
    exists inside service_calls extension_calls,
      t = inside ++ service_calls ++
          [Ev_DartApiScope_leave; Ev_Dart_ExitIsolate] ++ extension_calls /\
      Forall (fun ev => is_hook_event ev = false) inside /\
      hook_calls build settings e s h1 Ev_service_isolate_hook service_calls /\
      hook_calls build settings e s h2 Ev_extensions_hook extension_calls).
  pose (Q := fun (b : ptr) (t : list Event) =>
    exists outside rest,
      t = outside ++ [Ev_DartApiScope_enter] ++ rest /\
      Forall (fun ev => is_hook_event ev = false) outside /\
      Q1 b rest).
  assert (HQ1 : forall t0 b t,
            Forall (fun ev => is_hook_event ev = false) t0 ->
            Q1 b t -> Q1 b (t0 ++ t)).
  { intros t0 b t Ht0 (inside & c1 & c2 & -> & Hin & H1 & H2).
    exists (t0 ++ inside), c1, c2.
    split; [now rewrite <- app_assoc|].
    split; [now apply Forall_app|]. now split. }
  assert (HQ : forall t0 b t,
            Forall (fun ev => is_hook_event ev = false) t0 ->
            Q b t -> Q b (t0 ++ t)).
  { intros t0 b t Ht0 (outside & rest & -> & Hout & Hrest).
    exists (t0 ++ outside), rest.
    split; [now rewrite <- app_assoc|].
    split; [now apply Forall_app|]. exact Hrest. }
  assert (Hagrees : forall s', I s' -> mode_agrees build settings e s s')
    by (intros s' (_ & _ & H); exact H).
  assert (Hframe_mode : forall s',
            I s' -> I (final (IsRunningPrecompiledCode build settings e s'))).
  { intros s' (E1 & E2 & E3). unfold I.
    rewrite !keeps_IsRunningPrecompiledCode by reflexivity.
    split; [exact E1|]. split; [exact E2|].
    now apply mode_agrees_IsRunningPrecompiledCode. }
  assert (Hframe_symbol : forall other s',
            I s' -> I (final (DART_SYMBOL build settings e other s'))).
  { intros other s' (E1 & E2 & E3). unfold I.
    rewrite !keeps_DART_SYMBOL by reflexivity.
    split; [exact E1|]. split; [exact E2|].
    now apply mode_agrees_DART_SYMBOL. }
  assert (Hmode : hoare I (IsRunningPrecompiledCode build settings e)
                    (fun _ t => Forall (fun ev => is_hook_event ev = false) t)).
  { apply hoare_emits; [exact Hframe_mode|].
    eapply emits_weaken; [apply resolver_not_hook|].
    apply emits_IsRunningPrecompiledCode. }
  assert (Hhoare :
    hoare I (ServiceIsolateCreateCallback build settings e script_uri error) Q).
  { unfold ServiceIsolateCreateCallback. rewrite Hproduct.
    apply hoare_bind_call_weak;
      [intros b t; apply (HQ [_]); now repeat constructor|].
    apply (hoare_bind_weak _ _ _
             (fun _ t => Forall (fun ev => is_hook_event ev = false) t)).
    { intros _ t1 b t2 Ht1. now apply HQ. }
    { apply hoare_emits; [apply Hframe_symbol|].
      eapply emits_weaken; [apply resolver_not_hook|].
      apply emits_DART_SYMBOL. }
    intros snapshot _.
    repeat (cbv beta;
            lazymatch goal with
            | |- hoare _ (bind (call Ev_DartApiScope_enter _) _) _ => fail
            | |- hoare _ (bind (call _ _) _) _ =>
                apply hoare_bind_call_weak;
                [intros b t; apply (HQ [_]); now repeat constructor|]
            | |- hoare _ (bind (FTL_CHECK _) _) _ =>
                apply hoare_bind_check; intros _
            end).
    apply hoare_bind_call.
    apply (hoare_weaken _ _ Q1).
    { intros b t Ht. exists [], t. split; [reflexivity|].
      split; [constructor | exact Ht]. }
    repeat (cbv beta;
            lazymatch goal with
            | |- hoare _ (bind (call _ _) _) _ =>
                apply hoare_bind_call_weak;
                [intros b t; apply (HQ1 [_]); now repeat constructor|]
            end).
    apply (hoare_bind_weak _ _ _
             (fun _ t => Forall (fun ev => is_hook_event ev = false) t)).
    { intros _ t1 b t2 Ht1. now apply HQ1. }
    { destruct (enable_observatory settings);
        [|apply hoare_ret; constructor].
      eapply hoare_bind; [exact Hmode|].
      intros precompiled t1 Ht1. cbv beta.
      apply hoare_bind_call.
      eapply hoare_weaken; [|apply hoare_check].
      intros _ t [_ ->]. cbv beta.
      apply Forall_app. split; [exact Ht1 | now repeat constructor]. }
    intros _ _.
    apply hoare_bind_read. intros hook1 (s1 & (E1 & _) & <-).
    apply (hoare_bind _ _ _
             (fun _ t => hook_calls build settings e s h1
                           Ev_service_isolate_hook t)).
    { rewrite E1. now apply hoare_call_hook. }
    intros _ service_calls Hservice.
    do 2 (cbv beta; apply hoare_bind_call).
    cbv beta. apply hoare_bind_modify.
    { intros s' (E1' & E2' & E3'). split; [exact E1'|]. split; [exact E2'|].
      now apply mode_agrees_with_initialized. }
    apply hoare_bind_read. intros hook2 (s2 & (_ & E2 & _) & <-).
    apply (hoare_bind _ _ _
             (fun _ t => hook_calls build settings e s h2
                           Ev_extensions_hook t)).
    { rewrite E2. now apply hoare_call_hook. }
    intros _ extension_calls Hextension.
    cbv beta. apply hoare_ret.
    exists [], service_calls, extension_calls.
    split; [now rewrite app_nil_r|]. split; [constructor|]. now split. }
  destruct (Hhoare s (conj eq_refl (conj eq_refl (mode_agrees_start _ _ _ _))))
    as [_ Hpost].
  destruct (Hpost isolate Hreturned)
    as (outside & rest & Hevents & Hout &
        inside & c1 & c2 & -> & Hin & H1 & H2).
  exists outside, inside, c1, c2. repeat split; assumption.
Qed.

Lemma service_isolate_hooks_in_order_witness :
  let s :=
    with_service_isolate_hook (Some 1%nat)
      (with_extensions_hook (Some 2%nat) process_start) in
  exists outside inside service_calls extension_calls,
    events (ServiceIsolateCreateCallback snapshot_build sample_settings
              full_env (Some "vm-service") 0 s) =
      outside ++ [Ev_DartApiScope_enter] ++ inside ++ service_calls ++
      [Ev_DartApiScope_leave; Ev_Dart_ExitIsolate] ++ extension_calls /\
    Forall (fun ev => is_hook_event ev = false) outside /\
    Forall (fun ev => is_hook_event ev = false) inside /\
    hook_calls snapshot_build sample_settings full_env s (Some 1%nat)
      Ev_service_isolate_hook service_calls /\
    hook_calls snapshot_build sample_settings full_env s (Some 2%nat)
      Ev_extensions_hook extension_calls.
Proof.
  apply (service_isolate_hooks_in_order snapshot_build sample_settings full_env
           (Some "vm-service") 0
           (with_service_isolate_hook (Some 1%nat)
              (with_extensions_hook (Some 2%nat) process_start)) 7);
    reflexivity.
Defined.
